(** * Portfolio performance

    A shallow embedding of [portfolio_performance.py]: the date normaliser
    ([try_convert_date_time], [date_checker]), the null guard ([df_checker]),
    the storage class [FormalData] with its lazily filled caches, the
    aggregation of [PortfolioData] and the three public queries of
    [PortfolioPerformanceData].

    The program is written against pandas.  The part of pandas it uses is
    modelled here as labelled arrays:

    - a [DataFrame] is a list of row labels (dates), a list of column labels
      (asset or currency identifiers), a positional array of cells and a
      dtype: numeric, or object (cells that are Python objects);
    - a [Series] is a list of row labels, a positional array of cells and a
      name;
    - a cell is a number or NaN.  Numbers are kept abstract ([Arith]): the
      development does not depend on rounding.  Each of the four
      operations gives a number or NaN, since in IEEE 754 a NaN comes out
      of numbers too (0/0, inf - inf, 0 * inf); NaN is absorbing.  The
      numbers may include infinities.
    - what pandas makes of a string with [to_datetime], and of a slice
      whose bounds are not Timestamps, is left open ([Pandas]).

    A division of an object table is done by Python, cell by cell, and
    Python raises ZeroDivisionError on a zero divisor.

    Dates are day numbers ([Z]); a [Timestamp] at midnight and its day
    number are the same thing. *)

From Stdlib Require Import List ZArith QArith Bool String Ascii Lia Arith.
From Stdlib Require Import Sorted.
From Stdlib Require DecimalString.
Import ListNotations.
Local Open Scope Z_scope.
Local Open Scope list_scope.

Set Implicit Arguments.

(** ** Dates, labels, errors *)

Definition Date := Z.
Definition Label := string.

(** What pandas makes of a date: a Timestamp or NaT. *)
Inductive Datetime :=
| Stamp (t : Date)
| NaT.

(** A value given for a date parameter of a query: a Timestamp, NaT, a
    string or an int. *)
Inductive DateArg :=
| ArgTimestamp (t : Date)
| ArgNaT
| ArgStr (s : string)
| ArgInt (n : Z).

Definition arg_of (d : Datetime) : DateArg :=
  match d with
  | Stamp t => ArgTimestamp t
  | NaT => ArgNaT
  end.

Inductive Exception := TypeError | KeyError | ValueError | ZeroDivisionError.

(** What a computation without state does: it gives a value or raises. *)
Inductive Result (A : Type) :=
| Ok (a : A)
| Raise (e : Exception).

Arguments Ok {A} a.
Arguments Raise {A} e.

Definition rmap {A B} (f : A -> B) (r : Result A) : Result B :=
  match r with
  | Ok a => Ok (f a)
  | Raise e => Raise e
  end.

(** What a call on an object does: it raises, or it returns a value;
    both leave a state of the object behind. *)
Inductive Outcome (S A : Type) :=
| Raised (e : Exception) (self : S)
| Returned (r : A) (self : S).

Arguments Raised {S A} e self.
Arguments Returned {S A} r self.

Inductive Dtype := numeric | object.

Definition join_dtype (a b : Dtype) : Dtype :=
  match a, b with
  | numeric, numeric => numeric
  | _, _ => object
  end.

(** ** Numbers and cells *)

Class Arith := {
  F : Type;
  f0 : F;
  f1 : F;
  fadd : F -> F -> option F;
  fsub : F -> F -> option F;
  fmul : F -> F -> option F;
  fdiv : F -> F -> option F;
  is_zero : F -> bool
}.

Section Frames.

Context {AR : Arith}.

Definition cell : Type := option F.

Definition NaN : cell := None.

Definition isna (x : cell) : bool :=
  match x with
  | None => true
  | Some _ => false
  end.

Definition lift2 (op : F -> F -> option F) (x y : cell) : cell :=
  match x, y with
  | Some a, Some b => op a b
  | _, _ => NaN
  end.

Definition cadd : cell -> cell -> cell := lift2 fadd.
Definition csub : cell -> cell -> cell := lift2 fsub.
Definition cmul : cell -> cell -> cell := lift2 fmul.
Definition cdiv : cell -> cell -> cell := lift2 fdiv.

Definition cell_is_zero (x : cell) : bool :=
  match x with
  | Some a => is_zero a
  | None => false
  end.

(** ** Labelled arrays *)

Record DataFrame := mkDF {
  index : list Date;
  columns : list Label;
  values : nat -> nat -> cell;
  dtype : Dtype
}.

Record Series := mkSeries {
  s_index : list Date;
  s_values : nat -> cell;
  s_name : option string
}.

(** Row [i] of a frame, and the cells of a series, as lists. *)
Definition row_list (df : DataFrame) (i : nat) : list cell :=
  map (values df i) (seq 0 (List.length (columns df))).

Definition to_rows (df : DataFrame) : list (list cell) :=
  map (row_list df) (seq 0 (List.length (index df))).

Definition to_list (s : Series) : list cell :=
  map (s_values s) (seq 0 (List.length (s_index s))).

Definition of_rows (rows : list (list cell)) : nat -> nat -> cell :=
  fun i j => nth j (nth i rows []) NaN.

Definition of_list (l : list cell) : nat -> cell :=
  fun i => nth i l NaN.

(** ** Label lookup and alignment *)

(** [Index.get_loc]: the position of a label, [None] for KeyError. *)
Fixpoint get_loc {A} (eqb : A -> A -> bool) (x : A) (l : list A) : option nat :=
  match l with
  | [] => None
  | y :: r => if eqb x y then Some O else option_map S (get_loc eqb x r)
  end.

(** [Index.is_unique]. *)
Fixpoint is_unique {A} (eqb : A -> A -> bool) (l : list A) : bool :=
  match l with
  | [] => true
  | x :: r => negb (existsb (eqb x) r) && is_unique eqb r
  end.

Fixpoint list_eqb {A} (eqb : A -> A -> bool) (a b : list A) : bool :=
  match a, b with
  | [], [] => true
  | x :: a', y :: b' => eqb x y && list_eqb eqb a' b'
  | _, _ => false
  end.

Fixpoint insert_sorted {A} (leb : A -> A -> bool) (x : A) (l : list A) : list A :=
  match l with
  | [] => [x]
  | y :: r => if leb x y then x :: l else y :: insert_sorted leb x r
  end.

Definition sort_values {A} (leb : A -> A -> bool) (l : list A) : list A :=
  fold_right (insert_sorted leb) [] l.

Fixpoint dedup {A} (eqb : A -> A -> bool) (l : list A) : list A :=
  match l with
  | [] => []
  | x :: r => if existsb (eqb x) r then dedup eqb r else x :: dedup eqb r
  end.

(** [Index.join(other, how='outer')] as [DataFrame.align] uses it: an axis
    whose labels are equal on both sides is kept as it is; otherwise the
    result is the sorted union (an empty side gives the other side). *)
Definition join_outer {A} (eqb leb : A -> A -> bool) (a b : list A) : list A :=
  if list_eqb eqb a b then a
  else match a, b with
       | _, [] => a
       | [], _ => b
       | _, _ => sort_values leb (dedup eqb (a ++ b))
       end.

(** The indexer of a reindexing from [old] to [new]: the identity when the
    labels are equal, else the position of the new label in the old axis. *)
Definition indexer {A} (eqb : A -> A -> bool) (old new : list A) (i : nat)
  : option nat :=
  if list_eqb eqb old new then Some i
  else match nth_error new i with
       | Some x => get_loc eqb x old
       | None => None
       end.

Definition take2 (df : DataFrame) (idx : list Date) (cols : list Label)
  : nat -> nat -> cell :=
  fun i j =>
    match indexer Z.eqb (index df) idx i,
          indexer String.eqb (columns df) cols j with
    | Some p, Some q => values df p q
    | _, _ => NaN
    end.

(** A flexible binary operation ([DataFrame.mul], [DataFrame.div]): both
    operands are aligned on the outer join of their row and column labels,
    cells that one operand lacks are NaN, then the operation is applied
    cell by cell.  The result is an object table when an operand is. *)
Definition df_binop (op : cell -> cell -> cell) (a b : DataFrame) : DataFrame :=
  let idx := join_outer Z.eqb Z.leb (index a) (index b) in
  let cols := join_outer String.eqb String.leb (columns a) (columns b) in
  mkDF idx cols
       (fun i j => op (take2 a idx cols i j) (take2 b idx cols i j))
       (join_dtype (dtype a) (dtype b)).

Definition df_mul : DataFrame -> DataFrame -> DataFrame := df_binop cmul.

(** Some cell of the aligned divisor is a zero. *)
Definition zero_divisor (b : DataFrame) (idx : list Date) (cols : list Label)
  : bool :=
  existsb (fun i =>
             existsb (fun j => cell_is_zero (take2 b idx cols i j))
                     (seq 0 (List.length cols)))
          (seq 0 (List.length idx)).

(** [DataFrame.div]: numeric tables are divided as IEEE 754 has it, a
    division by zero gives an infinity or NaN; the cells of an object
    table are divided by Python, which raises on a zero divisor. *)
Definition df_div (a b : DataFrame) : Result DataFrame :=
  let q := df_binop cdiv a b in
  match dtype q with
  | numeric => Ok q
  | object =>
      if zero_divisor b (index q) (columns q) then Raise ZeroDivisionError
      else Ok q
  end.

(** [DataFrame.shift(1)]: every row moves one position down, the first row
    is NaN. *)
Definition shift (df : DataFrame) : DataFrame :=
  mkDF (index df) (columns df)
       (fun t j => match t with
                   | O => NaN
                   | S t' => values df t' j
                   end)
       (dtype df).

(** [DataFrame.diff()]: the difference with the previous row, the first
    row is NaN. *)
Definition diff (df : DataFrame) : DataFrame :=
  mkDF (index df) (columns df)
       (fun t j => match t with
                   | O => NaN
                   | S t' => csub (values df t j) (values df t' j)
                   end)
       (dtype df).

(** [DataFrame.sum(axis=1, skipna=False)]: the plain sum of each row, 0 for
    a row without columns. *)
Definition strict_sum (xs : list cell) : cell :=
  match xs with
  | [] => Some f0
  | x :: r => fold_left cadd r x
  end.

Definition sum_axis1 (df : DataFrame) : Series :=
  mkSeries (index df) (fun i => strict_sum (row_list df i)) None.

(** ** df_checker

    The decorator calls the function when one of the positional arguments
    is a DataFrame or a Series and returns None otherwise.  A KeyError of
    the function becomes None; any other exception goes through. *)
Definition df_checker {A B} (func : A -> Result (option B)) (arg : option A)
  : Result (option B) :=
  match arg with
  | Some x =>
      match func x with
      | Raise KeyError => Ok None
      | r => r
      end
  | None => Ok None
  end.

(** ** FormalData.__get_an_attitude *)

Definition attitude (df : DataFrame) : Result DataFrame :=
  df_div (diff df) (shift df).

Definition get_an_attitude : option DataFrame -> Result (option DataFrame) :=
  df_checker (fun df => rmap Some (attitude df)).

(** ** Series operations of the performance accumulator *)

(** [Series.add(x)]. *)
Definition add_scalar (s : Series) (x : F) : Series :=
  mkSeries (s_index s) (fun i => cadd (s_values s i) (Some x)) (s_name s).

(** [numpy.cumprod]: the running product, from the first element on. *)
Fixpoint np_cumprod (v : nat -> cell) (t : nat) : cell :=
  match t with
  | O => v O
  | S t' => cmul (np_cumprod v t') (v t)
  end.

(** [Series.cumprod()] with its default [skipna=True]: NaN cells are
    replaced by 1 before the running product is taken and are put back
    into the result afterwards. *)
Definition cumprod (s : Series) : Series :=
  let mask := fun i => isna (s_values s i) in
  let vals := fun i => if mask i then Some f1 else s_values s i in
  mkSeries (s_index s)
           (fun i => if mask i then NaN else np_cumprod vals i)
           (s_name s).

Definition rename (s : Series) (name : string) : Series :=
  mkSeries (s_index s) (s_values s) (Some name).

(** [Index.is_monotonic_increasing]. *)
Fixpoint is_monotonic_increasing (l : list Date) : bool :=
  match l with
  | [] => true
  | x :: r =>
      match r with
      | [] => true
      | y :: _ => (x <=? y) && is_monotonic_increasing r
      end
  end.

(** [searchsorted] on an increasing index: the number of leading labels
    that are below the bound ([side='left'], strictly below) or not above
    it ([side='right']). *)
Fixpoint bisect (before : Date -> Date -> bool) (l : list Date) (x : Date) : nat :=
  match l with
  | [] => O
  | d :: r => if before d x then S (bisect before r x) else O
  end.

Definition searchsorted_left : list Date -> Date -> nat := bisect Z.ltb.
Definition searchsorted_right : list Date -> Date -> nat := bisect Z.leb.

(** The positional slice [s.iloc[i:j]]. *)
Definition iloc_slice (s : Series) (i j : nat) : Series :=
  mkSeries (firstn (j - i) (skipn i (s_index s)))
           (fun k => s_values s (i + k)%nat)
           (s_name s).

(** The label slice [s[start:stop]] of a series indexed by dates, with
    two Timestamps.  pandas slices by label with both bounds included.
    On an increasing index the bounds need not be labels of the index;
    on any other index both are looked up and a bound that is missing is
    a KeyError. *)
Definition loc_slice (s : Series) (start stop : Date) : Result Series :=
  if is_monotonic_increasing (s_index s) then
    Ok (iloc_slice s (searchsorted_left (s_index s) start)
                     (searchsorted_right (s_index s) stop))
  else
    match get_loc Z.eqb start (s_index s), get_loc Z.eqb stop (s_index s) with
    | Some i, Some j => Ok (iloc_slice s i (S j))
    | _, _ => Raise KeyError
    end.

End Frames.

(** ** What is left open of pandas

    [to_datetime] is [pd.to_datetime(arg, format='%Y%m%d')] on a string,
    [None] for its ValueError.  [slice_other] is [series[start:stop]]
    when a bound is not a Timestamp. *)
Class Pandas {AR : Arith} := {
  to_datetime : string -> option Datetime;
  slice_other : Series -> DateArg -> DateArg -> Result Series
}.

(** ** The date normaliser *)

Definition isdigit (c : ascii) : bool :=
  let n := nat_of_ascii c in (48 <=? n)%nat && (n <=? 57)%nat.

(** [for symbol in set(ch for ch in arg if not ch.isdigit()):
     arg = arg.replace(symbol, '')]: every character that is not a digit
    is removed. *)
Fixpoint strip_non_digits (s : string) : string :=
  match s with
  | EmptyString => EmptyString
  | String c r => if isdigit c then String c (strip_non_digits r)
                  else strip_non_digits r
  end.

(** [str(arg)] for an argument that is not a Timestamp. *)
Definition py_str (arg : DateArg) : string :=
  match arg with
  | ArgTimestamp _ => EmptyString
  | ArgNaT => "NaT"
  | ArgStr s => s
  | ArgInt n => DecimalString.NilZero.string_of_int (Z.to_int n)
  end.

Section Program.

Context {AR : Arith} {PD : Pandas}.

(** [try_convert_date_time]: the Timestamp or NaT, or [None] for False. *)
Definition try_convert_date_time (arg : DateArg) : option Datetime :=
  match arg with
  | ArgTimestamp t => Some (Stamp t)
  | _ => to_datetime (strip_non_digits (py_str arg))
  end.

(** ** PortfolioPerformanceData.__portfolio_performance *)

(** [series[start:stop]]. *)
Definition getitem_slice (s : Series) (start stop : DateArg) : Result Series :=
  match start, stop with
  | ArgTimestamp a, ArgTimestamp b => loc_slice s a b
  | _, _ => slice_other s start stop
  end.

Definition portfolio_performance (df : option Series)
    (start_date end_date : DateArg) (name : string) : Result (option Series) :=
  df_checker
    (fun d => rmap Some (getitem_slice (rename (cumprod (add_scalar d f1)) name)
                                       start_date end_date))
    df.

(** ** Raw tables and the state of FormalData *)

(** The currency definition: one row per asset, with the asset identifier
    (the index) and the code of its currency (the column 'currency'). *)
Definition CurrencyTable := list (Label * Label).

Record RawDict := mkRaw {
  currencies : option CurrencyTable;
  exchanges : option DataFrame;
  prices : option DataFrame;
  weights : option DataFrame
}.

Record FormalData := mkFD {
  df_raw : RawDict;
  df_asset : option DataFrame;
  df_currency : option DataFrame;
  df_currency_raw : option DataFrame;
  df_total : option DataFrame
}.

Definition set_df_asset (v : option DataFrame) (self : FormalData) : FormalData :=
  mkFD (df_raw self) v (df_currency self) (df_currency_raw self) (df_total self).

Definition set_df_currency (v : option DataFrame) (self : FormalData) : FormalData :=
  mkFD (df_raw self) (df_asset self) v (df_currency_raw self) (df_total self).

Definition set_df_currency_raw (v : option DataFrame) (self : FormalData)
  : FormalData :=
  mkFD (df_raw self) (df_asset self) (df_currency self) v (df_total self).

Definition set_df_total (v : option DataFrame) (self : FormalData) : FormalData :=
  mkFD (df_raw self) (df_asset self) (df_currency self) (df_currency_raw self) v.

(** ** Methods

    A method takes the object and either raises or returns; both leave a
    state of the object behind. *)
Definition Method (A : Type) : Type := FormalData -> Outcome FormalData A.

Definition ret {A} (a : A) : Method A := fun self => Returned a self.

Definition bind {A B} (m : Method A) (f : A -> Method B) : Method B :=
  fun self =>
    match m self with
    | Raised e self' => Raised e self'
    | Returned a self' => f a self'
    end.

(** An attribute of the object. *)
Definition read {A} (f : FormalData -> A) : Method A :=
  fun self => Returned (f self) self.

(** An assignment to an attribute of the object. *)
Definition assign (f : FormalData -> FormalData) : Method unit :=
  fun self => Returned tt (f self).

(** A call that does not touch the object. *)
Definition lift {A} (r : Result A) : Method A :=
  fun self =>
    match r with
    | Ok a => Returned a self
    | Raise e => Raised e self
    end.

Notation "x <- m ;; f" := (bind m (fun x => f))
  (at level 61, m at next level, right associativity).
Notation "m ;; f" := (bind m (fun _ => f))
  (at level 61, right associativity).

(** ** FormalData.__get_currency_raw *)

(** All positions of a label in an axis. *)
Fixpoint positions (x : Label) (l : list Label) (from : nat) : list nat :=
  match l with
  | [] => []
  | y :: r => if String.eqb x y then from :: positions x r (S from)
              else positions x r (S from)
  end.

(** The right join of the transposed exchange table with the currency
    definition on the currency code: in the order of the currency
    definition, every asset gets the exchange columns that carry its
    code, or one column without a source when there is none. *)
Definition merge_right (ex : DataFrame) (cur : CurrencyTable)
  : list (Label * option nat) :=
  flat_map (fun ac : Label * Label =>
              match positions (snd ac) (columns ex) O with
              | [] => [(fst ac, None)]
              | ps => map (fun q => (fst ac, Some q)) ps
              end) cur.

(** The merged table is transposed together with the column of the
    currency codes, so its cells are objects. *)
Definition merged_frame (ex : DataFrame) (cur : CurrencyTable) : DataFrame :=
  let joined := merge_right ex cur in
  mkDF (index ex) (map fst joined)
       (fun i j => match nth_error joined j with
                   | Some (_, Some q) => values ex i q
                   | _ => NaN
                   end)
       object.

(** [df.isna().all()] for column [j]. *)
Definition isna_all (df : DataFrame) (j : nat) : bool :=
  forallb (fun i => isna (values df i j)) (seq 0 (List.length (index df))).

(** The labels of the columns that are NaN in every row. *)
Definition all_nan_columns (df : DataFrame) : list Label :=
  flat_map (fun j => if isna_all df j
                     then match nth_error (columns df) j with
                          | Some c => [c]
                          | None => []
                          end
                     else [])
           (seq 0 (List.length (columns df))).

(** [df[labels] = df[labels].fillna(value)]. *)
Definition fillna_columns (df : DataFrame) (labels : list Label) (value : F)
  : DataFrame :=
  mkDF (index df) (columns df)
       (fun i j =>
          match nth_error (columns df) j with
          | Some c => if existsb (String.eqb c) labels && isna (values df i j)
                      then Some value else values df i j
          | None => values df i j
          end)
       (dtype df).

Definition resolve_currency (cur : CurrencyTable) (ex : DataFrame) : DataFrame :=
  let merge_df := merged_frame ex cur in
  fillna_columns merge_df (all_nan_columns merge_df) f1.

Definition get_currency_raw (self : FormalData) : option DataFrame :=
  match currencies (df_raw self), exchanges (df_raw self) with
  | Some currency_df, Some exchanges_df =>
      Some (resolve_currency currency_df exchanges_df)
  | _, _ => None
  end.

(** ** FormalData.__get_total_raw

    The property fills the cache of the resolved currency table on its
    way. *)
Definition get_total_raw : Method (option DataFrame) :=
  raw <- read df_raw;;
  match prices raw with
  | None => ret None
  | Some p =>
      cached <- read df_currency_raw;;
      match cached with
      | Some c => ret (Some (df_mul p c))
      | None =>
          v <- read get_currency_raw;;
          assign (set_df_currency_raw v);;
          match v with
          | None => ret None
          | Some c => ret (Some (df_mul p c))
          end
      end
  end.

(** ** The lazily filled return tables *)

Definition generate_asset : Method unit :=
  cached <- read df_asset;;
  match cached with
  | None =>
      raw <- read df_raw;;
      v <- lift (get_an_attitude (prices raw));;
      assign (set_df_asset v)
  | Some _ => ret tt
  end.

Definition generate_currency : Method unit :=
  cached_raw <- read df_currency_raw;;
  match cached_raw with
  | None => v <- read get_currency_raw;; assign (set_df_currency_raw v)
  | Some _ => ret tt
  end;;
  cached <- read df_currency;;
  match cached with
  | None =>
      c <- read df_currency_raw;;
      v <- lift (get_an_attitude c);;
      assign (set_df_currency v)
  | Some _ => ret tt
  end.

Definition generate_total : Method unit :=
  cached <- read df_total;;
  match cached with
  | None =>
      total_raw <- get_total_raw;;
      v <- lift (get_an_attitude total_raw);;
      assign (set_df_total v)
  | Some _ => ret tt
  end.

(** ** PortfolioData *)

Definition get_a_portfolio (self : FormalData) (df : option DataFrame)
  : Result (option Series) :=
  df_checker
    (fun d => match weights (df_raw self) with
              | None => Ok None
              | Some w => Ok (Some (sum_axis1 (df_mul d w)))
              end)
    df.

Definition get_asset_portfolio : Method (option Series) :=
  generate_asset;;
  self <- read (fun self => self);;
  lift (get_a_portfolio self (df_asset self)).

Definition get_currency_portfolio : Method (option Series) :=
  generate_currency;;
  self <- read (fun self => self);;
  lift (get_a_portfolio self (df_currency self)).

Definition get_total_portfolio : Method (option Series) :=
  generate_total;;
  self <- read (fun self => self);;
  lift (get_a_portfolio self (df_total self)).

(** ** date_checker *)

(** The ways the two dates of a query are passed: both by position, the
    end date by keyword, or both by keyword. *)
Inductive Call :=
| Positional (start_date end_date : DateArg)
| EndKeyword (start_date end_date : DateArg)
| Keywords (start_date end_date : DateArg).

(** One turn of the loop over the positional arguments: an argument that
    [try_convert_date_time] returns False for raises TypeError, any other
    is replaced by what the function returns (a Timestamp, or NaT, which
    is not false either). *)
Definition convert (arg : DateArg) : Method DateArg :=
  match try_convert_date_time arg with
  | Some date => ret (arg_of date)
  | None => lift (Raise TypeError)
  end.

(** [date_checker]: the positional date arguments are converted in turn,
    then the method is called with them.  The keyword arguments are
    handed over as they are. *)
Definition date_checker {A} (func : DateArg -> DateArg -> Method A)
    (call : Call) : Method A :=
  match call with
  | Positional start_date end_date =>
      s <- convert start_date;; e <- convert end_date;; func s e
  | EndKeyword start_date end_date =>
      s <- convert start_date;; func s end_date
  | Keywords start_date end_date =>
      func start_date end_date
  end.

(** ** PortfolioPerformanceData.__init__ *)

(** A table as it comes from [read_csv]: the row labels are dates, or
    text that is not a date ([None]). *)
Record RawTable := mkRawTable {
  raw_index : list (option Date);
  raw_columns : list Label;
  raw_values : nat -> nat -> cell
}.

Record Files := mkFiles {
  file_currencies : option CurrencyTable;
  file_exchanges : option RawTable;
  file_prices : option RawTable;
  file_weights : option RawTable
}.

Inductive Key := key_currencies | key_exchanges | key_prices | key_weights.

Definition key_eqb (a b : Key) : bool :=
  match a, b with
  | key_currencies, key_currencies => true
  | key_exchanges, key_exchanges => true
  | key_prices, key_prices => true
  | key_weights, key_weights => true
  | _, _ => false
  end.

(** [pd.to_datetime(data.index)]: all labels are dates, or ValueError. *)
Fixpoint to_datetime_index (l : list (option Date)) : option (list Date) :=
  match l with
  | [] => Some []
  | x :: r =>
      match x, to_datetime_index r with
      | Some d, Some ds => Some (d :: ds)
      | _, _ => None
      end
  end.

(** The tables whose index is named 'dates', in the order of the dict. *)
Definition date_tables (files : Files) : list (Key * RawTable) :=
  flat_map (fun kt : Key * option RawTable =>
              match snd kt with
              | Some t => [(fst kt, t)]
              | None => []
              end)
           [(key_exchanges, file_exchanges files);
            (key_prices, file_prices files);
            (key_weights, file_weights files)].

Definition good_frames (files : Files) : list (list Date) :=
  flat_map (fun kt : Key * RawTable =>
              match to_datetime_index (raw_index (snd kt)) with
              | Some idx => [idx]
              | None => []
              end)
           (date_tables files).

Definition bad_frames (files : Files) : list Key :=
  flat_map (fun kt : Key * RawTable =>
              match to_datetime_index (raw_index (snd kt)) with
              | Some _ => []
              | None => [fst kt]
              end)
           (date_tables files).

(** [pd.date_range(start, end)]: every day from [start] to [end]. *)
Definition date_range (start stop : Date) : list Date :=
  map (fun k => start + Z.of_nat k) (seq 0 (Z.to_nat (stop - start + 1))).

(** [_get_full_range_for_dates].  The outer [None] is the error that
    [date_range] raises when the usable tables have no row at all. *)
Definition get_full_range_for_dates (files : Files)
  : option (option (list Date) * list Key) :=
  match good_frames files with
  | [] => Some (None, bad_frames files)
  | frames =>
      match List.concat frames with
      | [] => None
      | d :: ds =>
          Some (Some (date_range (fold_left Z.min ds d) (fold_left Z.max ds d)),
                bad_frames files)
      end
  end.

(** [DataFrame.reindex(new_index)]. *)
Definition reindex (df : DataFrame) (new_index : list Date) : DataFrame :=
  mkDF new_index (columns df)
       (fun i j => match indexer Z.eqb (index df) new_index i with
                   | Some p => values df p j
                   | None => NaN
                   end)
       (dtype df).

(** Forward fill of one column: the last value that is not NaN. *)
Fixpoint ffill (v : nat -> cell) (t : nat) : cell :=
  match t with
  | O => v O
  | S t' => match v t with
            | Some x => Some x
            | None => ffill v t'
            end
  end.

(** [_normalize_a_frame]: [df.fillna(method='ffill')]. *)
Definition normalize_a_frame (df : DataFrame) : DataFrame :=
  mkDF (index df) (columns df) (fun i j => ffill (fun t => values df t j) i)
       (dtype df).

(** One turn of the loop that reindexes the date tables or drops them.
    The columns of a date table have been made numeric by
    [pd.to_numeric].  The outer [None] is the error of [reindex] on
    duplicated labels. *)
Definition reindex_or_drop (general_index : option (list Date))
    (bad_keys : list Key) (key : Key) (data : option RawTable)
  : option (option DataFrame) :=
  match data with
  | None => Some None
  | Some t =>
      if existsb (key_eqb key) bad_keys then Some None
      else
        match general_index, to_datetime_index (raw_index t) with
        | Some g, Some idx =>
            if is_unique Z.eqb idx || list_eqb Z.eqb idx g then
              Some (Some (normalize_a_frame
                            (reindex (mkDF idx (raw_columns t) (raw_values t)
                                           numeric) g)))
            else None
        | _, _ => None
        end
  end.

(** The constructor, from the tables read from the files; [None] when it
    raises.  The message printed for a dropped table is not modelled. *)
Definition init (files : Files) : option FormalData :=
  match get_full_range_for_dates files with
  | None => None
  | Some (general_index, bad_keys) =>
      match reindex_or_drop general_index bad_keys key_exchanges (file_exchanges files),
            reindex_or_drop general_index bad_keys key_prices (file_prices files),
            reindex_or_drop general_index bad_keys key_weights (file_weights files)
      with
      | Some e, Some p, Some w =>
          Some (mkFD (mkRaw (file_currencies files) e p w) None None None None)
      | _, _, _ => None
      end
  end.

(** ** The three queries *)

Definition calculate_asset_performance (self : FormalData) (call : Call)
  : Outcome FormalData (option Series) :=
  date_checker
    (fun start_date end_date =>
       df <- get_asset_portfolio;;
       lift (portfolio_performance df start_date end_date "Pt"))
    call self.

Definition calculate_currency_performance (self : FormalData) (call : Call)
  : Outcome FormalData (option Series) :=
  date_checker
    (fun start_date end_date =>
       df <- get_currency_portfolio;;
       lift (portfolio_performance df start_date end_date "CPt"))
    call self.

Definition calculate_total_performance (self : FormalData) (call : Call)
  : Outcome FormalData (option Series) :=
  date_checker
    (fun start_date end_date =>
       df <- get_total_portfolio;;
       lift (portfolio_performance df start_date end_date "TPt"))
    call self.

End Program.

(** ** Exact arithmetic

    The instance of [Arith] that the examples compute with: rationals in
    lowest terms and the two infinities, with the rules of IEEE 754 for
    them: a number that is not zero divided by zero is an infinity;
    0/0, inf - inf, 0 * inf and inf / inf are NaN. *)

Inductive xnum :=
| Fin (q : Q)
| PInf
| NInf.

Definition sign_of (q : Q) : comparison := (Qnum q ?= 0)%Z.

Definition xsign (x : xnum) : comparison :=
  match x with
  | Fin q => sign_of q
  | PInf => Gt
  | NInf => Lt
  end.

Definition sign_mul (a b : comparison) : comparison :=
  match a, b with
  | Eq, _ | _, Eq => Eq
  | Gt, Gt | Lt, Lt => Gt
  | _, _ => Lt
  end.

(** The infinity of a sign, NaN for the sign of zero. *)
Definition inf_of (c : comparison) : option xnum :=
  match c with
  | Gt => Some PInf
  | Lt => Some NInf
  | Eq => None
  end.

Definition xopp (x : xnum) : xnum :=
  match x with
  | Fin q => Fin (Qred (- q))
  | PInf => NInf
  | NInf => PInf
  end.

Definition xadd (x y : xnum) : option xnum :=
  match x, y with
  | Fin a, Fin b => Some (Fin (Qred (a + b)))
  | PInf, NInf | NInf, PInf => None
  | PInf, _ | _, PInf => Some PInf
  | NInf, _ | _, NInf => Some NInf
  end.

Definition xsub (x y : xnum) : option xnum := xadd x (xopp y).

Definition xmul (x y : xnum) : option xnum :=
  match x, y with
  | Fin a, Fin b => Some (Fin (Qred (a * b)))
  | _, _ => inf_of (sign_mul (xsign x) (xsign y))
  end.

Definition xdiv (x y : xnum) : option xnum :=
  match x, y with
  | Fin a, Fin b =>
      if Qeq_bool b 0 then inf_of (sign_of a) else Some (Fin (Qred (a / b)))
  | Fin _, _ => Some (Fin 0)
  | _, Fin b =>
      if Qeq_bool b 0 then Some x else inf_of (sign_mul (xsign x) (sign_of b))
  | _, _ => None
  end.

Definition xis_zero (x : xnum) : bool :=
  match x with
  | Fin q => Qeq_bool q 0
  | _ => false
  end.

#[global] Instance exact_arith : Arith := {|
  F := xnum;
  f0 := Fin 0;
  f1 := Fin 1;
  fadd := xadd;
  fsub := xsub;
  fmul := xmul;
  fdiv := xdiv;
  is_zero := xis_zero
|}.

(** ** Sample tables *)

Module Sample.

Definition num (z : Z) : @cell exact_arith := Some (Fin (inject_Z z)).

Definition inf : @cell exact_arith := Some PInf.

Definition d1 : Date := 18262.
Definition d2 : Date := 18263.
Definition d3 : Date := 18264.
Definition d4 : Date := 18265.

(** The dates the examples are queried with, as [pd.to_datetime] reads
    them.  The string without any character is read as NaT; a string of
    nine digits with a day 00 is refused, and so is, here, any string
    that the examples do not use. *)
Definition known_dates : list (string * Date) :=
  [("20200101"%string, d1); ("20200102"%string, d2);
   ("20200103"%string, d3); ("20200104"%string, d4);
   ("20130201"%string, 15737); ("20190120"%string, 17916)].

Fixpoint lookup (s : string) (l : list (string * Date)) : option Date :=
  match l with
  | [] => None
  | (k, d) :: r => if String.eqb s k then Some d else lookup s r
  end.

Definition sample_to_datetime (s : string) : option Datetime :=
  match s with
  | EmptyString => Some NaT
  | _ => option_map Stamp (lookup s known_dates)
  end.

(** No example slices a series with a bound that is not a Timestamp. *)
#[global] Instance sample_pandas : @Pandas exact_arith := {|
  to_datetime := sample_to_datetime;
  slice_other := fun _ _ _ => Raise TypeError
|}.

Definition table (idx : list (option Date)) (cols : list Label)
    (rows : list (list (@cell exact_arith))) : RawTable :=
  mkRawTable idx cols (of_rows rows).

(** One asset whose price doubles every day. *)
Definition prices_A : RawTable :=
  table [Some d1; Some d2; Some d3] ["A"%string] [[num 1]; [num 2]; [num 4]].

Definition weights_A : RawTable :=
  table [Some d1; Some d2; Some d3] ["A"%string] [[num 1]; [num 1]; [num 1]].

Definition weights_AB : RawTable :=
  table [Some d1; Some d2; Some d3] ["A"%string; "B"%string]
        [[num 1; num 1]; [num 1; num 1]; [num 1; num 1]].

Definition exchanges_USD : RawTable :=
  table [Some d1; Some d2; Some d3] ["USD"%string] [[num 1]; [num 2]; [num 3]].

(** An exchange rate that is zero on the first date. *)
Definition exchanges_zero : RawTable :=
  table [Some d1; Some d2; Some d3] ["USD"%string] [[num 0]; [num 1]; [num 2]].

(** A price that falls to zero and recovers. *)
Definition prices_zero : RawTable :=
  table [Some d1; Some d2; Some d3; Some d4] ["A"%string]
        [[num 1]; [num 0]; [num 5]; [num 5]].

Definition weights_four : RawTable :=
  table [Some d1; Some d2; Some d3; Some d4] ["A"%string]
        [[num 1]; [num 1]; [num 1]; [num 1]].

Definition currencies_A : CurrencyTable := [("A"%string, "USD"%string)].

(** The second row label is not a date. *)
Definition corrupted (t : RawTable) : RawTable :=
  mkRawTable [Some d1; None; Some d3] (raw_columns t) (raw_values t).

Definition all_files : Files :=
  mkFiles (Some currencies_A) (Some exchanges_USD) (Some prices_A) (Some weights_A).

Definition asset_files : Files :=
  mkFiles None None (Some prices_A) (Some weights_A).

Definition mismatch_files : Files :=
  mkFiles None None (Some prices_A) (Some weights_AB).

Definition zero_rate_files : Files :=
  mkFiles (Some currencies_A) (Some exchanges_zero) (Some prices_A)
          (Some weights_A).

Definition zero_rate_without_weights : Files :=
  mkFiles (Some currencies_A) (Some exchanges_zero) (Some prices_A) None.

Definition zero_price_files : Files :=
  mkFiles None None (Some prices_zero) (Some weights_four).

Definition Answer : Type := Outcome (@FormalData exact_arith) (option Series).

(** The cells of a result, for inspection. *)
Definition view (o : Answer)
  : option (list Date * list (@cell exact_arith) * option string) :=
  match o with
  | Returned (Some s) _ => Some (s_index s, to_list s, s_name s)
  | _ => None
  end.

Definition run (files : Files) (query : FormalData -> Call -> Answer)
    (call : Call) : option Answer :=
  option_map (fun self => query self call) (init files).

(** The object that the constructor builds without any file. *)
Definition no_tables : FormalData :=
  mkFD (mkRaw None None None None) None None None None.

Definition instance_of (files : Files) : FormalData :=
  match init files with
  | Some self => self
  | None => no_tables
  end.

Definition corrupted_prices : Files :=
  mkFiles (Some currencies_A) (Some exchanges_USD)
          (Some (corrupted prices_A)) (Some weights_A).

Definition without_currencies : Files :=
  mkFiles None (Some exchanges_USD) (Some prices_A) (Some weights_A).

Definition corrupted_weights : Files :=
  mkFiles (Some currencies_A) (Some exchanges_USD) (Some prices_A)
          (Some (corrupted weights_A)).

Definition without_weights : Files :=
  mkFiles (Some currencies_A) (Some exchanges_USD) (Some prices_A) None.

(** Asset B is quoted in a currency that the exchange table lacks. *)
Definition currencies_AB : CurrencyTable :=
  [("A"%string, "USD"%string); ("B"%string, "EUR"%string)].

(** A return series whose first return is missing. *)
Definition returns_A : Series :=
  mkSeries [d1; d2; d3] (of_list [NaN; num 1; num 1]) None.

Definition frame (idx : list Date) (cols : list Label)
    (rows : list (list (@cell exact_arith))) : DataFrame :=
  mkDF idx cols (of_rows rows) numeric.

(** Two return tables and two weights tables, one with a missing
    weight. *)
Definition returns_AB : DataFrame :=
  frame [d1; d2; d3] ["A"%string; "B"%string]
        [[NaN; NaN]; [num 1; num 2]; [num 2; num 3]].

Definition returns_only_A : DataFrame :=
  frame [d1; d2] ["A"%string] [[NaN]; [num 1]].

Definition weights_frame_AB : DataFrame :=
  frame [d1; d2] ["A"%string; "B"%string]
        [[num 1; num 1]; [num 1; NaN]].

Definition weights_full_AB : DataFrame :=
  frame [d1; d2; d3] ["A"%string; "B"%string]
        [[num 1; num 1]; [num 1; num 2]; [num 3; num 2]].

Definition prices_frame_AB : DataFrame :=
  frame [d1; d2; d3] ["A"%string; "B"%string]
        [[num 1; num 2]; [num 2; num 3]; [num 4; num 3]].

(** An object that holds nothing but the weights. *)
Definition weighted (w : DataFrame) : FormalData :=
  mkFD (mkRaw None None None (Some w)) None None None None.

Definition usd_frame : DataFrame :=
  frame [d1; d2; d3] ["USD"%string] [[num 1]; [num 2]; [num 3]].

(** An object that holds the currency definition and the exchange rates. *)
Definition resolver_state : FormalData :=
  mkFD (mkRaw (Some currencies_AB) (Some usd_frame) None None)
       None None None None.

(** A return series that differs from [returns_A] at the last date. *)
Definition returns_B : Series :=
  mkSeries [d1; d2; d3] (of_list [NaN; num 1; num 7]) None.

Definition table_of (o : option DataFrame) : DataFrame :=
  match o with
  | Some d => d
  | None => frame [] [] []
  end.

(** The table the return engine has returned. *)
Definition returned_table (r : Result (option DataFrame)) : DataFrame :=
  match r with
  | Ok t => table_of t
  | Raise _ => table_of None
  end.

(** The series a call has returned. *)
Definition answer (o : Answer) : Series :=
  match o with
  | Returned (Some s) _ => s
  | _ => returns_A
  end.

Definition the (o : Result (option Series)) : Series :=
  match o with
  | Ok (Some s) => s
  | _ => returns_A
  end.

End Sample.

(** ** Notions used to state the properties *)

Section Specification.

Context {AR : Arith} {PD : Pandas}.

Definition state_of {A} (o : Outcome FormalData A) : FormalData :=
  match o with
  | Raised _ self => self
  | Returned _ self => self
  end.

(** The value a call returns; [None] when it raises. *)
Definition returned_value {A} (o : Outcome FormalData A) : option A :=
  match o with
  | Raised _ _ => None
  | Returned r _ => Some r
  end.

(** What a call does, the state of the object left aside. *)
Definition result_of {A} (o : Outcome FormalData A) : Result A :=
  match o with
  | Raised e _ => Raise e
  | Returned r _ => Ok r
  end.

(** A table of the files is usable when it is there and all its row
    labels are dates. *)
Definition is_usable (t : option RawTable) : bool :=
  match t with
  | Some t' => match to_datetime_index (raw_index t') with
               | Some _ => true
               | None => false
               end
  | None => false
  end.

Definition is_present {A} (t : option A) : bool :=
  match t with
  | Some _ => true
  | None => false
  end.

(** The arithmetic of the cells, in the operations of the numbers: an
    operand that is NaN gives NaN. *)
Definition plus (x y : cell) : cell :=
  match x, y with
  | Some a, Some b => fadd a b
  | _, _ => NaN
  end.

Definition minus (x y : cell) : cell :=
  match x, y with
  | Some a, Some b => fsub a b
  | _, _ => NaN
  end.

Definition times (x y : cell) : cell :=
  match x, y with
  | Some a, Some b => fmul a b
  | _, _ => NaN
  end.

Definition over (x y : cell) : cell :=
  match x, y with
  | Some a, Some b => fdiv a b
  | _, _ => NaN
  end.

(** (X[t] - X[t-1]) / X[t-1]. *)
Definition relative_change (previous current : cell) : cell :=
  over (minus current previous) previous.

(** A cell that is a divisor of the return engine, any row but the last,
    is a zero. *)
Definition zero_before_last (X : DataFrame) : bool :=
  existsb (fun i =>
             existsb (fun j => cell_is_zero (values X i j))
                     (seq 0 (List.length (columns X))))
          (seq 0 (Nat.pred (List.length (index X)))).

(** The sum of a list of cells, from the left; NaN as soon as one of
    them is NaN. *)
Fixpoint sum_from (acc : F) (xs : list cell) : cell :=
  match xs with
  | [] => Some acc
  | Some x :: r => match fadd acc x with
                   | Some a => sum_from a r
                   | None => NaN
                   end
  | None :: _ => NaN
  end.

Definition sum_of (xs : list cell) : cell :=
  match xs with
  | [] => Some f0
  | Some x :: r => sum_from x r
  | None :: _ => NaN
  end.

(** The three tables the return engine is applied to, as functions of
    the raw tables: the prices, the resolved currency table, and the
    product of both. *)
Definition resolved_currency (raw : RawDict) : option DataFrame :=
  match currencies raw, exchanges raw with
  | Some c, Some e => Some (resolve_currency c e)
  | _, _ => None
  end.

Definition total_raw (raw : RawDict) : option DataFrame :=
  match prices raw, resolved_currency raw with
  | Some p, Some c => Some (df_mul p c)
  | _, _ => None
  end.

(** A cache is empty or holds the table computed from the raw tables. *)
Definition cache_ok (computed : Result (option DataFrame))
    (cache : option DataFrame) : Prop :=
  cache = None \/ computed = Ok cache.

Definition consistent (self : FormalData) : Prop :=
  cache_ok (get_an_attitude (prices (df_raw self))) (df_asset self) /\
  cache_ok (Ok (resolved_currency (df_raw self))) (df_currency_raw self) /\
  cache_ok (get_an_attitude (resolved_currency (df_raw self))) (df_currency self) /\
  cache_ok (get_an_attitude (total_raw (df_raw self))) (df_total self).

(** The instances: what the constructor builds from the files, and what
    the methods of the object make of it, whether they return or
    raise. *)
Inductive reachable (files : Files) : FormalData -> Prop :=
| reach_init self :
    init files = Some self -> reachable files self
| reach_generate_asset self :
    reachable files self -> reachable files (state_of (generate_asset self))
| reach_generate_currency self :
    reachable files self -> reachable files (state_of (generate_currency self))
| reach_generate_total self :
    reachable files self -> reachable files (state_of (generate_total self))
| reach_asset self call :
    reachable files self ->
    reachable files (state_of (calculate_asset_performance self call))
| reach_currency self call :
    reachable files self ->
    reachable files (state_of (calculate_currency_performance self call))
| reach_total self call :
    reachable files self ->
    reachable files (state_of (calculate_total_performance self call)).

(** What the constructor makes of a date table of the files: a usable
    table is stored as a numeric table on the common index [g], any
    other is None. *)
Definition loaded_as (g : list Date) (file : option RawTable)
    (t : option DataFrame) : Prop :=
  if is_usable file
  then exists d, t = Some d /\ index d = g /\ dtype d = numeric
  else t = None.

(** A table, when there is one, is indexed by [g]. *)
Definition on_index (g : list Date) (t : option DataFrame) : Prop :=
  forall d, t = Some d -> index d = g.

(** [df.loc[d, c]], NaN when the frame has no such row or column. *)
Definition loc (df : DataFrame) (d : Date) (c : Label) : cell :=
  match get_loc Z.eqb d (index df), get_loc String.eqb c (columns df) with
  | Some p, Some q => values df p q
  | _, _ => NaN
  end.

(** The window of a query, both bounds included. *)
Definition in_window (start_date end_date d : Date) : bool :=
  (start_date <=? d) && (d <=? end_date).

(** Compounding from the first date of a return series: the product of
    the factors [1 + return] of all dates up to [t], a date without a
    factor counting for 1; NaN where the date [t] itself has no
    factor. *)
Definition growth (ret : nat -> cell) (t : nat) : cell :=
  plus (ret t) (Some f1).

Definition factor (ret : nat -> cell) (t : nat) : cell :=
  match growth ret t with
  | Some y => Some y
  | None => Some f1
  end.

Definition product (l : list cell) : cell :=
  match l with
  | [] => Some f1
  | x :: r => fold_left times r x
  end.

Definition running_performance (ret : nat -> cell) (t : nat) : cell :=
  match growth ret t with
  | Some _ => product (map (factor ret) (seq 0 (S t)))
  | None => NaN
  end.

(** The tables a query needs are usable. *)
Definition asset_ready (files : Files) : bool :=
  is_usable (file_prices files) && is_usable (file_weights files).

Definition currency_ready (files : Files) : bool :=
  is_present (file_currencies files) && is_usable (file_exchanges files)
  && is_usable (file_weights files).

Definition total_ready (files : Files) : bool :=
  is_usable (file_prices files)
  && (is_present (file_currencies files) && is_usable (file_exchanges files))
  && is_usable (file_weights files).

(** What a query with the window [s], [e] does on an instance whose
    date tables are indexed by [g], given what the return engine makes
    of the table of the query.  When the engine raises, the query raises
    the same.  Otherwise it returns: None when a table it needs is not
    usable; else the series named [name] of the dates of [g] between
    [s] and [e], whose values are compounded from the first date of [g]
    on. *)
Definition query_answers (g : list Date) (s e : Date) (name : string)
    (ready : bool) (engine : Result (option DataFrame))
    (portfolio : option (option Series))
    (o : Outcome FormalData (option Series)) : Prop :=
  match engine with
  | Raise x => result_of o = Raise x
  | Ok _ =>
      if ready then
        exists pf r,
          portfolio = Some (Some pf) /\
          s_index pf = g /\
          result_of o = Ok (Some r) /\
          s_index r = filter (in_window s e) g /\
          s_name r = Some name /\
          forall k, s_values r k =
                    running_performance (s_values pf)
                                        (searchsorted_left g s + k)%nat
      else result_of o = Ok None
  end.

(** A later state of the object: the raw tables are the same and no
    filled cache has been emptied or replaced. *)
Definition extends (self self' : FormalData) : Prop :=
  df_raw self' = df_raw self /\
  (forall d, df_asset self = Some d -> df_asset self' = Some d) /\
  (forall d, df_currency self = Some d -> df_currency self' = Some d) /\
  (forall d, df_currency_raw self = Some d -> df_currency_raw self' = Some d) /\
  (forall d, df_total self = Some d -> df_total self' = Some d).

(** [series[d]]: the value of a series at a date, [None] when the series
    has no such date. *)
Definition at_date (r : Series) (d : Date) : option cell :=
  option_map (s_values r) (get_loc Z.eqb d (s_index r)).

(** Every number of a date table of the files is found again in the
    stored table, in the same column and at the same date. *)
Definition keeps_observations (file : option RawTable)
    (stored : option DataFrame) : Prop :=
  forall t idx p d j x,
    file = Some t ->
    to_datetime_index (raw_index t) = Some idx ->
    nth_error idx p = Some d ->
    raw_values t p j = Some x ->
    exists P i,
      stored = Some P /\
      columns P = raw_columns t /\
      nth_error (index P) i = Some d /\
      values P i j = Some x.

(** A result with the state of the object it leaves. *)
Definition outcome {A} (r : Result A) (self : FormalData)
  : Outcome FormalData A :=
  match r with
  | Ok a => Returned a self
  | Raise e => Raised e self
  end.

(** The portfolio return series and the answer of a query, from what the
    return engine makes of the table of the query. *)
Definition portfolio_from (self : FormalData)
    (engine : Result (option DataFrame)) : Result (option Series) :=
  match engine with
  | Ok t => get_a_portfolio self t
  | Raise x => Raise x
  end.

Definition answer_from (self : FormalData)
    (engine : Result (option DataFrame)) (start_date end_date : DateArg)
    (name : string) : Result (option Series) :=
  match portfolio_from self engine with
  | Ok pf => portfolio_performance pf start_date end_date name
  | Raise x => Raise x
  end.

End Specification.

(** * Properties *)

Unset Implicit Arguments.

(** Case analysis on the tables and on what the return engine makes of
    them. *)
Ltac crunch :=
  repeat (cbn;
          match goal with
          | H : ?x = _ |- context [?x] => rewrite H
          | |- context [match prices ?r with _ => _ end] =>
              destruct (prices r) eqn:?
          | |- context [match currencies ?r with _ => _ end] =>
              destruct (currencies r) eqn:?
          | |- context [match exchanges ?r with _ => _ end] =>
              destruct (exchanges r) eqn:?
          | |- context [match get_an_attitude ?x with _ => _ end] =>
              destruct (get_an_attitude x) as [[?|] | ?] eqn:?
          end);
  try reflexivity.


Section Theory.

Context {AR : Arith} {PD : Pandas}.

(** ** Cells *)

Lemma cadd_plus (x y : cell) : cadd x y = plus x y.
Proof. reflexivity. Qed.

Lemma cmul_times (x y : cell) : cmul x y = times x y.
Proof. reflexivity. Qed.

Lemma cmul_nan_r (x : cell) : cmul x NaN = NaN.
Proof. destruct x; reflexivity. Qed.

Lemma cadd_nan_r (x : cell) : cadd x NaN = NaN.
Proof. destruct x; reflexivity. Qed.

Lemma fold_cadd_nan (l : list cell) : fold_left cadd l NaN = NaN.
Proof. induction l as [|x l IH]; simpl; auto. Qed.

Lemma fold_cadd_absorbs (l : list cell) (a : cell) :
  In NaN l -> fold_left cadd l a = NaN.
Proof.
  revert a. induction l as [|x l IH]; simpl; intros a Hin.
  - contradiction.
  - destruct Hin as [-> | Hin].
    + rewrite cadd_nan_r. apply fold_cadd_nan.
    + apply IH, Hin.
Qed.

Lemma strict_sum_absorbs (l : list cell) : In NaN l -> strict_sum l = NaN.
Proof.
  destruct l as [|x l]; simpl; intros Hin.
  - contradiction.
  - destruct Hin as [-> | Hin].
    + apply fold_cadd_nan.
    + apply fold_cadd_absorbs, Hin.
Qed.

Lemma fold_cadd_sum_from (l : list cell) (a : F) :
  fold_left cadd l (Some a) = sum_from a l.
Proof.
  revert a. induction l as [|x l IH]; intros a; [reflexivity |].
  cbn [fold_left sum_from]. destruct x as [x|].
  - cbn [cadd lift2]. destruct (fadd a x) as [y|]; [apply IH | apply fold_cadd_nan].
  - rewrite cadd_nan_r. apply fold_cadd_nan.
Qed.

Lemma strict_sum_sum_of (l : list cell) : strict_sum l = sum_of l.
Proof.
  destruct l as [|x l]; [reflexivity |]. cbn [strict_sum sum_of].
  destruct x as [x|]; [apply fold_cadd_sum_from | apply fold_cadd_nan].
Qed.

(** ** Labels *)

Section Axis.

Variable A : Type.
Variable eqb : A -> A -> bool.
Hypothesis eqb_spec : forall x y, eqb x y = true <-> x = y.

Lemma list_eqb_eq (a b : list A) : list_eqb eqb a b = true <-> a = b.
Proof.
  revert b. induction a as [|x a IH]; destruct b as [|y b]; simpl;
    try (split; [discriminate | discriminate]); try tauto.
  rewrite andb_true_iff, eqb_spec, IH. split.
  - intros [-> ->]. reflexivity.
  - intros E. inversion E. auto.
Qed.

Lemma list_eqb_refl (a : list A) : list_eqb eqb a a = true.
Proof. apply list_eqb_eq. reflexivity. Qed.

Lemma join_outer_same leb (a : list A) : join_outer eqb leb a a = a.
Proof. unfold join_outer. rewrite list_eqb_refl. reflexivity. Qed.

Lemma indexer_same (a : list A) (i : nat) : indexer eqb a a i = Some i.
Proof. unfold indexer. rewrite list_eqb_refl. reflexivity. Qed.

Lemma existsb_eqb_In (x : A) (l : list A) : existsb (eqb x) l = true <-> In x l.
Proof.
  rewrite existsb_exists. split.
  - intros [y [Hin E]]. apply eqb_spec in E. subst. assumption.
  - intros Hin. exists x. split; [assumption | apply eqb_spec; reflexivity].
Qed.

Lemma get_loc_None (x : A) (l : list A) : ~ In x l -> get_loc eqb x l = None.
Proof.
  induction l as [|y l IH]; simpl; intros Hn.
  - reflexivity.
  - destruct (eqb x y) eqn:E.
    + apply eqb_spec in E. subst. exfalso. apply Hn. left. reflexivity.
    + rewrite IH; [reflexivity | tauto].
Qed.

Lemma get_loc_unique (l : list A) (i : nat) (x : A) :
  is_unique eqb l = true -> nth_error l i = Some x -> get_loc eqb x l = Some i.
Proof.
  revert i. induction l as [|y l IH]; intros i Hu Hn.
  - destruct i; discriminate.
  - simpl in Hu. apply andb_true_iff in Hu. destruct Hu as [Hy Hu].
    destruct i as [|i]; simpl in Hn.
    + inversion Hn. subst. simpl.
      assert (E : eqb x x = true) by (apply eqb_spec; reflexivity).
      rewrite E. reflexivity.
    + simpl. destruct (eqb x y) eqn:E.
      * apply eqb_spec in E. subst.
        apply nth_error_In in Hn. apply existsb_eqb_In in Hn.
        rewrite Hn in Hy. discriminate.
      * rewrite (IH i Hu Hn). reflexivity.
Qed.

Lemma indexer_unique (old new : list A) (i : nat) (x : A) :
  is_unique eqb old = true -> nth_error new i = Some x ->
  indexer eqb old new i = get_loc eqb x old.
Proof.
  intros Hu Hn. unfold indexer.
  destruct (list_eqb eqb old new) eqn:E.
  - apply list_eqb_eq in E. subst. symmetry. apply get_loc_unique; assumption.
  - rewrite Hn. reflexivity.
Qed.

Lemma In_insert_sorted leb (x y : A) (l : list A) :
  In y (insert_sorted leb x l) <-> y = x \/ In y l.
Proof.
  induction l as [|z l IH]; simpl.
  - intuition.
  - destruct (leb x z); simpl; rewrite ?IH; intuition.
Qed.

Lemma In_sort_values leb (y : A) (l : list A) :
  In y (sort_values leb l) <-> In y l.
Proof.
  induction l as [|x l IH]; simpl.
  - tauto.
  - rewrite In_insert_sorted, IH. intuition.
Qed.

Lemma In_dedup (y : A) (l : list A) : In y (dedup eqb l) <-> In y l.
Proof.
  induction l as [|x l IH]; simpl.
  - tauto.
  - destruct (existsb (eqb x) l) eqn:E.
    + rewrite IH. split; [tauto |].
      intros [-> | Hin]; [apply existsb_eqb_In; assumption | assumption].
    + simpl. rewrite IH. intuition.
Qed.

Lemma In_join_outer leb (y : A) (a b : list A) :
  In y (join_outer eqb leb a b) <-> In y a \/ In y b.
Proof.
  unfold join_outer. destruct (list_eqb eqb a b) eqn:E.
  - apply list_eqb_eq in E. subst. tauto.
  - destruct a as [|x a]; destruct b as [|z b]; try (simpl; tauto).
    rewrite In_sort_values, In_dedup, in_app_iff. tauto.
Qed.

End Axis.

Lemma Zeqb_spec (x y : Z) : Z.eqb x y = true <-> x = y.
Proof. apply Z.eqb_eq. Qed.

Lemma Seqb_spec (x y : string) : String.eqb x y = true <-> x = y.
Proof. apply String.eqb_eq. Qed.

(** ** The return engine *)

Lemma take2_same (df : DataFrame) (i j : nat) :
  take2 df (index df) (columns df) i j = values df i j.
Proof.
  unfold take2.
  rewrite (indexer_same _ _ Zeqb_spec), (indexer_same _ _ Seqb_spec). reflexivity.
Qed.

Lemma df_binop_same op (a b : DataFrame) :
  index b = index a -> columns b = columns a ->
  index (df_binop op a b) = index a /\
  columns (df_binop op a b) = columns a /\
  forall i j, values (df_binop op a b) i j = op (values a i j) (values b i j).
Proof.
  intros Hi Hc. unfold df_binop. simpl. rewrite Hi, Hc.
  rewrite (join_outer_same _ _ Zeqb_spec), (join_outer_same _ _ Seqb_spec).
  repeat split. intros i j.
  rewrite take2_same. rewrite <- Hi, <- Hc. rewrite take2_same. reflexivity.
Qed.

Lemma join_dtype_same (d : Dtype) : join_dtype d d = d.
Proof. destruct d; reflexivity. Qed.

Lemma existsb_false {A} (l : list A) : existsb (fun _ => false) l = false.
Proof. induction l as [|x l IH]; [reflexivity | exact IH]. Qed.

Lemma existsb_pointwise {A} (f g : A -> bool) (l : list A) :
  (forall x, f x = g x) -> existsb f l = existsb g l.
Proof.
  intros H. induction l as [|x l IH]; [reflexivity |].
  cbn [existsb]. rewrite H, IH. reflexivity.
Qed.

Lemma existsb_seq_shift (f : nat -> bool) (k n : nat) :
  existsb f (seq (S k) n) = existsb (fun i => f (S i)) (seq k n).
Proof.
  revert k. induction n as [|n IH]; intros k; [reflexivity |].
  cbn [seq existsb]. rewrite IH. reflexivity.
Qed.

(** The divisors of the return engine are the rows of the table but the
    last. *)
Lemma zero_divisor_shift (X : DataFrame) :
  zero_divisor (shift X) (index X) (columns X) = zero_before_last X.
Proof.
  unfold zero_divisor, zero_before_last.
  rewrite (existsb_pointwise _
             (fun i => existsb (fun j => cell_is_zero (values (shift X) i j))
                               (seq 0 (List.length (columns X))))).
  2:{ intros i. apply existsb_pointwise. intros j.
      rewrite <- (take2_same (shift X) i j). reflexivity. }
  destruct (List.length (index X)) as [|n]; [reflexivity |].
  cbn [seq existsb Nat.pred]. cbn [shift values].
  rewrite existsb_false. cbn [orb].
  apply existsb_seq_shift.
Qed.

Lemma attitude_table (X : DataFrame) :
  let Y := df_binop cdiv (diff X) (shift X) in
  index Y = index X /\
  columns Y = columns X /\
  dtype Y = dtype X /\
  (forall j, values Y 0 j = NaN) /\
  (forall t j, values Y (S t) j
               = relative_change (values X t j) (values X (S t) j)).
Proof.
  destruct (df_binop_same cdiv (diff X) (shift X) eq_refl eq_refl)
    as [Hi [Hc Hv]].
  cbn zeta. split; [assumption |]. split; [assumption |].
  split; [apply join_dtype_same |].
  split; intros; rewrite Hv; reflexivity.
Qed.

(** What the return engine does: on an object table with a zero divisor
    it raises ZeroDivisionError; on any other table it returns the table
    of the relative changes. *)
Lemma attitude_spec (X : DataFrame) :
  attitude X
  = match dtype X with
    | numeric => Ok (df_binop cdiv (diff X) (shift X))
    | object => if zero_before_last X then Raise ZeroDivisionError
                else Ok (df_binop cdiv (diff X) (shift X))
    end.
Proof.
  unfold attitude, df_div.
  destruct (attitude_table X) as (Hi & Hc & Hd & _). cbn zeta in *.
  rewrite Hd, Hi, Hc. change (index (diff X)) with (index X).
  destruct (dtype X); [reflexivity |].
  rewrite zero_divisor_shift. reflexivity.
Qed.

Lemma attitude_returns (X Y : DataFrame) :
  attitude X = Ok Y ->
  index Y = index X /\
  columns Y = columns X /\
  dtype Y = dtype X /\
  (forall j, values Y 0 j = NaN) /\
  (forall t j, values Y (S t) j
               = relative_change (values X t j) (values X (S t) j)).
Proof.
  rewrite attitude_spec. intros H.
  assert (E : Y = df_binop cdiv (diff X) (shift X)).
  { destruct (dtype X); [| destruct (zero_before_last X)]; congruence. }
  subst Y. apply attitude_table.
Qed.

Lemma attitude_raises (X : DataFrame) (e : Exception) :
  attitude X = Raise e ->
  e = ZeroDivisionError /\ dtype X = object /\ zero_before_last X = true.
Proof.
  rewrite attitude_spec.
  destruct (dtype X); [discriminate |].
  destruct (zero_before_last X); [| discriminate].
  intros H. inversion H. auto.
Qed.

Lemma attitude_numeric (X : DataFrame) :
  dtype X = numeric -> exists Y, attitude X = Ok Y.
Proof.
  intros H. rewrite attitude_spec, H. eexists. reflexivity.
Qed.

Lemma get_an_attitude_Some (X : DataFrame) :
  get_an_attitude (Some X) = rmap Some (attitude X).
Proof.
  unfold get_an_attitude, df_checker.
  destruct (attitude X) as [Y | e] eqn:E; cbn [rmap]; [reflexivity |].
  destruct (attitude_raises X e E) as [-> _]. reflexivity.
Qed.


(** ** The window of a label slice *)

Lemma monotonic_cons (a : Date) (l : list Date) :
  is_monotonic_increasing (a :: l) = true ->
  is_monotonic_increasing l = true /\ Forall (fun x => a <= x) l.
Proof.
  revert a. induction l as [|b l IH]; intros a Hm.
  - split; [reflexivity | constructor].
  - change (((a <=? b) && is_monotonic_increasing (b :: l)) = true) in Hm.
    apply andb_true_iff in Hm. destruct Hm as [Hab Hm].
    apply Z.leb_le in Hab. split; [assumption |].
    destruct (IH b Hm) as [_ Hall]. constructor; [assumption |].
    eapply Forall_impl; [| exact Hall]. simpl. intros x Hx. lia.
Qed.

Lemma filter_window_above (s e : Date) (l : list Date) :
  Forall (fun x => e < x) l -> filter (in_window s e) l = [].
Proof.
  induction 1 as [|x l Hx _ IH]; simpl.
  - reflexivity.
  - unfold in_window at 1. replace (x <=? e) with false by (symmetry; apply Z.leb_gt; lia).
    rewrite andb_false_r. assumption.
Qed.

Lemma firstn_bisect_right (s e : Date) (l : list Date) :
  is_monotonic_increasing l = true -> Forall (fun x => s <= x) l ->
  firstn (bisect Z.leb l e) l = filter (in_window s e) l.
Proof.
  induction l as [|a l IH]; intros Hm Hs.
  - reflexivity.
  - destruct (monotonic_cons _ _ Hm) as [Hm' Ha].
    inversion Hs as [|? ? Hsa Hs']. subst.
    simpl. unfold in_window at 1.
    replace (s <=? a) with true by (symmetry; apply Z.leb_le; assumption).
    simpl. destruct (a <=? e) eqn:E.
    + simpl. f_equal. apply IH; assumption.
    + simpl. symmetry. apply filter_window_above.
      apply Z.leb_gt in E. eapply Forall_impl; [| exact Ha].
      simpl. intros x Hx. lia.
Qed.

Lemma slice_is_window (s e : Date) (l : list Date) :
  is_monotonic_increasing l = true ->
  firstn (searchsorted_right l e - searchsorted_left l s)
         (skipn (searchsorted_left l s) l)
  = filter (in_window s e) l.
Proof.
  unfold searchsorted_right, searchsorted_left.
  induction l as [|a l IH]; intros Hm.
  - reflexivity.
  - destruct (monotonic_cons _ _ Hm) as [Hm' Ha].
    cbn [bisect]. destruct (a <? s) eqn:Es.
    + apply Z.ltb_lt in Es.
      cbn [skipn filter]. unfold in_window at 1.
      replace (s <=? a) with false by (symmetry; apply Z.leb_gt; assumption).
      cbn [andb]. destruct (a <=? e) eqn:Ee.
      * cbn [Nat.sub]. apply IH, Hm'.
      * cbn [Nat.sub firstn]. symmetry. apply filter_window_above.
        apply Z.leb_gt in Ee. eapply Forall_impl; [| exact Ha].
        simpl. intros x Hx. lia.
    + apply Z.ltb_ge in Es. cbn [skipn]. rewrite Nat.sub_0_r.
      change (if a <=? e then S (bisect Z.leb l e) else 0%nat)
        with (bisect Z.leb (a :: l) e).
      apply firstn_bisect_right; [assumption |].
      constructor; [assumption |].
      eapply Forall_impl; [| exact Ha]. simpl. intros x Hx. lia.
Qed.

Lemma monotonic_shifted (lo : Date) (n k : nat) :
  is_monotonic_increasing (map (fun i => lo + Z.of_nat i) (seq k n)) = true.
Proof.
  revert k. induction n as [|n IH]; intros k.
  - reflexivity.
  - destruct n as [|n].
    + reflexivity.
    + change (((lo + Z.of_nat k <=? lo + Z.of_nat (S k))
               && is_monotonic_increasing
                    (map (fun i => lo + Z.of_nat i) (seq (S k) (S n)))) = true).
      rewrite IH, andb_true_r. apply Z.leb_le. lia.
Qed.

Lemma date_range_monotonic (lo hi : Date) :
  is_monotonic_increasing (date_range lo hi) = true.
Proof. apply monotonic_shifted. Qed.

(** ** The performance accumulator *)

Lemma performance_on_increasing (d : Series) (s e : Date) (name : string) :
  is_monotonic_increasing (s_index d) = true ->
  exists r,
    portfolio_performance (Some d) (ArgTimestamp s) (ArgTimestamp e) name
    = Ok (Some r) /\
    s_index r = filter (in_window s e) (s_index d) /\
    s_name r = Some name /\
    forall k, s_values r k =
              s_values (cumprod (add_scalar d f1))
                       (searchsorted_left (s_index d) s + k)%nat.
Proof.
  intros Hm. unfold portfolio_performance, df_checker, getitem_slice, loc_slice.
  cbn [rename cumprod add_scalar s_index].
  rewrite Hm. cbn [rmap]. eexists. split; [reflexivity |].
  cbn [iloc_slice s_index s_name s_values].
  split; [apply slice_is_window; assumption |].
  split; reflexivity.
Qed.

Lemma product_snoc (l : list cell) (x y : cell) :
  product ((x :: l) ++ [y]) = times (product (x :: l)) y.
Proof. simpl. rewrite fold_left_app. reflexivity. Qed.

Lemma np_cumprod_product (v : nat -> cell) (t : nat) :
  np_cumprod v t = product (map v (seq 0 (S t))).
Proof.
  induction t as [|t IH].
  - reflexivity.
  - cbn [np_cumprod]. rewrite IH.
    rewrite (seq_S (S t) 0), map_app. cbn [map Nat.add].
    change (seq 0 (S t)) with (0%nat :: seq 1 t) at 2.
    cbn [map]. rewrite product_snoc. reflexivity.
Qed.

Lemma cumprod_running (d : Series) (t : nat) :
  s_values (cumprod (add_scalar d f1)) t = running_performance (s_values d) t.
Proof.
  unfold cumprod, add_scalar, running_performance, growth. cbn [s_values].
  rewrite cadd_plus.
  destruct (plus (s_values d t) (Some f1)) as [y|] eqn:E; cbn [isna].
  - rewrite np_cumprod_product. f_equal. apply map_ext.
    intros i. unfold factor, growth. rewrite cadd_plus.
    destruct (plus (s_values d i) (Some f1)); reflexivity.
  - reflexivity.
Qed.

(** ** Methods *)

Lemma state_of_outcome {A} (r : Result A) (self : FormalData) :
  state_of (outcome r self) = self.
Proof. destruct r; reflexivity. Qed.

Lemma result_of_outcome {A} (r : Result A) (self : FormalData) :
  result_of (outcome r self) = r.
Proof. destruct r; reflexivity. Qed.

Lemma lift_outcome {A} (r : Result A) (self : FormalData) :
  lift r self = outcome r self.
Proof. reflexivity. Qed.

(** A method followed by calls that do not touch the object leaves the
    state of the method. *)
Lemma bind_state {A B} (m : Method A) (f : A -> Method B) (self : FormalData) :
  (forall a st, state_of (f a st) = st) ->
  state_of (bind m f self) = state_of (m self).
Proof.
  intros H. unfold bind. destruct (m self) as [e st | a st]; [reflexivity |].
  apply H.
Qed.

(** ** The caches *)

Lemma cache_ok_value (computed : Result (option DataFrame)) (d : DataFrame) :
  cache_ok computed (Some d) -> computed = Ok (Some d).
Proof. intros [H | H]; [discriminate | assumption]. Qed.

Lemma generate_asset_ok (self : FormalData) :
  consistent self ->
  df_raw (state_of (generate_asset self)) = df_raw self /\
  consistent (state_of (generate_asset self)) /\
  generate_asset self
  = outcome (rmap (fun _ => tt) (get_an_attitude (prices (df_raw self))))
            (state_of (generate_asset self)) /\
  (forall v, get_an_attitude (prices (df_raw self)) = Ok v ->
             df_asset (state_of (generate_asset self)) = v).
Proof.
  intros Hcons. pose proof Hcons as (Ha & Hr & Hc & Ht).
  unfold generate_asset, bind, read.
  destruct (df_asset self) as [d|] eqn:E.
  - apply cache_ok_value in Ha. rewrite Ha. cbn [ret state_of rmap outcome].
    refine (conj eq_refl (conj Hcons (conj eq_refl _))).
    intros v Hv. rewrite E. congruence.
  - unfold lift, assign.
    destruct (get_an_attitude (prices (df_raw self))) as [v | e] eqn:Ev;
      cbn [state_of rmap outcome].
    + refine (conj eq_refl (conj _ (conj eq_refl _))).
      * unfold consistent.
        cbn [set_df_asset df_raw df_asset df_currency df_currency_raw df_total].
        rewrite Ev. refine (conj _ (conj Hr (conj Hc Ht))). right. reflexivity.
      * intros v' Hv'. inversion Hv'. reflexivity.
    + refine (conj eq_refl (conj Hcons (conj eq_refl _))). discriminate.
Qed.

Lemma fill_currency_raw_ok (self : FormalData) :
  consistent self ->
  exists self1,
    match df_currency_raw self with
    | None => bind (read get_currency_raw)
                   (fun v => assign (set_df_currency_raw v))
    | Some _ => ret tt
    end self = Returned tt self1 /\
    df_raw self1 = df_raw self /\
    df_asset self1 = df_asset self /\
    df_currency self1 = df_currency self /\
    df_total self1 = df_total self /\
    consistent self1 /\
    df_currency_raw self1 = resolved_currency (df_raw self).
Proof.
  intros Hcons. pose proof Hcons as (Ha & Hr & Hc & Ht).
  destruct (df_currency_raw self) as [r|] eqn:Er.
  - exists self. apply cache_ok_value in Hr. inversion Hr as [Hr'].
    cbn [ret].
    refine (conj eq_refl (conj eq_refl (conj eq_refl (conj eq_refl
              (conj eq_refl (conj Hcons _)))))).
    congruence.
  - unfold bind, read, assign. eexists. split; [reflexivity |].
    cbn [set_df_currency_raw df_raw df_asset df_currency df_currency_raw
         df_total].
    refine (conj eq_refl (conj eq_refl (conj eq_refl (conj eq_refl
              (conj _ eq_refl))))).
    unfold consistent.
    cbn [set_df_currency_raw df_raw df_asset df_currency df_currency_raw
         df_total].
    refine (conj Ha (conj _ (conj Hc Ht))). right. reflexivity.
Qed.

Lemma generate_currency_ok (self : FormalData) :
  consistent self ->
  df_raw (state_of (generate_currency self)) = df_raw self /\
  consistent (state_of (generate_currency self)) /\
  generate_currency self
  = outcome (rmap (fun _ => tt)
                  (get_an_attitude (resolved_currency (df_raw self))))
            (state_of (generate_currency self)) /\
  (forall v, get_an_attitude (resolved_currency (df_raw self)) = Ok v ->
             df_currency (state_of (generate_currency self)) = v).
Proof.
  intros Hcons.
  destruct (fill_currency_raw_ok self Hcons)
    as (self1 & Hrun & Hraw & _ & Hcur & _ & Hcons1 & Hval).
  pose proof Hcons1 as (Ha & Hr & Hc & Ht). rewrite Hraw in Ha, Hr, Hc, Ht.
  remember (generate_currency self) as o eqn:Eo.
  unfold generate_currency in Eo. unfold bind at 1 in Eo.
  unfold read at 1 in Eo. unfold bind at 1 in Eo. rewrite Hrun in Eo.
  unfold bind, read in Eo.
  destruct (df_currency self1) as [c|] eqn:Ec.
  - apply cache_ok_value in Hc. rewrite Hc. subst o.
    cbn [ret state_of rmap outcome].
    refine (conj Hraw (conj Hcons1 (conj eq_refl _))).
    intros v Hv. rewrite Ec. congruence.
  - unfold lift, assign in Eo. rewrite Hval in Eo.
    destruct (get_an_attitude (resolved_currency (df_raw self))) as [v | e] eqn:Ev;
      subst o; cbn [state_of rmap outcome].
    + refine (conj Hraw (conj _ (conj eq_refl _))).
      * unfold consistent.
        cbn [set_df_currency df_raw df_asset df_currency df_currency_raw
             df_total].
        rewrite Hraw, Ev. refine (conj Ha (conj Hr (conj _ Ht))).
        right. reflexivity.
      * intros v' Hv'. inversion Hv'. reflexivity.
    + refine (conj Hraw (conj Hcons1 (conj eq_refl _))). discriminate.
Qed.

Lemma get_total_raw_ok (self : FormalData) :
  consistent self ->
  exists self1,
    get_total_raw self = Returned (total_raw (df_raw self)) self1 /\
    df_raw self1 = df_raw self /\
    df_asset self1 = df_asset self /\
    df_currency self1 = df_currency self /\
    df_total self1 = df_total self /\
    consistent self1.
Proof.
  intros Hcons. pose proof Hcons as (Ha & Hr & Hc & Ht).
  unfold get_total_raw, total_raw, bind, read.
  destruct (prices (df_raw self)) as [p|] eqn:Ep.
  - destruct (df_currency_raw self) as [c|] eqn:Er.
    + apply cache_ok_value in Hr. inversion Hr as [Hr']. rewrite Hr'.
      exists self. cbn [ret].
      refine (conj eq_refl (conj eq_refl (conj eq_refl (conj eq_refl
                (conj eq_refl Hcons))))).
    + unfold assign, get_currency_raw.
      fold (resolved_currency (df_raw self)).
      assert (Hcons' : consistent
                         (set_df_currency_raw (resolved_currency (df_raw self))
                                              self)).
      { pose proof Hcons as (Ha' & _ & Hc' & Ht'). unfold consistent.
        cbn [set_df_currency_raw df_raw df_asset df_currency df_currency_raw
             df_total].
        refine (conj Ha' (conj _ (conj Hc' Ht'))). right. reflexivity. }
      exists (set_df_currency_raw (resolved_currency (df_raw self)) self).
      destruct (resolved_currency (df_raw self)) as [c|] eqn:Ec; cbn [ret];
        refine (conj eq_refl (conj eq_refl (conj eq_refl (conj eq_refl
                  (conj eq_refl Hcons'))))).
  - exists self. cbn [ret].
    refine (conj eq_refl (conj eq_refl (conj eq_refl (conj eq_refl
              (conj eq_refl Hcons))))).
Qed.

Lemma generate_total_ok (self : FormalData) :
  consistent self ->
  df_raw (state_of (generate_total self)) = df_raw self /\
  consistent (state_of (generate_total self)) /\
  generate_total self
  = outcome (rmap (fun _ => tt) (get_an_attitude (total_raw (df_raw self))))
            (state_of (generate_total self)) /\
  (forall v, get_an_attitude (total_raw (df_raw self)) = Ok v ->
             df_total (state_of (generate_total self)) = v).
Proof.
  intros Hcons. pose proof Hcons as (Ha & Hr & Hc & Ht).
  remember (generate_total self) as o eqn:Eo.
  unfold generate_total in Eo. unfold bind at 1 in Eo. unfold read in Eo.
  destruct (df_total self) as [d|] eqn:E.
  - apply cache_ok_value in Ht. rewrite Ht. subst o.
    cbn [ret state_of rmap outcome].
    refine (conj eq_refl (conj Hcons (conj eq_refl _))).
    intros v Hv. rewrite E. congruence.
  - destruct (get_total_raw_ok self Hcons)
      as (self1 & Hrun & Hraw & _ & _ & Htot & Hcons1).
    pose proof Hcons1 as (Ha1 & Hr1 & Hc1 & Ht1).
    rewrite Hraw in Ha1, Hr1, Hc1, Ht1.
    unfold bind at 1 in Eo. rewrite Hrun in Eo. unfold bind, lift, assign in Eo.
    destruct (get_an_attitude (total_raw (df_raw self))) as [v | e] eqn:Ev;
      subst o; cbn [state_of rmap outcome].
    + refine (conj Hraw (conj _ (conj eq_refl _))).
      * unfold consistent.
        cbn [set_df_total df_raw df_asset df_currency df_currency_raw df_total].
        rewrite Hraw, Ev. refine (conj Ha1 (conj Hr1 (conj Hc1 _))).
        right. reflexivity.
      * intros v' Hv'. inversion Hv'. reflexivity.
    + refine (conj Hraw (conj Hcons1 (conj eq_refl _))). discriminate.
Qed.

Lemma get_a_portfolio_raw (self self' : FormalData) (t : option DataFrame) :
  df_raw self' = df_raw self -> get_a_portfolio self' t = get_a_portfolio self t.
Proof. intros E. unfold get_a_portfolio. rewrite E. reflexivity. Qed.

(** ** The queries on a consistent state *)

Lemma portfolio_after (generate : Method unit)
    (cache : FormalData -> option DataFrame) (self : FormalData)
    (engine : Result (option DataFrame)) :
  df_raw (state_of (generate self)) = df_raw self ->
  generate self = outcome (rmap (fun _ => tt) engine) (state_of (generate self)) ->
  (forall v, engine = Ok v -> cache (state_of (generate self)) = v) ->
  bind generate
       (fun _ => bind (read (fun self => self))
                      (fun self => lift (get_a_portfolio self (cache self)))) self
  = outcome (portfolio_from self engine) (state_of (generate self)).
Proof.
  intros Hraw Hrun Hval. set (st := state_of (generate self)) in *.
  unfold bind at 1. rewrite Hrun.
  destruct engine as [v | e]; cbn [rmap outcome portfolio_from].
  - unfold bind, read. rewrite (Hval v eq_refl), lift_outcome.
    rewrite (get_a_portfolio_raw self st v Hraw). reflexivity.
  - reflexivity.
Qed.

Lemma get_asset_portfolio_spec (self : FormalData) :
  consistent self ->
  get_asset_portfolio self
  = outcome (portfolio_from self (get_an_attitude (prices (df_raw self))))
            (state_of (generate_asset self)).
Proof.
  intros Hcons. destruct (generate_asset_ok self Hcons) as (Hraw & _ & Hrun & Hval).
  apply (portfolio_after generate_asset df_asset); assumption.
Qed.

Lemma get_currency_portfolio_spec (self : FormalData) :
  consistent self ->
  get_currency_portfolio self
  = outcome (portfolio_from self
               (get_an_attitude (resolved_currency (df_raw self))))
            (state_of (generate_currency self)).
Proof.
  intros Hcons.
  destruct (generate_currency_ok self Hcons) as (Hraw & _ & Hrun & Hval).
  apply (portfolio_after generate_currency df_currency); assumption.
Qed.

Lemma get_total_portfolio_spec (self : FormalData) :
  consistent self ->
  get_total_portfolio self
  = outcome (portfolio_from self (get_an_attitude (total_raw (df_raw self))))
            (state_of (generate_total self)).
Proof.
  intros Hcons. destruct (generate_total_ok self Hcons) as (Hraw & _ & Hrun & Hval).
  apply (portfolio_after generate_total df_total); assumption.
Qed.

Lemma performance_after (m : Method (option Series)) (self st : FormalData)
    (portfolio : Result (option Series)) (s e : DateArg) (name : string) :
  m self = outcome portfolio st ->
  bind m (fun df => lift (portfolio_performance df s e name)) self
  = outcome match portfolio with
            | Ok pf => portfolio_performance pf s e name
            | Raise x => Raise x
            end st.
Proof.
  intros H. unfold bind. rewrite H.
  destruct portfolio as [pf | x]; reflexivity.
Qed.

Lemma asset_query_spec (self : FormalData) (s e : DateArg) :
  consistent self ->
  bind get_asset_portfolio
       (fun df => lift (portfolio_performance df s e "Pt")) self
  = outcome (answer_from self (get_an_attitude (prices (df_raw self))) s e "Pt")
            (state_of (generate_asset self)).
Proof.
  intros Hcons. apply performance_after, get_asset_portfolio_spec, Hcons.
Qed.

Lemma currency_query_spec (self : FormalData) (s e : DateArg) :
  consistent self ->
  bind get_currency_portfolio
       (fun df => lift (portfolio_performance df s e "CPt")) self
  = outcome (answer_from self
               (get_an_attitude (resolved_currency (df_raw self))) s e "CPt")
            (state_of (generate_currency self)).
Proof.
  intros Hcons. apply performance_after, get_currency_portfolio_spec, Hcons.
Qed.

Lemma total_query_spec (self : FormalData) (s e : DateArg) :
  consistent self ->
  bind get_total_portfolio
       (fun df => lift (portfolio_performance df s e "TPt")) self
  = outcome (answer_from self (get_an_attitude (total_raw (df_raw self)))
                         s e "TPt")
            (state_of (generate_total self)).
Proof.
  intros Hcons. apply performance_after, get_total_portfolio_spec, Hcons.
Qed.

(** ** date_checker *)

Lemma date_checker_positional {A} (func : DateArg -> DateArg -> Method A)
    (a b : DateArg) (s e : Datetime) (self : FormalData) :
  try_convert_date_time a = Some s -> try_convert_date_time b = Some e ->
  date_checker func (Positional a b) self = func (arg_of s) (arg_of e) self.
Proof.
  intros Ha Hb. unfold date_checker, convert, bind. rewrite Ha. cbn [ret].
  rewrite Hb. reflexivity.
Qed.

Lemma date_checker_cases {A} (func : DateArg -> DateArg -> Method A)
    (call : Call) (self : FormalData) :
  date_checker func call self = Raised TypeError self \/
  exists s e, date_checker func call self = func s e self.
Proof.
  unfold date_checker, convert, bind. destruct call as [a b | a b | a b].
  - destruct (try_convert_date_time a) as [s|]; [| left; reflexivity].
    cbn [ret].
    destruct (try_convert_date_time b) as [e|]; [| left; reflexivity].
    right. eexists. eexists. reflexivity.
  - destruct (try_convert_date_time a) as [s|]; [| left; reflexivity].
    right. eexists. eexists. reflexivity.
  - right. eexists. eexists. reflexivity.
Qed.

Lemma calculate_asset_spec (self : FormalData) (a b : DateArg) (s e : Date) :
  consistent self ->
  try_convert_date_time a = Some (Stamp s) ->
  try_convert_date_time b = Some (Stamp e) ->
  calculate_asset_performance self (Positional a b)
  = outcome (answer_from self (get_an_attitude (prices (df_raw self)))
                         (ArgTimestamp s) (ArgTimestamp e) "Pt")
            (state_of (generate_asset self)).
Proof.
  intros Hcons Ha Hb. unfold calculate_asset_performance.
  rewrite (date_checker_positional _ a b _ _ self Ha Hb).
  apply asset_query_spec, Hcons.
Qed.

Lemma calculate_currency_spec (self : FormalData) (a b : DateArg) (s e : Date) :
  consistent self ->
  try_convert_date_time a = Some (Stamp s) ->
  try_convert_date_time b = Some (Stamp e) ->
  calculate_currency_performance self (Positional a b)
  = outcome (answer_from self
               (get_an_attitude (resolved_currency (df_raw self)))
               (ArgTimestamp s) (ArgTimestamp e) "CPt")
            (state_of (generate_currency self)).
Proof.
  intros Hcons Ha Hb. unfold calculate_currency_performance.
  rewrite (date_checker_positional _ a b _ _ self Ha Hb).
  apply currency_query_spec, Hcons.
Qed.

Lemma calculate_total_spec (self : FormalData) (a b : DateArg) (s e : Date) :
  consistent self ->
  try_convert_date_time a = Some (Stamp s) ->
  try_convert_date_time b = Some (Stamp e) ->
  calculate_total_performance self (Positional a b)
  = outcome (answer_from self (get_an_attitude (total_raw (df_raw self)))
                         (ArgTimestamp s) (ArgTimestamp e) "TPt")
            (state_of (generate_total self)).
Proof.
  intros Hcons Ha Hb. unfold calculate_total_performance.
  rewrite (date_checker_positional _ a b _ _ self Ha Hb).
  apply total_query_spec, Hcons.
Qed.

(** The state a query leaves: the one it found, when a positional date
    is refused, or the one its cache filler leaves. *)
Lemma query_state (generate : Method unit)
    (cache : FormalData -> option DataFrame) (name : string)
    (call : Call) (self : FormalData) :
  let query :=
    date_checker
      (fun s e =>
         bind (bind generate
                 (fun _ => bind (read (fun self => self))
                             (fun self => lift (get_a_portfolio self (cache self)))))
              (fun df => lift (portfolio_performance df s e name)))
      call self in
  (query = Raised TypeError self) \/
  (state_of query = state_of (generate self)).
Proof.
  cbn zeta.
  destruct (date_checker_cases
              (fun s e =>
                 bind (bind generate
                         (fun _ => bind (read (fun self => self))
                                     (fun self =>
                                        lift (get_a_portfolio self (cache self)))))
                      (fun df => lift (portfolio_performance df s e name)))
              call self) as [E | [s [e E]]]; rewrite E.
  - left. reflexivity.
  - right. rewrite bind_state.
    + rewrite bind_state; [reflexivity |].
      intros [] st. rewrite bind_state; [reflexivity |].
      intros st' st''. apply state_of_outcome.
    + intros df st. apply state_of_outcome.
Qed.

Lemma asset_state (self : FormalData) (call : Call) :
  calculate_asset_performance self call = Raised TypeError self \/
  state_of (calculate_asset_performance self call)
  = state_of (generate_asset self).
Proof. apply (query_state generate_asset df_asset "Pt"). Qed.

Lemma currency_state (self : FormalData) (call : Call) :
  calculate_currency_performance self call = Raised TypeError self \/
  state_of (calculate_currency_performance self call)
  = state_of (generate_currency self).
Proof. apply (query_state generate_currency df_currency "CPt"). Qed.

Lemma total_state (self : FormalData) (call : Call) :
  calculate_total_performance self call = Raised TypeError self \/
  state_of (calculate_total_performance self call)
  = state_of (generate_total self).
Proof. apply (query_state generate_total df_total "TPt"). Qed.

Lemma reachable_consistent (files : Files) (self : FormalData) :
  reachable files self ->
  consistent self /\
  exists self0, init files = Some self0 /\ df_raw self = df_raw self0.
Proof.
  induction 1 as [self Hinit
                 | self _ [IHc [self0 [Hi Hr]]]
                 | self _ [IHc [self0 [Hi Hr]]]
                 | self _ [IHc [self0 [Hi Hr]]]
                 | self call _ [IHc [self0 [Hi Hr]]]
                 | self call _ [IHc [self0 [Hi Hr]]]
                 | self call _ [IHc [self0 [Hi Hr]]]].
  - split.
    + unfold init in Hinit.
      destruct (get_full_range_for_dates files) as [[g bad]|]; [| discriminate].
      destruct (reindex_or_drop g bad key_exchanges (file_exchanges files));
        [| discriminate].
      destruct (reindex_or_drop g bad key_prices (file_prices files));
        [| discriminate].
      destruct (reindex_or_drop g bad key_weights (file_weights files));
        [| discriminate].
      inversion Hinit. repeat split; left; reflexivity.
    + exists self. split; [assumption | reflexivity].
  - destruct (generate_asset_ok _ IHc) as (Hraw & Hc' & _).
    split; [assumption |]. exists self0. rewrite Hraw. auto.
  - destruct (generate_currency_ok _ IHc) as (Hraw & Hc' & _).
    split; [assumption |]. exists self0. rewrite Hraw. auto.
  - destruct (generate_total_ok _ IHc) as (Hraw & Hc' & _).
    split; [assumption |]. exists self0. rewrite Hraw. auto.
  - destruct (generate_asset_ok _ IHc) as (Hraw & Hc' & _).
    destruct (asset_state self call) as [E | E]; rewrite E.
    + split; [assumption |]. exists self0. auto.
    + split; [assumption |]. exists self0. rewrite Hraw. auto.
  - destruct (generate_currency_ok _ IHc) as (Hraw & Hc' & _).
    destruct (currency_state self call) as [E | E]; rewrite E.
    + split; [assumption |]. exists self0. auto.
    + split; [assumption |]. exists self0. rewrite Hraw. auto.
  - destruct (generate_total_ok _ IHc) as (Hraw & Hc' & _).
    destruct (total_state self call) as [E | E]; rewrite E.
    + split; [assumption |]. exists self0. auto.
    + split; [assumption |]. exists self0. rewrite Hraw. auto.
Qed.


(** ** The constructor *)

Lemma bad_frames_spec (files : Files) :
  existsb (key_eqb key_exchanges) (bad_frames files)
  = is_present (file_exchanges files) && negb (is_usable (file_exchanges files)) /\
  existsb (key_eqb key_prices) (bad_frames files)
  = is_present (file_prices files) && negb (is_usable (file_prices files)) /\
  existsb (key_eqb key_weights) (bad_frames files)
  = is_present (file_weights files) && negb (is_usable (file_weights files)).
Proof.
  unfold bad_frames, date_tables, is_usable, is_present.
  destruct (file_exchanges files) as [e|]; destruct (file_prices files) as [p|];
    destruct (file_weights files) as [w|]; cbn [flat_map app fst snd];
    repeat match goal with
           | |- context [to_datetime_index ?i] =>
               destruct (to_datetime_index i); cbn [flat_map app fst snd]
           end;
    repeat split; reflexivity.
Qed.

Lemma reindex_or_drop_spec (general : option (list Date)) (bad : list Key)
    (key : Key) (file : option RawTable) (r : option DataFrame) :
  existsb (key_eqb key) bad = is_present file && negb (is_usable file) ->
  reindex_or_drop general bad key file = Some r ->
  (is_usable file = false /\ r = None) \/
  (is_usable file = true /\
   exists g d, general = Some g /\ r = Some d /\ index d = g /\
               dtype d = numeric).
Proof.
  intros Hbad Hr. unfold reindex_or_drop in Hr.
  destruct file as [t|]; cbn [is_present is_usable] in *.
  - rewrite Hbad in Hr.
    destruct (to_datetime_index (raw_index t)) as [idx|]; cbn [negb andb] in Hr.
    + right. split; [reflexivity |].
      destruct general as [g|]; [| discriminate].
      destruct (is_unique Z.eqb idx || list_eqb Z.eqb idx g); [| discriminate].
      inversion Hr. eexists. eexists. repeat split.
    + left. inversion Hr. split; reflexivity.
  - left. inversion Hr. split; reflexivity.
Qed.

Lemma full_range_is_date_range (files : Files) (g : list Date) (bad : list Key) :
  get_full_range_for_dates files = Some (Some g, bad) ->
  exists lo hi, g = date_range lo hi.
Proof.
  unfold get_full_range_for_dates.
  destruct (good_frames files) as [|f fs]; [discriminate |].
  destruct (List.concat (f :: fs)) as [|d ds]; [discriminate |].
  intros E. inversion E. eexists. eexists. reflexivity.
Qed.

Lemma full_range_bad (files : Files) (general : option (list Date))
    (bad : list Key) :
  get_full_range_for_dates files = Some (general, bad) -> bad = bad_frames files.
Proof.
  unfold get_full_range_for_dates.
  destruct (good_frames files) as [|f fs].
  - intros E. inversion E. reflexivity.
  - destruct (List.concat (f :: fs)) as [|d ds]; [discriminate |].
    intros E. inversion E. reflexivity.
Qed.

Lemma loaded_as_intro (lo hi : Date) (general : option (list Date))
    (file : option RawTable) (r : option DataFrame) :
  (forall g, general = Some g -> g = date_range lo hi) ->
  (is_usable file = false /\ r = None) \/
  (is_usable file = true /\
   exists g d, general = Some g /\ r = Some d /\ index d = g /\
               dtype d = numeric) ->
  loaded_as (date_range lo hi) file r.
Proof.
  intros Hg [[Hu Hr] | [Hu [g [d [Eg [Er [Ei En]]]]]]]; unfold loaded_as;
    rewrite Hu.
  - assumption.
  - exists d. split; [assumption |]. split; [| assumption].
    rewrite Ei. apply Hg. assumption.
Qed.

Lemma init_spec (files : Files) (self : FormalData) :
  init files = Some self ->
  currencies (df_raw self) = file_currencies files /\
  exists lo hi,
    loaded_as (date_range lo hi) (file_exchanges files) (exchanges (df_raw self)) /\
    loaded_as (date_range lo hi) (file_prices files) (prices (df_raw self)) /\
    loaded_as (date_range lo hi) (file_weights files) (weights (df_raw self)).
Proof.
  unfold init. intros Hinit.
  destruct (get_full_range_for_dates files) as [[general bad]|] eqn:Eg;
    [| discriminate].
  pose proof (full_range_bad _ _ _ Eg) as Hb. subst bad.
  destruct (bad_frames_spec files) as (Be & Bp & Bw).
  destruct (reindex_or_drop general (bad_frames files) key_exchanges
              (file_exchanges files)) as [e|] eqn:Ee; [| discriminate].
  destruct (reindex_or_drop general (bad_frames files) key_prices
              (file_prices files)) as [p|] eqn:Ep; [| discriminate].
  destruct (reindex_or_drop general (bad_frames files) key_weights
              (file_weights files)) as [w|] eqn:Ew; [| discriminate].
  inversion Hinit. subst self. cbn [df_raw currencies exchanges prices weights].
  split; [reflexivity |].
  apply (reindex_or_drop_spec _ _ _ _ _ Be) in Ee.
  apply (reindex_or_drop_spec _ _ _ _ _ Bp) in Ep.
  apply (reindex_or_drop_spec _ _ _ _ _ Bw) in Ew.
  assert (Hrange : exists lo hi, forall g, general = Some g -> g = date_range lo hi).
  { destruct general as [g|].
    - destruct (full_range_is_date_range _ _ _ Eg) as [lo [hi Hg]].
      exists lo, hi. intros g' E'. inversion E'. subst. reflexivity.
    - exists 0, 0. intros g' E'. discriminate. }
  destruct Hrange as [lo [hi Hg]]. exists lo, hi.
  repeat split; apply (loaded_as_intro lo hi general); assumption.
Qed.


(** ** The common index of the derived tables *)

Lemma loaded_as_on_index (g : list Date) (file : option RawTable)
    (t : option DataFrame) :
  loaded_as g file t ->
  on_index g t /\ is_present t = is_usable file /\
  (forall d, t = Some d -> dtype d = numeric).
Proof.
  unfold loaded_as, on_index. destruct (is_usable file).
  - intros [d [-> [Hi Hn]]]. split; [| split; [reflexivity |]].
    + intros d' E. congruence.
    + intros d' E. congruence.
  - intros ->. split; [| split; [reflexivity |]]; intros d' E; discriminate.
Qed.

Lemma attitude_on_index (g : list Date) (t v : option DataFrame) :
  on_index g t -> get_an_attitude t = Ok v ->
  on_index g v /\ is_present v = is_present t.
Proof.
  intros H E. destruct t as [d|].
  - rewrite get_an_attitude_Some in E.
    destruct (attitude d) as [Y | x] eqn:EY; [| discriminate].
    cbn [rmap] in E. inversion E. subst v. split; [| reflexivity].
    intros d' E'. inversion E'. subst d'.
    destruct (attitude_returns d Y EY) as [Hi _]. rewrite Hi.
    apply H. reflexivity.
  - inversion E. split; [| reflexivity]. intros d' E'. discriminate.
Qed.

(** The return engine does not raise on a numeric table. *)
Lemma attitude_of_numeric (t : option DataFrame) :
  (forall d, t = Some d -> dtype d = numeric) ->
  exists v, get_an_attitude t = Ok v.
Proof.
  intros H. destruct t as [d|]; [| exists None; reflexivity].
  rewrite get_an_attitude_Some.
  destruct (attitude_numeric d (H d eq_refl)) as [Y ->].
  eexists. reflexivity.
Qed.

Lemma resolved_on_index (g : list Date) (raw : RawDict) :
  on_index g (exchanges raw) ->
  on_index g (resolved_currency raw) /\
  is_present (resolved_currency raw)
  = is_present (currencies raw) && is_present (exchanges raw).
Proof.
  intros H. unfold resolved_currency.
  destruct (currencies raw) as [c|]; destruct (exchanges raw) as [e|];
    cbn [is_present andb]; (split; [| reflexivity]); intros d E;
    try discriminate.
  inversion E. cbn [resolve_currency fillna_columns merged_frame index].
  apply H. reflexivity.
Qed.

Lemma df_mul_index (a b : DataFrame) (g : list Date) :
  index a = g -> index b = g -> index (df_mul a b) = g.
Proof.
  intros Ha Hb. unfold df_mul, df_binop. cbn [index].
  rewrite Ha, Hb. apply (join_outer_same _ _ Zeqb_spec).
Qed.

Lemma total_on_index (g : list Date) (raw : RawDict) :
  on_index g (prices raw) -> on_index g (exchanges raw) ->
  on_index g (total_raw raw) /\
  is_present (total_raw raw)
  = is_present (prices raw) && is_present (resolved_currency raw).
Proof.
  intros Hp He. destruct (resolved_on_index g raw He) as [Hr _].
  unfold total_raw.
  destruct (prices raw) as [p|]; destruct (resolved_currency raw) as [c|];
    cbn [is_present andb]; (split; [| reflexivity]); intros d E;
    try discriminate.
  inversion E. apply df_mul_index; [apply Hp | apply Hr]; reflexivity.
Qed.

Lemma portfolio_on_index (g : list Date) (self : FormalData)
    (tbl : option DataFrame) :
  on_index g tbl -> on_index g (weights (df_raw self)) ->
  exists pf,
    get_a_portfolio self tbl = Ok pf /\
    (forall p, pf = Some p -> s_index p = g) /\
    is_present pf = is_present tbl && is_present (weights (df_raw self)).
Proof.
  intros Ht Hw. unfold get_a_portfolio, df_checker.
  destruct tbl as [d|];
    [| exists None; split; [reflexivity | split; [discriminate | reflexivity]]].
  destruct (weights (df_raw self)) as [w|];
    [| exists None; split; [reflexivity | split; [discriminate | reflexivity]]].
  eexists. split; [reflexivity |]. split; [| reflexivity].
  intros p E. inversion E. cbn [sum_axis1 s_index].
  apply df_mul_index; [apply Ht | apply Hw]; reflexivity.
Qed.

Lemma is_present_false {A} (t : option A) : is_present t = false -> t = None.
Proof. destruct t; [discriminate | reflexivity]. Qed.

Lemma is_present_true {A} (t : option A) :
  is_present t = true -> exists x, t = Some x.
Proof. destruct t as [x|]; [exists x; reflexivity | discriminate]. Qed.

(** The result of a query, from the table its portfolio is taken of. *)
Lemma query_result (lo hi : Date) (self : FormalData) (tbl : option DataFrame)
    (s e : Date) (name : string) :
  on_index (date_range lo hi) tbl ->
  on_index (date_range lo hi) (weights (df_raw self)) ->
  exists pf,
    get_a_portfolio self tbl = Ok pf /\
    (is_present tbl && is_present (weights (df_raw self)) = false ->
     pf = None) /\
    (is_present tbl && is_present (weights (df_raw self)) = true ->
     exists p r,
       pf = Some p /\
       s_index p = date_range lo hi /\
       portfolio_performance pf (ArgTimestamp s) (ArgTimestamp e) name
       = Ok (Some r) /\
       s_index r = filter (in_window s e) (date_range lo hi) /\
       s_name r = Some name /\
       forall k, s_values r k =
                 running_performance (s_values p)
                   (searchsorted_left (date_range lo hi) s + k)%nat).
Proof.
  intros Ht Hw.
  destruct (portfolio_on_index _ self tbl Ht Hw) as (pf & Hpf & Hidx & Hpres).
  exists pf. split; [assumption |]. rewrite <- Hpres. split; intros Hp.
  - apply is_present_false in Hp. assumption.
  - apply is_present_true in Hp. destruct Hp as [p Hp]. subst pf.
    pose proof (Hidx p eq_refl) as Hi.
    destruct (performance_on_increasing p s e name) as (r & Hr & Hri & Hrn & Hrv).
    { rewrite Hi. apply date_range_monotonic. }
    exists p, r. rewrite <- Hi.
    repeat split; try assumption.
    intros k. rewrite Hrv. apply cumprod_running.
Qed.

(** Every instance is consistent and holds the usable date tables of its
    files, as numeric tables, on one range of days. *)
Lemma reachable_spec (files : Files) (self : FormalData) :
  reachable files self ->
  consistent self /\
  currencies (df_raw self) = file_currencies files /\
  exists lo hi,
    loaded_as (date_range lo hi) (file_exchanges files) (exchanges (df_raw self)) /\
    loaded_as (date_range lo hi) (file_prices files) (prices (df_raw self)) /\
    loaded_as (date_range lo hi) (file_weights files) (weights (df_raw self)).
Proof.
  intros Hr. destruct (reachable_consistent _ _ Hr) as [Hc [self0 [Hi Hraw]]].
  split; [assumption |]. rewrite Hraw. apply init_spec. assumption.
Qed.


(** ** The three queries on an instance *)

Lemma query_answers_intro (lo hi : Date) (self self' : FormalData)
    (engine : Result (option DataFrame)) (s e : Date) (name : string)
    (ready : bool) :
  (forall tbl, engine = Ok tbl ->
     on_index (date_range lo hi) tbl /\
     is_present tbl && is_present (weights (df_raw self)) = ready) ->
  on_index (date_range lo hi) (weights (df_raw self)) ->
  query_answers (date_range lo hi) s e name ready engine
    (returned_value (outcome (portfolio_from self engine) self'))
    (outcome (answer_from self engine (ArgTimestamp s) (ArgTimestamp e) name)
             self').
Proof.
  intros Hengine Hw. unfold query_answers, answer_from.
  destruct engine as [tbl | x]; cbn [portfolio_from]; [| reflexivity].
  destruct (Hengine tbl eq_refl) as [Ht Hready].
  destruct (query_result lo hi self tbl s e name Ht Hw)
    as (pf & Hpf & Hno & Hyes).
  rewrite Hpf. cbn [outcome returned_value]. rewrite result_of_outcome.
  destruct ready.
  - destruct (Hyes Hready) as (p & r & Hp & Hi & Hr & Hri & Hrn & Hrv).
    exists p, r. rewrite Hr, Hp. repeat split; assumption.
  - rewrite (Hno Hready). reflexivity.
Qed.

Lemma queries_spec (files : Files) (self : FormalData) (a b : DateArg)
    (s e : Date) :
  reachable files self ->
  try_convert_date_time a = Some (Stamp s) ->
  try_convert_date_time b = Some (Stamp e) ->
  exists lo hi,
    query_answers (date_range lo hi) s e "Pt" (asset_ready files)
      (get_an_attitude (prices (df_raw self)))
      (returned_value (get_asset_portfolio self))
      (calculate_asset_performance self (Positional a b)) /\
    query_answers (date_range lo hi) s e "CPt" (currency_ready files)
      (get_an_attitude (resolved_currency (df_raw self)))
      (returned_value (get_currency_portfolio self))
      (calculate_currency_performance self (Positional a b)) /\
    query_answers (date_range lo hi) s e "TPt" (total_ready files)
      (get_an_attitude (total_raw (df_raw self)))
      (returned_value (get_total_portfolio self))
      (calculate_total_performance self (Positional a b)).
Proof.
  intros Hreach Ha Hb.
  destruct (reachable_spec _ _ Hreach)
    as (Hcons & Hcur & lo & hi & Le & Lp & Lw).
  exists lo, hi.
  destruct (loaded_as_on_index _ _ _ Le) as (Oe & Pe & _).
  destruct (loaded_as_on_index _ _ _ Lp) as (Op & Pp & _).
  destruct (loaded_as_on_index _ _ _ Lw) as (Ow & Pw & _).
  destruct (resolved_on_index _ _ Oe) as [Or Pr].
  destruct (total_on_index _ _ Op Oe) as [Ot Pt].
  split; [| split].
  - rewrite (calculate_asset_spec self a b s e Hcons Ha Hb).
    rewrite (get_asset_portfolio_spec self Hcons).
    apply query_answers_intro; [| assumption].
    intros tbl E. destruct (attitude_on_index _ _ _ Op E) as [Oa Pa].
    split; [assumption |]. unfold asset_ready. rewrite Pa, Pp, Pw. reflexivity.
  - rewrite (calculate_currency_spec self a b s e Hcons Ha Hb).
    rewrite (get_currency_portfolio_spec self Hcons).
    apply query_answers_intro; [| assumption].
    intros tbl E. destruct (attitude_on_index _ _ _ Or E) as [Oa Pa].
    split; [assumption |].
    unfold currency_ready. rewrite Pa, Pr, Hcur, Pe, Pw. reflexivity.
  - rewrite (calculate_total_spec self a b s e Hcons Ha Hb).
    rewrite (get_total_portfolio_spec self Hcons).
    apply query_answers_intro; [| assumption].
    intros tbl E. destruct (attitude_on_index _ _ _ Ot E) as [Oa Pa].
    split; [assumption |].
    unfold total_ready. rewrite Pa, Pt, Pr, Hcur, Pp, Pe, Pw. reflexivity.
Qed.

(** On an instance the prices are a numeric table, so the return engine
    returns for them. *)
Lemma asset_engine_returns (files : Files) (self : FormalData) :
  reachable files self ->
  exists v, get_an_attitude (prices (df_raw self)) = Ok v.
Proof.
  intros Hreach.
  destruct (reachable_spec _ _ Hreach) as (_ & _ & lo & hi & _ & Lp & _).
  apply attitude_of_numeric. apply (loaded_as_on_index _ _ _ Lp).
Qed.

Lemma filter_empty_window (s e : Date) (l : list Date) :
  e < s -> filter (in_window s e) l = [].
Proof.
  intros H. induction l as [|x l IH]; simpl; [reflexivity |].
  unfold in_window at 1.
  destruct (s <=? x) eqn:E1; destruct (x <=? e) eqn:E2; cbn [andb];
    try assumption.
  apply Z.leb_le in E1. apply Z.leb_le in E2. lia.
Qed.



(** * The claims *)

(** ** Compounding *)

Lemma firstn_length_firstn {A} (n : nat) (l : list A) :
  firstn (List.length (firstn n l)) l = firstn n l.
Proof.
  revert l. induction n as [|n IH]; intros l.
  - reflexivity.
  - destruct l as [|x l]; [reflexivity |]. simpl. f_equal. apply IH.
Qed.

Lemma performance_is_slice (d : Series) (s e : Date) (name : string) (r : Series) :
  portfolio_performance (Some d) (ArgTimestamp s) (ArgTimestamp e) name
  = Ok (Some r) ->
  exists i,
    s_index r = firstn (List.length (s_index r)) (skipn i (s_index d)) /\
    forall k, s_values r k = running_performance (s_values d) (i + k)%nat.
Proof.
  unfold portfolio_performance, df_checker, getitem_slice, loc_slice.
  cbn [rename cumprod add_scalar s_index].
  destruct (is_monotonic_increasing (s_index d)).
  - cbn [rmap]. intros E. inversion E. cbn [iloc_slice s_index s_values].
    exists (searchsorted_left (s_index d) s). split.
    + symmetry. apply firstn_length_firstn.
    + intros k. apply (cumprod_running d).
  - destruct (get_loc Z.eqb s (s_index d)) as [i|]; [| discriminate].
    destruct (get_loc Z.eqb e (s_index d)) as [j|]; [| discriminate].
    cbn [rmap]. intros E. inversion E. cbn [iloc_slice s_index s_values].
    exists i. split.
    + symmetry. apply firstn_length_firstn.
    + intros k. apply (cumprod_running d).
Qed.

Lemma times_nan_r (x : cell) : times x NaN = NaN.
Proof. destruct x; reflexivity. Qed.

Lemma running_step (ret : nat -> cell) (t : nat) (p : F) :
  running_performance ret t = Some p ->
  running_performance ret (S t) = times (Some p) (growth ret (S t)).
Proof.
  unfold running_performance. intros H.
  destruct (growth ret t) as [x|]; [| discriminate].
  destruct (growth ret (S t)) as [y|] eqn:E; [| reflexivity].
  rewrite (seq_S (S t) 0), map_app. cbn [map Nat.add].
  change (seq 0 (S t)) with (0%nat :: seq 1 t) in *.
  cbn [map] in *. rewrite product_snoc, H.
  unfold factor. rewrite E. reflexivity.
Qed.

(** C2, as the code has it.  The values of a performance series are
    compounded from the first date of the whole return series, not from
    the start of the window: the value at a windowed date is the value at
    that date of the running product taken from the first date of the
    series (the product of the factors 1 + return of all the dates up to
    it, 1 for a date without return; NaN at a date without return), so
    the value 1 sits before the first date of the series.  Where the
    performance of a date is a number, the performance of the next date
    is that number times 1 + the return of the next date. *)
Theorem compounding_from_series_start (d : Series) (s e : Date)
    (name : string) (r : Series) :
  portfolio_performance (Some d) (ArgTimestamp s) (ArgTimestamp e) name
  = Ok (Some r) ->
  exists i,
    s_index r = firstn (List.length (s_index r)) (skipn i (s_index d)) /\
    (forall k, s_values r k = running_performance (s_values d) (i + k)%nat) /\
    (forall k p,
        s_values r k = Some p ->
        s_values r (S k)
        = times (Some p) (plus (s_values d (i + S k)%nat) (Some f1))).
Proof.
  intros H. destruct (performance_is_slice d s e name r H) as (i & Hi & Hv).
  exists i. split; [assumption |]. split; [assumption |].
  intros k p Hp. rewrite Hv in *.
  rewrite Nat.add_succ_r. apply (running_step _ _ p). assumption.
Qed.

(** C10, as the code has it.  Where the return is NaN the performance is
    NaN, and the date counts for the factor 1 in the running product: at
    a date whose factor 1 + return is a number, the performance is the
    product of the factors of all the dates of the series up to it, with
    1 for the dates without a factor.  The product is taken in the
    arithmetic of the cells, where it can be NaN itself. *)
Theorem undefined_return_is_skipped (d : Series) (s e : Date)
    (name : string) (r : Series) :
  portfolio_performance (Some d) (ArgTimestamp s) (ArgTimestamp e) name
  = Ok (Some r) ->
  exists i,
    s_index r = firstn (List.length (s_index r)) (skipn i (s_index d)) /\
    (forall k, s_values d (i + k)%nat = NaN -> s_values r k = NaN) /\
    (forall t, s_values d t = NaN -> factor (s_values d) t = Some f1) /\
    (forall k y,
        plus (s_values d (i + k)%nat) (Some f1) = Some y ->
        s_values r k
        = product (map (factor (s_values d)) (seq 0 (S (i + k))))).
Proof.
  intros H. destruct (performance_is_slice d s e name r H) as (i & Hi & Hv).
  exists i. split; [assumption |]. split; [| split].
  - intros k Hk. rewrite Hv. unfold running_performance, growth.
    rewrite Hk. reflexivity.
  - intros t Ht. unfold factor, growth. rewrite Ht. reflexivity.
  - intros k y Hy. rewrite Hv. unfold running_performance, growth.
    rewrite Hy. reflexivity.
Qed.


(** ** The portfolio aggregator *)

Lemma map_seq_nth {A B} (f : nat -> B) (g : A -> B) (l : list A) (k : nat) :
  (forall j c, nth_error l j = Some c -> f (k + j)%nat = g c) ->
  map f (seq k (List.length l)) = map g l.
Proof.
  revert k. induction l as [|x l IH]; intros k H.
  - reflexivity.
  - cbn [List.length seq map]. f_equal.
    + rewrite <- (H 0%nat x eq_refl). f_equal. lia.
    + apply IH. intros j c Hj. rewrite <- (H (S j) c Hj). f_equal. lia.
Qed.

Lemma take2_loc (df : DataFrame) (idx : list Date) (cols : list Label)
    (i j : nat) (d : Date) (c : Label) :
  is_unique Z.eqb (index df) = true ->
  is_unique String.eqb (columns df) = true ->
  nth_error idx i = Some d -> nth_error cols j = Some c ->
  take2 df idx cols i j = loc df d c.
Proof.
  intros Ui Uc Hi Hj. unfold take2, loc.
  rewrite (indexer_unique _ _ Zeqb_spec _ _ _ _ Ui Hi).
  rewrite (indexer_unique _ _ Seqb_spec _ _ _ _ Uc Hj).
  reflexivity.
Qed.

Lemma indexer_missing {A} (eqb : A -> A -> bool)
    (eqb_spec : forall x y, eqb x y = true <-> x = y)
    (old new : list A) (j : nat) (x : A) :
  nth_error new j = Some x -> ~ In x old -> indexer eqb old new j = None.
Proof.
  intros Hj Hn. unfold indexer.
  destruct (list_eqb eqb old new) eqn:E.
  - apply (list_eqb_eq _ _ eqb_spec) in E. subst.
    exfalso. apply Hn. eapply nth_error_In. eassumption.
  - rewrite Hj. apply (get_loc_None _ _ eqb_spec). assumption.
Qed.

Lemma take2_missing_column (df : DataFrame) (idx : list Date)
    (cols : list Label) (i j : nat) (c : Label) :
  nth_error cols j = Some c -> ~ In c (columns df) ->
  take2 df idx cols i j = NaN.
Proof.
  intros Hj Hn. unfold take2.
  rewrite (indexer_missing String.eqb Seqb_spec _ _ _ _ Hj Hn).
  destruct (indexer Z.eqb (index df) idx i); reflexivity.
Qed.

Lemma row_has_nan (df : DataFrame) (i j : nat) :
  (j < List.length (columns df))%nat -> values df i j = NaN ->
  In NaN (row_list df i).
Proof.
  intros Hj Hv. unfold row_list. apply in_map_iff.
  exists j. split; [assumption |]. apply in_seq. lia.
Qed.

(** C3.  With the weights there, the aggregate of a date is the sum,
    over the columns of the aligned product, of return times weight, and
    it is NaN as soon as the return or the weight of one of these
    columns is NaN at that date.  The sum and the products are taken in
    the operations of the numbers, from the left. *)
Theorem strict_aggregation (self : FormalData) (df w : DataFrame) :
  weights (df_raw self) = Some w ->
  is_unique Z.eqb (index df) = true ->
  is_unique String.eqb (columns df) = true ->
  is_unique Z.eqb (index w) = true ->
  is_unique String.eqb (columns w) = true ->
  exists agg,
    get_a_portfolio self (Some df) = Ok (Some agg) /\
    s_index agg = join_outer Z.eqb Z.leb (index df) (index w) /\
    forall i d, nth_error (s_index agg) i = Some d ->
      let cols := join_outer String.eqb String.leb (columns df) (columns w) in
      s_values agg i
      = sum_of (map (fun c => times (loc df d c) (loc w d c)) cols) /\
      ((exists c, In c cols /\ (loc df d c = NaN \/ loc w d c = NaN)) ->
       s_values agg i = NaN).
Proof.
  intros Hw Udi Udc Uwi Uwc.
  unfold get_a_portfolio, df_checker. rewrite Hw.
  eexists. split; [reflexivity |]. split; [reflexivity |].
  cbn [sum_axis1 s_index s_values]. intros i d Hi.
  set (cols := join_outer String.eqb String.leb (columns df) (columns w)).
  change (nth_error (join_outer Z.eqb Z.leb (index df) (index w)) i = Some d)
    in Hi.
  assert (Hrow : row_list (df_mul df w) i
                 = map (fun c => times (loc df d c) (loc w d c)) cols).
  { unfold row_list, df_mul, df_binop. cbn [columns values index] in *.
    fold cols. apply map_seq_nth. intros j c Hj. cbn [Nat.add].
    rewrite (take2_loc df _ _ i j d c Udi Udc Hi Hj).
    rewrite (take2_loc w _ _ i j d c Uwi Uwc Hi Hj). apply cmul_times. }
  split; [rewrite Hrow; apply strict_sum_sum_of |].
  intros [c [Hin Hnan]]. rewrite Hrow. apply strict_sum_absorbs.
  apply in_map_iff. exists c. split; [| assumption].
  destruct Hnan as [-> | ->]; [reflexivity | apply times_nan_r].
Qed.

(** C4, as the code has it.  The aggregate is taken over the union of the
    columns of the two tables: an asset that only one of them has makes
    the aggregate of every date NaN. *)
Theorem mismatched_asset_forces_undefined (self : FormalData)
    (df w : DataFrame) (c : Label) :
  weights (df_raw self) = Some w ->
  (In c (columns df) /\ ~ In c (columns w)) \/
  (In c (columns w) /\ ~ In c (columns df)) ->
  exists agg,
    get_a_portfolio self (Some df) = Ok (Some agg) /\
    forall i, s_values agg i = NaN.
Proof.
  intros Hw Hc. unfold get_a_portfolio, df_checker. rewrite Hw.
  eexists. split; [reflexivity |]. intros i. cbn [sum_axis1 s_values].
  apply strict_sum_absorbs.
  set (cols := join_outer String.eqb String.leb (columns df) (columns w)).
  assert (Hin : In c cols).
  { apply (In_join_outer _ _ Seqb_spec). tauto. }
  apply In_nth_error in Hin. destruct Hin as [j Hj].
  apply (row_has_nan _ i j).
  - unfold df_mul, df_binop. cbn [columns]. fold cols.
    apply nth_error_Some. rewrite Hj. discriminate.
  - unfold df_mul, df_binop. cbn [values]. fold cols.
    destruct Hc as [[_ Hn] | [_ Hn]].
    + rewrite (take2_missing_column w _ _ i j c Hj Hn). apply cmul_nan_r.
    + rewrite (take2_missing_column df _ _ i j c Hj Hn). reflexivity.
Qed.


(** ** The currency resolver *)

Lemma positions_notin (x : Label) (l : list Label) (from : nat) :
  ~ In x l -> positions x l from = [].
Proof.
  revert from. induction l as [|y l IH]; intros from Hn.
  - reflexivity.
  - cbn [positions]. destruct (String.eqb x y) eqn:E.
    + apply String.eqb_eq in E. subst. exfalso. apply Hn. left. reflexivity.
    + apply IH. intros Hin. apply Hn. right. assumption.
Qed.

Lemma positions_unique (x : Label) (l : list Label) (from : nat) :
  is_unique String.eqb l = true ->
  positions x l from = [] \/ exists q, positions x l from = [q].
Proof.
  revert from. induction l as [|y l IH]; intros from Hu.
  - left. reflexivity.
  - cbn [is_unique] in Hu. apply andb_true_iff in Hu. destruct Hu as [Hy Hu].
    cbn [positions]. destruct (String.eqb x y) eqn:E.
    + right. exists from. f_equal. apply positions_notin.
      apply String.eqb_eq in E. subst. intros Hin.
      apply (existsb_eqb_In _ _ Seqb_spec) in Hin. rewrite Hin in Hy. discriminate.
    + apply IH. assumption.
Qed.

Lemma merge_right_unique (ex : DataFrame) (cur : CurrencyTable) :
  is_unique String.eqb (columns ex) = true ->
  merge_right ex cur
  = map (fun ac => (fst ac, hd_error (positions (snd ac) (columns ex) 0))) cur.
Proof.
  intros Hu. unfold merge_right. induction cur as [|ac cur IH].
  - reflexivity.
  - change (ac :: cur) with ([ac] ++ cur).
    rewrite flat_map_app, map_app, IH. cbn [flat_map map app].
    rewrite app_nil_r.
    destruct (positions_unique (snd ac) (columns ex) 0 Hu) as [E | [q E]];
      rewrite E; reflexivity.
Qed.

Lemma all_nan_columns_In (df : DataFrame) (j : nat) (c : Label) :
  nth_error (columns df) j = Some c -> isna_all df j = true ->
  In c (all_nan_columns df).
Proof.
  intros Hj Hall. unfold all_nan_columns. apply in_flat_map.
  exists j. split.
  - apply in_seq. split; [lia |]. cbn [Nat.add].
    apply nth_error_Some. rewrite Hj. discriminate.
  - rewrite Hall, Hj. left. reflexivity.
Qed.

Lemma fill_all_nan_column (df : DataFrame) (i j : nat) :
  (j < List.length (columns df))%nat -> isna_all df j = true ->
  (i < List.length (index df))%nat ->
  values (fillna_columns df (all_nan_columns df) f1) i j = Some f1.
Proof.
  intros Hj Hall Hi. cbn [fillna_columns values].
  destruct (nth_error (columns df) j) as [c|] eqn:Ec.
  - pose proof (all_nan_columns_In df j c Ec Hall) as Hin.
    apply (existsb_eqb_In _ _ Seqb_spec) in Hin. rewrite Hin.
    unfold isna_all in Hall. rewrite forallb_forall in Hall.
    rewrite (Hall i); [reflexivity |]. apply in_seq. lia.
  - apply nth_error_None in Ec. lia.
Qed.

(** C9.  Without the currency definition or without the exchange rates
    the resolver gives None.  With both it gives a table on the dates of
    the exchange rates with one column per asset of the currency
    definition, in its order; a column that is NaN in every row after
    the merge holds 1 at every date, and such is the column of an asset
    whose currency code names no column of the exchange rates.  The
    column labels of the exchange rates are distinct, as [read_csv]
    makes them. *)
Theorem unresolved_currency_is_one (self : FormalData) :
  (currencies (df_raw self) = None \/ exchanges (df_raw self) = None ->
   get_currency_raw self = None) /\
  forall cur ex,
    currencies (df_raw self) = Some cur -> exchanges (df_raw self) = Some ex ->
    is_unique String.eqb (columns ex) = true ->
    exists t,
      get_currency_raw self = Some t /\
      index t = index ex /\
      columns t = map fst cur /\
      (forall j, (j < List.length (columns t))%nat ->
         isna_all (merged_frame ex cur) j = true ->
         forall i, (i < List.length (index t))%nat -> values t i j = Some f1) /\
      (forall j asset code,
         nth_error cur j = Some (asset, code) -> ~ In code (columns ex) ->
         isna_all (merged_frame ex cur) j = true).
Proof.
  split.
  - unfold get_currency_raw. intros [-> | H]; [reflexivity |].
    rewrite H. destruct (currencies (df_raw self)); reflexivity.
  - intros cur ex Hc He Hu. unfold get_currency_raw. rewrite Hc, He.
    eexists. split; [reflexivity |].
    assert (Hcols : columns (merged_frame ex cur) = map fst cur).
    { cbn [merged_frame columns]. rewrite (merge_right_unique ex cur Hu).
      rewrite map_map. reflexivity. }
    split; [reflexivity |]. split; [exact Hcols |]. split.
    + intros j Hj Hall i Hi. unfold resolve_currency.
      apply fill_all_nan_column; assumption.
    + intros j asset code Hj Hn. unfold isna_all. apply forallb_forall.
      intros i _. cbn [merged_frame values].
      rewrite (merge_right_unique ex cur Hu).
      rewrite nth_error_map, Hj. cbn [option_map fst snd].
      rewrite (positions_notin code (columns ex) 0 Hn). reflexivity.
Qed.

End Theory.

(** * The claims on the sample tables *)

Import Sample.

(** C1.  The end date of the window is part of the result: on the sample
    prices, queried from 2020-01-01 to 2020-01-02, the series holds both
    dates, while the docstring of [__portfolio_performance] calls the
    right border excluded. *)
Theorem end_date_is_included :
  try_convert_date_time (ArgInt 20200101) = Some (Stamp d1) /\
  try_convert_date_time (ArgInt 20200102) = Some (Stamp d2) /\
  option_map view (run asset_files calculate_asset_performance
                       (Positional (ArgInt 20200101) (ArgInt 20200102)))
  = Some (Some ([d1; d2], [NaN; num 2], Some "Pt"%string)).
Proof. repeat split. Qed.

(** C5.  The return engine does not compute the formula on every table
    that is there.  The exchange rate of the sample is 0, 1, 2: the
    resolved currency table and the product of the prices and the rates
    hold a zero that the engine divides by, their cells are objects, and
    the engine raises ZeroDivisionError on both, so that neither return
    table is computed.  On the exchange rates as they are stored, a
    numeric table with the same numbers, the engine returns NaN, inf,
    1. *)
Theorem zero_rate_makes_the_engine_raise :
  exists self X T,
    init zero_rate_files = Some self /\
    get_currency_raw self = Some X /\
    to_rows X = [[num 0]; [num 1]; [num 2]] /\
    get_an_attitude (Some X) = Raise ZeroDivisionError /\
    returned_value (get_total_raw self) = Some (Some T) /\
    to_rows T = [[num 0]; [num 2]; [num 8]] /\
    get_an_attitude (Some T) = Raise ZeroDivisionError /\
    result_of (generate_currency self) = Raise ZeroDivisionError /\
    df_currency (state_of (generate_currency self)) = None /\
    result_of (generate_total self) = Raise ZeroDivisionError /\
    df_total (state_of (generate_total self)) = None /\
    option_map to_rows (exchanges (df_raw self))
    = Some [[num 0]; [num 1]; [num 2]] /\
    exists Y,
      get_an_attitude (exchanges (df_raw self)) = Ok (Some Y) /\
      to_rows Y = [[NaN]; [inf]; [num 1]].
Proof.
  eexists. eexists. eexists.
  split; [reflexivity |]. split; [reflexivity |]. split; [reflexivity |].
  split; [reflexivity |]. split; [reflexivity |]. split; [reflexivity |].
  split; [reflexivity |]. split; [reflexivity |]. split; [reflexivity |].
  split; [reflexivity |]. split; [reflexivity |]. split; [reflexivity |].
  eexists. split; reflexivity.
Qed.

(** C6.  Without the weights, and with the other tables usable, two of
    the three queries raise instead of returning None: the exchange rate
    of the sample is 0, 1, 2, the return tables of the currency and of
    the total query are computed before the weights are looked at, and
    the engine raises ZeroDivisionError.  The dates are Timestamps, so
    that nothing depends on how pandas reads a date. *)
Theorem zero_rate_raises_without_weights (PD : @Pandas exact_arith) :
  let self := instance_of zero_rate_without_weights in
  let call := Positional (ArgTimestamp d1) (ArgTimestamp d3) in
  init zero_rate_without_weights = Some self /\
  is_usable (file_weights zero_rate_without_weights) = false /\
  is_usable (file_prices zero_rate_without_weights) = true /\
  is_usable (file_exchanges zero_rate_without_weights) = true /\
  is_present (file_currencies zero_rate_without_weights) = true /\
  try_convert_date_time (ArgTimestamp d1) = Some (Stamp d1) /\
  try_convert_date_time (ArgTimestamp d3) = Some (Stamp d3) /\
  result_of (calculate_asset_performance self call) = Ok None /\
  result_of (calculate_currency_performance self call)
  = Raise ZeroDivisionError /\
  result_of (calculate_total_performance self call) = Raise ZeroDivisionError.
Proof. repeat split. Qed.

(** C7.  A date that is given by keyword is not checked, whatever it is
    and however pandas reads dates.  On the sample without weights, two
    dates of which one does not normalise raise TypeError when they are
    given by position; given by keyword, any two dates make each of the
    three queries return None, and each query has filled the cache of
    its return table. *)
Theorem keyword_dates_are_not_checked (PD : @Pandas exact_arith)
    (a b : DateArg) :
  let self := instance_of without_weights in
  init without_weights = Some self /\
  (try_convert_date_time a = None \/ try_convert_date_time b = None ->
   calculate_asset_performance self (Positional a b) = Raised TypeError self) /\
  result_of (calculate_asset_performance self (Keywords a b)) = Ok None /\
  result_of (calculate_currency_performance self (Keywords a b)) = Ok None /\
  result_of (calculate_total_performance self (Keywords a b)) = Ok None /\
  df_asset self = None /\
  df_currency self = None /\
  df_total self = None /\
  is_present (df_asset (state_of (calculate_asset_performance
                                    self (Keywords a b)))) = true /\
  is_present (df_currency (state_of (calculate_currency_performance
                                       self (Keywords a b)))) = true /\
  is_present (df_total (state_of (calculate_total_performance
                                    self (Keywords a b)))) = true.
Proof.
  cbn zeta. split; [reflexivity |]. split; [| repeat split].
  unfold calculate_asset_performance, date_checker, convert, bind.
  intros [Ha | Hb].
  - rewrite Ha. reflexivity.
  - rewrite Hb. destruct (try_convert_date_time a); reflexivity.
Qed.

(** C8.  With the start after the end, and every table usable, two of
    the three queries raise instead of returning an empty series: the
    exchange rate of the sample is 0, 1, 2, and the return engine raises
    ZeroDivisionError before the window is cut.  The asset query returns
    the empty series.  The dates are Timestamps, so that nothing depends
    on how pandas reads a date. *)
Theorem zero_rate_raises_on_reversed_window (PD : @Pandas exact_arith) :
  let self := instance_of zero_rate_files in
  let call := Positional (ArgTimestamp d3) (ArgTimestamp d1) in
  init zero_rate_files = Some self /\
  asset_ready zero_rate_files = true /\
  currency_ready zero_rate_files = true /\
  total_ready zero_rate_files = true /\
  try_convert_date_time (ArgTimestamp d3) = Some (Stamp d3) /\
  try_convert_date_time (ArgTimestamp d1) = Some (Stamp d1) /\
  d1 < d3 /\
  view (calculate_asset_performance self call)
  = Some ([], [], Some "Pt"%string) /\
  result_of (calculate_currency_performance self call)
  = Raise ZeroDivisionError /\
  result_of (calculate_total_performance self call) = Raise ZeroDivisionError.
Proof. repeat split. Qed.

(** C2, as it is stated, fails on the sample prices: the returns are NaN,
    1, 1; the window that starts at the third date has the first value
    4 = (1 + 1) * (1 + 1), not 1 * (1 + 1) = 2. *)
Lemma first_value_is_not_rebased :
  exists self pf r,
    init asset_files = Some self /\
    returned_value (get_asset_portfolio self) = Some (Some pf) /\
    to_list pf = [NaN; num 1; num 1] /\
    returned_value (calculate_asset_performance self
                      (Positional (ArgInt 20200103) (ArgInt 20200103)))
    = Some (Some r) /\
    s_index r = [d3] /\
    nth_error (s_index pf) 2 = Some d3 /\
    s_values r 0 = num 4 /\
    cmul (Some f1) (cadd (s_values pf 2) (Some f1)) = num 2 /\
    s_values r 0 <> cmul (Some f1) (cadd (s_values pf 2) (Some f1)).
Proof.
  eexists. eexists. eexists.
  split; [reflexivity |]. split; [reflexivity |]. split; [reflexivity |].
  split; [reflexivity |]. split; [reflexivity |]. split; [reflexivity |].
  split; [reflexivity |]. split; [reflexivity |].
  intros H. vm_compute in H. discriminate H.
Qed.

Lemma compounding_from_series_start_witness :
  (exists i,
     s_index (the (portfolio_performance (Some returns_A) (ArgTimestamp d2)
                     (ArgTimestamp d3) "Pt"))
     = firstn (List.length
                 (s_index (the (portfolio_performance (Some returns_A)
                                  (ArgTimestamp d2) (ArgTimestamp d3) "Pt"))))
              (skipn i (s_index returns_A)) /\
     (forall k,
         s_values (the (portfolio_performance (Some returns_A)
                          (ArgTimestamp d2) (ArgTimestamp d3) "Pt")) k
         = running_performance (s_values returns_A) (i + k)%nat) /\
     (forall k p,
         s_values (the (portfolio_performance (Some returns_A)
                          (ArgTimestamp d2) (ArgTimestamp d3) "Pt")) k
         = Some p ->
         s_values (the (portfolio_performance (Some returns_A)
                          (ArgTimestamp d2) (ArgTimestamp d3) "Pt")) (S k)
         = times (Some p)
                 (plus (s_values returns_A (i + S k)%nat) (Some f1)))) /\
  to_list (the (portfolio_performance (Some returns_A) (ArgTimestamp d2)
                  (ArgTimestamp d3) "Pt"))
  = [num 2; num 4].
Proof.
  split; [| reflexivity].
  apply (@compounding_from_series_start exact_arith sample_pandas returns_A
           d2 d3 "Pt"%string).
  reflexivity.
Defined.

(** C10, as it is stated, fails on a price that goes 1, 0, 5, 5 with the
    weight 1: the returns are NaN, -1, inf, 0; the factors 0 and inf
    multiply to NaN, and the performance of the last date is NaN though
    its return is the number 0. *)
Lemma defined_return_after_zero_is_undefined :
  exists self pf r,
    init zero_price_files = Some self /\
    returned_value (get_asset_portfolio self) = Some (Some pf) /\
    to_list pf = [NaN; num (-1); inf; num 0] /\
    returned_value (calculate_asset_performance self
                      (Positional (ArgInt 20200101) (ArgInt 20200104)))
    = Some (Some r) /\
    s_index r = [d1; d2; d3; d4] /\
    to_list r = [NaN; num 0; NaN; NaN] /\
    s_values pf 0 = NaN /\
    s_values pf 3 = num 0 /\
    s_values r 3 = NaN.
Proof.
  eexists. eexists. eexists.
  split; [reflexivity |]. split; [reflexivity |]. split; [reflexivity |].
  split; [reflexivity |]. split; [reflexivity |]. split; [reflexivity |].
  split; [reflexivity |]. split; reflexivity.
Qed.

Lemma undefined_return_is_skipped_witness :
  (exists i,
     s_index (the (portfolio_performance (Some returns_A) (ArgTimestamp d1)
                     (ArgTimestamp d3) "Pt"))
     = firstn (List.length
                 (s_index (the (portfolio_performance (Some returns_A)
                                  (ArgTimestamp d1) (ArgTimestamp d3) "Pt"))))
              (skipn i (s_index returns_A)) /\
     (forall k, s_values returns_A (i + k)%nat = NaN ->
                s_values (the (portfolio_performance (Some returns_A)
                                 (ArgTimestamp d1) (ArgTimestamp d3) "Pt")) k
                = NaN) /\
     (forall t, s_values returns_A t = NaN ->
                factor (s_values returns_A) t = Some f1) /\
     (forall k y,
         plus (s_values returns_A (i + k)%nat) (Some f1) = Some y ->
         s_values (the (portfolio_performance (Some returns_A)
                          (ArgTimestamp d1) (ArgTimestamp d3) "Pt")) k
         = product (map (factor (s_values returns_A))
                        (seq 0 (S (i + k)))))) /\
  to_list (the (portfolio_performance (Some returns_A) (ArgTimestamp d1)
                  (ArgTimestamp d3) "Pt"))
  = [NaN; num 2; num 4].
Proof.
  split; [| reflexivity].
  apply (@undefined_return_is_skipped exact_arith sample_pandas returns_A
           d1 d3 "Pt"%string).
  reflexivity.
Defined.

Lemma strict_aggregation_witness :
  (exists agg,
     get_a_portfolio (weighted weights_full_AB) (Some returns_AB)
     = Ok (Some agg) /\
     s_index agg
     = join_outer Z.eqb Z.leb (index returns_AB) (index weights_full_AB) /\
     forall i d, nth_error (s_index agg) i = Some d ->
       let cols := join_outer String.eqb String.leb
                     (columns returns_AB) (columns weights_full_AB) in
       s_values agg i
       = sum_of (map (fun c => times (loc returns_AB d c)
                                     (loc weights_full_AB d c)) cols) /\
       ((exists c, In c cols /\
                   (loc returns_AB d c = NaN \/ loc weights_full_AB d c = NaN)) ->
        s_values agg i = NaN)) /\
  to_list (the (get_a_portfolio (weighted weights_full_AB) (Some returns_AB)))
  = [NaN; num 5; num 12].
Proof.
  split; [| reflexivity].
  apply (@strict_aggregation exact_arith (weighted weights_full_AB)
           returns_AB weights_full_AB); reflexivity.
Defined.

(** C4, as it is stated, fails on the sample tables: asset B has weights
    and no prices; on the second date the return and the weight of
    asset A are numbers, and the aggregate is NaN. *)
Lemma extra_weight_column_forces_nan :
  exists self ret w pf,
    init mismatch_files = Some self /\
    df_asset (state_of (generate_asset self)) = Some ret /\
    weights (df_raw self) = Some w /\
    returned_value (get_asset_portfolio self) = Some (Some pf) /\
    columns ret = ["A"%string] /\
    columns w = ["A"%string; "B"%string] /\
    loc ret d2 "A"%string = num 1 /\
    loc w d2 "A"%string = num 1 /\
    nth_error (s_index pf) 1 = Some d2 /\
    s_values pf 1 = NaN.
Proof.
  eexists. eexists. eexists. eexists.
  repeat (split; [reflexivity |]). reflexivity.
Qed.

Lemma mismatched_asset_forces_undefined_witness :
  exists agg,
    get_a_portfolio (weighted weights_frame_AB) (Some returns_only_A)
    = Ok (Some agg) /\
    forall i, s_values agg i = NaN.
Proof.
  apply (@mismatched_asset_forces_undefined exact_arith
           (weighted weights_frame_AB) returns_only_A weights_frame_AB
           "B"%string).
  - reflexivity.
  - right. split.
    + simpl. right. left. reflexivity.
    + simpl. intros [H | H]; [discriminate H | exact H].
Defined.

Lemma unresolved_currency_is_one_witness :
  get_currency_raw no_tables = None /\
  exists t,
    get_currency_raw resolver_state = Some t /\
    index t = index usd_frame /\
    columns t = map fst currencies_AB /\
    (forall j, (j < List.length (columns t))%nat ->
       isna_all (merged_frame usd_frame currencies_AB) j = true ->
       forall i, (i < List.length (index t))%nat -> values t i j = Some f1) /\
    (forall j asset code,
       nth_error currencies_AB j = Some (asset, code) ->
       ~ In code (columns usd_frame) ->
       isna_all (merged_frame usd_frame currencies_AB) j = true).
Proof.
  split.
  - apply (proj1 (@unresolved_currency_is_one exact_arith no_tables)).
    left. reflexivity.
  - apply (proj2 (@unresolved_currency_is_one exact_arith resolver_state)
             currencies_AB usd_frame); reflexivity.
Defined.

(** * Further properties of the code *)

Section Further.

Context {AR : Arith} {PD : Pandas}.

#[local] Arguments get_an_attitude : simpl never.

(** ** The date normaliser *)

Lemma strip_non_digits_idempotent (s : string) :
  strip_non_digits (strip_non_digits s) = strip_non_digits s.
Proof.
  induction s as [|c s IH]; [reflexivity |].
  cbn [strip_non_digits]. destruct (isdigit c) eqn:E.
  - cbn [strip_non_digits]. rewrite E, IH. reflexivity.
  - assumption.
Qed.

Lemma py_str_opp (n : Z) :
  strip_non_digits (py_str (ArgInt (- n))) = strip_non_digits (py_str (ArgInt n)).
Proof. destruct n as [|p|p]; reflexivity. Qed.

(** The normaliser and [date_checker] look at the digits of an argument
    only: a string normalises like the string of its digits, an int like
    its opposite (the sign that [str] writes is removed with the
    separators), and two pairs of arguments that normalise alike make
    the decorated method do the same, whatever their form. *)
Theorem only_the_digits_matter :
  (forall s,
      try_convert_date_time (ArgStr s)
      = try_convert_date_time (ArgStr (strip_non_digits s))) /\
  (forall n,
      try_convert_date_time (ArgInt (- n)) = try_convert_date_time (ArgInt n)) /\
  (forall (func : DateArg -> DateArg -> Method (option Series))
          self a a' b b',
      try_convert_date_time a = try_convert_date_time a' ->
      try_convert_date_time b = try_convert_date_time b' ->
      date_checker func (Positional a b) self
      = date_checker func (Positional a' b') self).
Proof.
  split; [| split].
  - intros s. cbn [try_convert_date_time py_str].
    rewrite strip_non_digits_idempotent. reflexivity.
  - intros n. unfold try_convert_date_time. rewrite py_str_opp. reflexivity.
  - intros func self a a' b b' Ha Hb. unfold date_checker, convert.
    rewrite Ha, Hb. reflexivity.
Qed.


(** ** The caches *)

Lemma extends_refl (self : FormalData) : extends self self.
Proof. unfold extends. repeat split; auto. Qed.

Lemma generate_asset_extends (self : FormalData) :
  extends self (state_of (generate_asset self)).
Proof.
  destruct self as [raw a c r t].
  unfold generate_asset, bind, read, lift, assign, ret, extends.
  destruct a; cbn; [repeat split; auto |].
  destruct (get_an_attitude (prices raw)); cbn; repeat split; auto; discriminate.
Qed.

Lemma generate_currency_extends (self : FormalData) :
  extends self (state_of (generate_currency self)).
Proof.
  destruct self as [raw a c r t].
  unfold generate_currency, bind, read, lift, assign, ret, extends.
  destruct r; destruct c; cbn;
    repeat match goal with
           | |- context [match get_an_attitude ?x with _ => _ end] =>
               destruct (get_an_attitude x); cbn
           end;
    repeat split; auto; discriminate.
Qed.

Lemma generate_total_extends (self : FormalData) :
  extends self (state_of (generate_total self)).
Proof.
  destruct self as [raw a c r t].
  unfold generate_total, get_total_raw, bind, read, lift, assign, ret, extends.
  destruct t; cbn; [repeat split; auto |].
  destruct (prices raw); cbn;
    [destruct r; cbn;
     [| destruct (get_currency_raw (mkFD raw a c None None)); cbn] |];
    repeat match goal with
           | |- context [match get_an_attitude ?x with _ => _ end] =>
               destruct (get_an_attitude x); cbn
           end;
    repeat split; auto; discriminate.
Qed.

Lemma generate_asset_idempotent (self : FormalData) :
  state_of (generate_asset (state_of (generate_asset self)))
  = state_of (generate_asset self).
Proof.
  destruct self as [raw a c r t].
  unfold generate_asset, bind, read, lift, assign, ret.
  destruct a; cbn; [reflexivity |].
  destruct (get_an_attitude (prices raw)) as [[v|] | e] eqn:E; cbn;
    rewrite ?E; reflexivity.
Qed.

Lemma generate_currency_idempotent (self : FormalData) :
  state_of (generate_currency (state_of (generate_currency self)))
  = state_of (generate_currency self).
Proof.
  destruct self as [raw a c r t].
  unfold generate_currency, get_currency_raw, bind, read, lift, assign, ret.
  cbn [df_raw df_asset df_currency df_currency_raw df_total].
  destruct r as [r|]; destruct c as [c|]; crunch.
Qed.

Lemma generate_total_idempotent (self : FormalData) :
  state_of (generate_total (state_of (generate_total self)))
  = state_of (generate_total self).
Proof.
  destruct self as [raw a c r t].
  unfold generate_total, get_total_raw, get_currency_raw, bind, read, lift,
    assign, ret.
  cbn [df_raw df_asset df_currency df_currency_raw df_total].
  destruct t as [t|]; destruct r as [r|]; crunch.
Qed.

(** Whatever the state of the object and the arguments, a query leaves
    the raw tables as they are and never empties or replaces a cache
    that is filled, whether it returns or raises. *)
Theorem queries_keep_tables_and_caches (self : FormalData) (call : Call) :
  extends self (state_of (calculate_asset_performance self call)) /\
  extends self (state_of (calculate_currency_performance self call)) /\
  extends self (state_of (calculate_total_performance self call)).
Proof.
  split; [| split].
  - destruct (asset_state self call) as [-> | ->];
      [apply extends_refl | apply generate_asset_extends].
  - destruct (currency_state self call) as [-> | ->];
      [apply extends_refl | apply generate_currency_extends].
  - destruct (total_state self call) as [-> | ->];
      [apply extends_refl | apply generate_total_extends].
Qed.

Lemma state_after_positional (generate : Method unit)
    (cache : FormalData -> option DataFrame) (name : string)
    (a b : DateArg) (s e : Datetime) (self : FormalData) :
  try_convert_date_time a = Some s -> try_convert_date_time b = Some e ->
  state_of
    (date_checker
       (fun s e =>
          bind (bind generate
                  (fun _ => bind (read (fun self => self))
                              (fun self => lift (get_a_portfolio self (cache self)))))
               (fun df => lift (portfolio_performance df s e name)))
       (Positional a b) self)
  = state_of (generate self).
Proof.
  intros Ha Hb. rewrite (date_checker_positional _ a b s e self Ha Hb).
  rewrite bind_state.
  - rewrite bind_state; [reflexivity |].
    intros [] st. rewrite bind_state; [reflexivity |].
    intros st' st''. apply state_of_outcome.
  - intros df st. apply state_of_outcome.
Qed.

(** After a query with dates that normalise, the same query, with any
    arguments, does not change the object any more: what the first call
    has computed is computed once. *)
Theorem second_query_changes_nothing (self : FormalData)
    (a b : DateArg) (s e : Date) (call : Call) :
  try_convert_date_time a = Some (Stamp s) ->
  try_convert_date_time b = Some (Stamp e) ->
  state_of (calculate_asset_performance
              (state_of (calculate_asset_performance self (Positional a b)))
              call)
  = state_of (calculate_asset_performance self (Positional a b)) /\
  state_of (calculate_currency_performance
              (state_of (calculate_currency_performance self (Positional a b)))
              call)
  = state_of (calculate_currency_performance self (Positional a b)) /\
  state_of (calculate_total_performance
              (state_of (calculate_total_performance self (Positional a b)))
              call)
  = state_of (calculate_total_performance self (Positional a b)).
Proof.
  intros Ha Hb.
  assert (Sa : state_of (calculate_asset_performance self (Positional a b))
               = state_of (generate_asset self)).
  { apply (state_after_positional generate_asset df_asset "Pt" a b (Stamp s) (Stamp e));
      assumption. }
  assert (Sc : state_of (calculate_currency_performance self (Positional a b))
               = state_of (generate_currency self)).
  { apply (state_after_positional generate_currency df_currency "CPt" a b (Stamp s) (Stamp e));
      assumption. }
  assert (St : state_of (calculate_total_performance self (Positional a b))
               = state_of (generate_total self)).
  { apply (state_after_positional generate_total df_total "TPt" a b (Stamp s) (Stamp e));
      assumption. }
  rewrite Sa, Sc, St. split; [| split].
  - destruct (asset_state (state_of (generate_asset self)) call) as [-> | ->];
      [reflexivity | apply generate_asset_idempotent].
  - destruct (currency_state (state_of (generate_currency self)) call)
      as [-> | ->]; [reflexivity | apply generate_currency_idempotent].
  - destruct (total_state (state_of (generate_total self)) call) as [-> | ->];
      [reflexivity | apply generate_total_idempotent].
Qed.

Lemma answer_from_raw (self self' : FormalData)
    (engine : Result (option DataFrame)) (s e : DateArg) (name : string) :
  df_raw self' = df_raw self ->
  answer_from self' engine s e name = answer_from self engine s e name.
Proof.
  intros R. unfold answer_from, portfolio_from.
  destruct engine as [t | x]; [| reflexivity].
  rewrite (get_a_portfolio_raw self self' t R). reflexivity.
Qed.

(** On the instances built from the same files, what a query returns or
    raises depends on the files and on the two dates only, not on the
    queries made before. *)
Theorem answers_do_not_depend_on_history (files : Files)
    (self1 self2 : FormalData) (a b : DateArg) (s e : Date) :
  reachable files self1 -> reachable files self2 ->
  try_convert_date_time a = Some (Stamp s) ->
  try_convert_date_time b = Some (Stamp e) ->
  result_of (calculate_asset_performance self1 (Positional a b))
  = result_of (calculate_asset_performance self2 (Positional a b)) /\
  result_of (calculate_currency_performance self1 (Positional a b))
  = result_of (calculate_currency_performance self2 (Positional a b)) /\
  result_of (calculate_total_performance self1 (Positional a b))
  = result_of (calculate_total_performance self2 (Positional a b)).
Proof.
  intros H1 H2 Ha Hb.
  destruct (reachable_consistent _ _ H1) as [C1 [s0 [I1 R1]]].
  destruct (reachable_consistent _ _ H2) as [C2 [s0' [I2 R2]]].
  rewrite I1 in I2. inversion I2. subst s0'.
  assert (R : df_raw self2 = df_raw self1) by congruence.
  rewrite (calculate_asset_spec self1 a b s e C1 Ha Hb).
  rewrite (calculate_asset_spec self2 a b s e C2 Ha Hb).
  rewrite (calculate_currency_spec self1 a b s e C1 Ha Hb).
  rewrite (calculate_currency_spec self2 a b s e C2 Ha Hb).
  rewrite (calculate_total_spec self1 a b s e C1 Ha Hb).
  rewrite (calculate_total_spec self2 a b s e C2 Ha Hb).
  rewrite !result_of_outcome, R.
  rewrite !(answer_from_raw self1 self2 _ _ _ _ R). repeat split.
Qed.


(** ** The forward fill *)

Lemma ffill_defined (v : nat -> cell) (t : nat) (x : F) :
  v t = Some x -> ffill v t = Some x.
Proof. intros H. destruct t; cbn [ffill]; rewrite H; reflexivity. Qed.

Lemma ffill_leading (v : nat -> cell) (t : nat) :
  (forall k, (k <= t)%nat -> v k = NaN) -> ffill v t = NaN.
Proof.
  induction t as [|t IH]; intros H; cbn [ffill].
  - apply H. lia.
  - rewrite (H (S t)) by lia. apply IH. intros k Hk. apply H. lia.
Qed.

Lemma ffill_carries (v : nat -> cell) (t k : nat) (x : F) :
  (k <= t)%nat -> v k = Some x ->
  (forall m, (k < m <= t)%nat -> v m = NaN) -> ffill v t = Some x.
Proof.
  induction t as [|t IH]; intros Hk Hx Hgap.
  - assert (k = 0)%nat by lia. subst. apply ffill_defined. assumption.
  - destruct (Nat.eq_dec k (S t)) as [-> | Hne].
    + apply ffill_defined. assumption.
    + cbn [ffill]. rewrite (Hgap (S t)) by lia.
      apply IH; [lia | assumption |]. intros m Hm. apply Hgap. lia.
Qed.

Lemma ffill_idempotent (v : nat -> cell) (t : nat) :
  ffill (ffill v) t = ffill v t.
Proof.
  induction t as [|t IH]; [reflexivity |].
  cbn [ffill]. destruct (v (S t)) as [x|]; [reflexivity |].
  destruct (ffill v t) as [y|] eqn:E; [reflexivity |].
  exact IH.
Qed.

Lemma ffill_nan_leading (v : nat -> cell) (t : nat) :
  ffill v t = NaN -> forall k, (k <= t)%nat -> v k = NaN.
Proof.
  induction t as [|t IH]; cbn [ffill]; intros H k Hk.
  - assert (k = 0)%nat by lia. subst. assumption.
  - destruct (v (S t)) as [x|] eqn:E; [discriminate |].
    destruct (Nat.eq_dec k (S t)) as [-> | Hne]; [assumption |].
    apply IH; [assumption | lia].
Qed.

(** [_normalize_a_frame] keeps the labels and every number of the table;
    a NaN cell takes the last number above it in its column; the cells
    above the first number of a column stay NaN. *)
Theorem forward_fill_keeps_and_carries (df : DataFrame) (i j : nat) :
  index (normalize_a_frame df) = index df /\
  columns (normalize_a_frame df) = columns df /\
  (forall x, values df i j = Some x ->
             values (normalize_a_frame df) i j = Some x) /\
  ((forall k, (k <= i)%nat -> values df k j = NaN) ->
   values (normalize_a_frame df) i j = NaN) /\
  (forall k x, (k <= i)%nat -> values df k j = Some x ->
     (forall m, (k < m <= i)%nat -> values df m j = NaN) ->
     values (normalize_a_frame df) i j = Some x).
Proof.
  cbn [normalize_a_frame index columns values].
  split; [reflexivity |]. split; [reflexivity |]. split; [| split].
  - intros x H. apply ffill_defined. assumption.
  - intros H. apply ffill_leading. assumption.
  - intros k x Hk Hx Hgap. apply (ffill_carries _ i k x); assumption.
Qed.

(** After [_normalize_a_frame] a column has no gap: below a number every
    cell is a number, a NaN cell has only NaN above it in the table
    that was filled, and filling a second time changes nothing. *)
Theorem forward_fill_leaves_no_gap (df : DataFrame) (i j : nat) :
  (forall x, values (normalize_a_frame df) i j = Some x ->
             exists y, values (normalize_a_frame df) (S i) j = Some y) /\
  (values (normalize_a_frame df) i j = NaN ->
   forall k, (k <= i)%nat -> values df k j = NaN) /\
  values (normalize_a_frame (normalize_a_frame df)) i j
  = values (normalize_a_frame df) i j.
Proof.
  cbn [normalize_a_frame index columns values]. split; [| split].
  - intros x H. cbn [ffill]. destruct (values df (S i) j) as [y|].
    + exists y. reflexivity.
    + exists x. assumption.
  - intros H k Hk. apply (ffill_nan_leading _ i H k Hk).
  - apply (ffill_idempotent (fun t => values df t j)).
Qed.

(** ** The common range of dates *)

Lemma nth_error_date_range (lo hi : Date) (i : nat) (d : Date) :
  nth_error (date_range lo hi) i = Some d -> d = lo + Z.of_nat i.
Proof.
  unfold date_range. intros H.
  rewrite nth_error_map in H.
  destruct (nth_error (seq 0 (Z.to_nat (hi - lo + 1))) i) as [k|] eqn:E;
    [| discriminate].
  cbn [option_map] in H. inversion H.
  assert (Hi : (i < List.length (seq 0 (Z.to_nat (hi - lo + 1))))%nat).
  { apply nth_error_Some. rewrite E. discriminate. }
  rewrite length_seq in Hi.
  rewrite (nth_error_nth' _ 0%nat) in E by (rewrite length_seq; assumption).
  rewrite seq_nth in E by assumption. inversion E. reflexivity.
Qed.

Lemma In_date_range (lo hi d : Date) :
  In d (date_range lo hi) <-> lo <= d <= hi.
Proof.
  unfold date_range. rewrite in_map_iff. split.
  - intros [k [<- Hk]]. apply in_seq in Hk. lia.
  - intros H. exists (Z.to_nat (d - lo)). split; [lia |]. apply in_seq. lia.
Qed.

Lemma fold_min_spec (ds : list Z) (d : Z) :
  In (fold_left Z.min ds d) (d :: ds) /\
  forall x, In x (d :: ds) -> fold_left Z.min ds d <= x.
Proof.
  revert d. induction ds as [|y ds IH]; intros d.
  - cbn. split; [auto |]. intros x [<- | []]. lia.
  - cbn [fold_left]. destruct (IH (Z.min d y)) as [Hin Hle]. split.
    + destruct Hin as [E | Hin].
      * rewrite <- E. destruct (Z.min_spec d y) as [[_ ->] | [_ ->]];
          [left | right; left]; reflexivity.
      * right. right. assumption.
    + intros x [<- | [<- | Hx]].
      * specialize (Hle (Z.min d y) (or_introl eq_refl)). lia.
      * specialize (Hle (Z.min d y) (or_introl eq_refl)). lia.
      * apply Hle. right. assumption.
Qed.

Lemma fold_max_spec (ds : list Z) (d : Z) :
  In (fold_left Z.max ds d) (d :: ds) /\
  forall x, In x (d :: ds) -> x <= fold_left Z.max ds d.
Proof.
  revert d. induction ds as [|y ds IH]; intros d.
  - cbn. split; [auto |]. intros x [<- | []]. lia.
  - cbn [fold_left]. destruct (IH (Z.max d y)) as [Hin Hle]. split.
    + destruct Hin as [E | Hin].
      * rewrite <- E. destruct (Z.max_spec d y) as [[_ ->] | [_ ->]];
          [right; left | left]; reflexivity.
      * right. right. assumption.
    + intros x [<- | [<- | Hx]].
      * specialize (Hle (Z.max d y) (or_introl eq_refl)). lia.
      * specialize (Hle (Z.max d y) (or_introl eq_refl)). lia.
      * apply Hle. right. assumption.
Qed.

Lemma good_frames_In (files : Files) (idx : list Date) :
  In idx (good_frames files) <->
  exists k t, In (k, t) (date_tables files) /\
              to_datetime_index (raw_index t) = Some idx.
Proof.
  unfold good_frames. rewrite in_flat_map. split.
  - intros [[k t] [Hin Hidx]]. cbn [snd] in Hidx.
    destruct (to_datetime_index (raw_index t)) as [idx'|] eqn:E.
    + destruct Hidx as [<- | []]. exists k, t. auto.
    + destruct Hidx.
  - intros [k [t [Hin E]]]. exists (k, t). split; [assumption |].
    cbn [snd]. rewrite E. left. reflexivity.
Qed.

Lemma bad_frames_In (files : Files) (k : Key) :
  In k (bad_frames files) <->
  exists t, In (k, t) (date_tables files) /\
            to_datetime_index (raw_index t) = None.
Proof.
  unfold bad_frames. rewrite in_flat_map. split.
  - intros [[k' t] [Hin Hk]]. cbn [fst snd] in Hk.
    destruct (to_datetime_index (raw_index t)) eqn:E.
    + destruct Hk.
    + destruct Hk as [<- | []]. exists t. auto.
  - intros [t [Hin E]]. exists (k, t). split; [assumption |].
    cbn [fst snd]. rewrite E. left. reflexivity.
Qed.

(** [_get_full_range_for_dates]: the common index is the run of all days
    from the earliest to the latest date found in the tables whose index
    parses; it holds every date of these tables, and the bad keys are
    the tables whose index does not parse. *)
Theorem full_range_spans_usable_dates (files : Files) (g : list Date)
    (bad : list Key) :
  get_full_range_for_dates files = Some (Some g, bad) ->
  (forall k t idx d,
      In (k, t) (date_tables files) ->
      to_datetime_index (raw_index t) = Some idx -> In d idx -> In d g) /\
  (exists lo hi,
      g = date_range lo hi /\
      In lo (List.concat (good_frames files)) /\
      In hi (List.concat (good_frames files)) /\
      forall d, In d g <-> lo <= d <= hi) /\
  (forall k, In k bad <->
             exists t, In (k, t) (date_tables files) /\
                       to_datetime_index (raw_index t) = None).
Proof.
  unfold get_full_range_for_dates.
  destruct (good_frames files) as [|f fs] eqn:Eg; [discriminate |].
  destruct (List.concat (f :: fs)) as [|d0 ds] eqn:Ec; [discriminate |].
  intros E. inversion E. subst g bad. clear E.
  destruct (fold_min_spec ds d0) as [Hmin_in Hmin].
  destruct (fold_max_spec ds d0) as [Hmax_in Hmax].
  split; [| split].
  - intros k t idx d Hin Hidx Hd. apply In_date_range.
    assert (Hc : In d (d0 :: ds)).
    { rewrite <- Ec. apply in_concat. exists idx. split; [| assumption].
      rewrite <- Eg. apply good_frames_In. exists k, t. auto. }
    split; [apply Hmin | apply Hmax]; assumption.
  - exists (fold_left Z.min ds d0), (fold_left Z.max ds d0).
    split; [reflexivity |]. split; [assumption |]. split; [assumption |].
    intros d. apply In_date_range.
  - intros k. apply bad_frames_In.
Qed.


(** ** The constructor *)

Lemma full_range_covers (files : Files) (general : option (list Date))
    (bad : list Key) :
  get_full_range_for_dates files = Some (general, bad) ->
  forall g, general = Some g ->
    exists lo hi,
      g = date_range lo hi /\
      forall k t idx d,
        In (k, t) (date_tables files) ->
        to_datetime_index (raw_index t) = Some idx -> In d idx -> In d g.
Proof.
  unfold get_full_range_for_dates.
  destruct (good_frames files) as [|f fs] eqn:Eg.
  - intros E g ->. discriminate E.
  - destruct (List.concat (f :: fs)) as [|d0 ds] eqn:Ec; [discriminate |].
    intros E g ->. inversion E as [[Hg Hb]]. clear E Hb.
    exists (fold_left Z.min ds d0), (fold_left Z.max ds d0).
    split; [reflexivity |].
    intros k t idx d Hin Hidx Hd. apply In_date_range.
    assert (Hc : In d (d0 :: ds)).
    { rewrite <- Ec. apply in_concat. exists idx. split; [| assumption].
      rewrite <- Eg. apply good_frames_In. exists k, t. auto. }
    split; [apply (proj2 (fold_min_spec ds d0))
           | apply (proj2 (fold_max_spec ds d0))]; assumption.
Qed.

Lemma date_tables_In (files : Files) (t : RawTable) :
  (file_exchanges files = Some t -> In (key_exchanges, t) (date_tables files)) /\
  (file_prices files = Some t -> In (key_prices, t) (date_tables files)) /\
  (file_weights files = Some t -> In (key_weights, t) (date_tables files)).
Proof.
  unfold date_tables. repeat split; intros H; apply in_flat_map.
  - exists (key_exchanges, file_exchanges files). split; [cbn; auto |].
    cbn [fst snd]. rewrite H. left. reflexivity.
  - exists (key_prices, file_prices files). split; [cbn; auto |].
    cbn [fst snd]. rewrite H. left. reflexivity.
  - exists (key_weights, file_weights files). split; [cbn; auto |].
    cbn [fst snd]. rewrite H. left. reflexivity.
Qed.

Lemma reindex_or_drop_keeps (general : option (list Date)) (bad : list Key)
    (key : Key) (file : option RawTable) (r : option DataFrame) :
  existsb (key_eqb key) bad = is_present file && negb (is_usable file) ->
  (forall g, general = Some g ->
     exists lo hi,
       g = date_range lo hi /\
       forall t idx d,
         file = Some t -> to_datetime_index (raw_index t) = Some idx ->
         In d idx -> In d g) ->
  reindex_or_drop general bad key file = Some r ->
  keeps_observations file r.
Proof.
  intros Hbad Hcov Hr t idx p d j x Ht Hidx Hp Hx. subst file.
  unfold reindex_or_drop in Hr. rewrite Hbad in Hr.
  cbn [is_present is_usable] in Hr. rewrite Hidx in Hr. cbn [negb andb] in Hr.
  destruct general as [g|]; [| discriminate].
  destruct (is_unique Z.eqb idx || list_eqb Z.eqb idx g) eqn:Eu; [| discriminate].
  inversion Hr. subst r. clear Hr.
  destruct (Hcov g eq_refl) as (lo & hi & -> & Hcover).
  assert (Hd : In d (date_range lo hi)).
  { apply (Hcover t idx d eq_refl Hidx). eapply nth_error_In. eassumption. }
  apply In_nth_error in Hd. destruct Hd as [i Hi].
  eexists. exists i. split; [reflexivity |].
  cbn [normalize_a_frame reindex index columns values].
  split; [reflexivity |]. split; [assumption |].
  apply ffill_defined.
  destruct (is_unique Z.eqb idx) eqn:Eq.
  - rewrite (indexer_unique _ _ Zeqb_spec idx (date_range lo hi) i d Eq Hi).
    rewrite (get_loc_unique _ _ Zeqb_spec idx p d Eq Hp). assumption.
  - cbn [orb] in Eu. apply (list_eqb_eq _ _ Zeqb_spec) in Eu. subst idx.
    rewrite (indexer_same _ _ Zeqb_spec).
    apply nth_error_date_range in Hp. apply nth_error_date_range in Hi.
    assert (p = i) by lia. subst. assumption.
Qed.

(** The constructor loses no observation: every number of a date table
    of the files is a cell of the stored table, in the same column and
    at the row of the same date. *)
Theorem construction_keeps_observations (files : Files) (self : FormalData) :
  init files = Some self ->
  keeps_observations (file_exchanges files) (exchanges (df_raw self)) /\
  keeps_observations (file_prices files) (prices (df_raw self)) /\
  keeps_observations (file_weights files) (weights (df_raw self)).
Proof.
  unfold init. intros Hinit.
  destruct (get_full_range_for_dates files) as [[general bad]|] eqn:Eg;
    [| discriminate].
  pose proof (full_range_bad _ _ _ Eg) as Hb. subst bad.
  pose proof (full_range_covers _ _ _ Eg) as Hcov.
  destruct (bad_frames_spec files) as (Be & Bp & Bw).
  destruct (reindex_or_drop general (bad_frames files) key_exchanges
              (file_exchanges files)) as [e|] eqn:Ee; [| discriminate].
  destruct (reindex_or_drop general (bad_frames files) key_prices
              (file_prices files)) as [p|] eqn:Ep; [| discriminate].
  destruct (reindex_or_drop general (bad_frames files) key_weights
              (file_weights files)) as [w|] eqn:Ew; [| discriminate].
  inversion Hinit. subst self. cbn [df_raw exchanges prices weights].
  split; [| split].
  - apply (reindex_or_drop_keeps general _ _ _ _ Be); [| assumption].
    intros g Hg. destruct (Hcov g Hg) as (lo & hi & -> & Hc).
    exists lo, hi. split; [reflexivity |]. intros t idx d Ht.
    apply (Hc key_exchanges t idx d).
    apply (proj1 (date_tables_In files t)). assumption.
  - apply (reindex_or_drop_keeps general _ _ _ _ Bp); [| assumption].
    intros g Hg. destruct (Hcov g Hg) as (lo & hi & -> & Hc).
    exists lo, hi. split; [reflexivity |]. intros t idx d Ht.
    apply (Hc key_prices t idx d).
    apply (proj1 (proj2 (date_tables_In files t))). assumption.
  - apply (reindex_or_drop_keeps general _ _ _ _ Bw); [| assumption].
    intros g Hg. destruct (Hcov g Hg) as (lo & hi & -> & Hc).
    exists lo, hi. split; [reflexivity |]. intros t idx d Ht.
    apply (Hc key_weights t idx d).
    apply (proj2 (proj2 (date_tables_In files t))). assumption.
Qed.

Lemma init_without_usable_table (files : Files) :
  is_usable (file_exchanges files) = false ->
  is_usable (file_prices files) = false ->
  is_usable (file_weights files) = false ->
  init files
  = Some (mkFD (mkRaw (file_currencies files) None None None)
               None None None None).
Proof.
  unfold init, get_full_range_for_dates, good_frames, bad_frames, date_tables,
    reindex_or_drop, is_usable.
  destruct (file_exchanges files) as [e|]; destruct (file_prices files) as [p|];
    destruct (file_weights files) as [w|]; cbn [flat_map app fst snd];
    repeat match goal with
           | |- context [to_datetime_index ?i] =>
               destruct (to_datetime_index i); cbn [flat_map app fst snd]
           end;
    intros He Hp Hw; try discriminate; reflexivity.
Qed.

(** When no date table of the files is usable (a directory without the
    files, say) the constructor builds an object all the same, and each
    query with dates that normalise returns None on it. *)
Theorem no_usable_table_gives_none (files : Files) (self : FormalData)
    (a b : DateArg) (s e : Date) :
  is_usable (file_exchanges files) = false ->
  is_usable (file_prices files) = false ->
  is_usable (file_weights files) = false ->
  init files
  = Some (mkFD (mkRaw (file_currencies files) None None None)
               None None None None) /\
  (reachable files self ->
   try_convert_date_time a = Some (Stamp s) ->
   try_convert_date_time b = Some (Stamp e) ->
   calculate_asset_performance self (Positional a b)
   = Returned None (state_of (generate_asset self)) /\
   calculate_currency_performance self (Positional a b)
   = Returned None (state_of (generate_currency self)) /\
   calculate_total_performance self (Positional a b)
   = Returned None (state_of (generate_total self))).
Proof.
  intros He Hp Hw. split; [apply init_without_usable_table; assumption |].
  intros Hreach Ha Hb.
  destruct (reachable_spec _ _ Hreach)
    as (Hcons & Hcur & lo & hi & Le & Lp & Lw).
  unfold loaded_as in Le, Lp, Lw. rewrite He in Le. rewrite Hp in Lp.
  rewrite Hw in Lw.
  rewrite (calculate_asset_spec self a b s e Hcons Ha Hb).
  rewrite (calculate_currency_spec self a b s e Hcons Ha Hb).
  rewrite (calculate_total_spec self a b s e Hcons Ha Hb).
  unfold total_raw, resolved_currency. rewrite Le, Lp.
  destruct (currencies (df_raw self)); repeat split.
Qed.

(** A date table whose index does not parse is the same to the
    constructor as a table that is absent: it builds the same object,
    or fails in the same way. *)
Theorem corrupted_table_is_absent (c : option CurrencyTable)
    (e p w : option RawTable) (t : RawTable) :
  to_datetime_index (raw_index t) = None ->
  init (mkFiles c (Some t) p w) = init (mkFiles c None p w) /\
  init (mkFiles c e (Some t) w) = init (mkFiles c e None w) /\
  init (mkFiles c e p (Some t)) = init (mkFiles c e p None).
Proof.
  intros Ht.
  unfold init, get_full_range_for_dates, good_frames, bad_frames, date_tables,
    reindex_or_drop.
  cbn [file_currencies file_exchanges file_prices file_weights].
  repeat split;
    destruct e as [e|]; destruct p as [p|]; destruct w as [w|];
    cbn [flat_map app fst snd]; rewrite ?Ht; cbn [flat_map app fst snd];
    repeat match goal with
           | |- context [to_datetime_index (raw_index ?i)] =>
               destruct (to_datetime_index (raw_index i)) eqn:?;
               cbn [flat_map app fst snd]
           end;
    cbn [existsb key_eqb orb negb andb]; rewrite ?Ht;
    try reflexivity;
    repeat match goal with
           | |- context [match List.concat ?l with _ => _ end] =>
               destruct (List.concat l); cbn [existsb key_eqb orb]
           end;
    rewrite ?Ht; try reflexivity.
Qed.


(** ** The window of a query *)

Lemma returned_series (o : Outcome FormalData (option Series))
    (g : list Date) (s e : Date) (name : string) (ready : bool)
    (engine : Result (option DataFrame)) (pf : option (option Series))
    (r : Series) :
  query_answers g s e name ready engine pf o ->
  returned_value o = Some (Some r) ->
  exists p,
    pf = Some (Some p) /\ s_index p = g /\
    s_index r = filter (in_window s e) g /\
    s_name r = Some name /\
    forall k, s_values r k =
              running_performance (s_values p) (searchsorted_left g s + k)%nat.
Proof.
  unfold query_answers. intros Q Hr.
  assert (Hres : result_of o = Ok (Some r)).
  { destruct o; [discriminate | inversion Hr; reflexivity]. }
  rewrite Hres in Q. destruct engine as [tbl | x]; [| discriminate].
  destruct ready.
  - destruct Q as (p & r0 & Hp & Hi & Hr0 & Hri & Hrn & Hrv).
    inversion Hr0. subst r0.
    exists p. repeat split; assumption.
  - discriminate.
Qed.

Lemma in_window_spec (s e d : Date) :
  in_window s e d = true <-> s <= d <= e.
Proof.
  unfold in_window. rewrite andb_true_iff, !Z.leb_le. tauto.
Qed.

(** What a query returns when it returns a series: the series carries
    the name of the query (Pt, CPt, TPt) and holds exactly the dates of
    the portfolio return series between the start date and the end
    date, both included. *)
Theorem window_is_closed_interval (files : Files) (self : FormalData)
    (a b : DateArg) (s e : Date) :
  reachable files self ->
  try_convert_date_time a = Some (Stamp s) ->
  try_convert_date_time b = Some (Stamp e) ->
  (forall r,
      returned_value (calculate_asset_performance self (Positional a b))
      = Some (Some r) ->
      exists pf,
        returned_value (get_asset_portfolio self) = Some (Some pf) /\
        s_name r = Some "Pt"%string /\
        forall d, In d (s_index r) <-> In d (s_index pf) /\ s <= d <= e) /\
  (forall r,
      returned_value (calculate_currency_performance self (Positional a b))
      = Some (Some r) ->
      exists pf,
        returned_value (get_currency_portfolio self) = Some (Some pf) /\
        s_name r = Some "CPt"%string /\
        forall d, In d (s_index r) <-> In d (s_index pf) /\ s <= d <= e) /\
  (forall r,
      returned_value (calculate_total_performance self (Positional a b))
      = Some (Some r) ->
      exists pf,
        returned_value (get_total_portfolio self) = Some (Some pf) /\
        s_name r = Some "TPt"%string /\
        forall d, In d (s_index r) <-> In d (s_index pf) /\ s <= d <= e).
Proof.
  intros Hreach Ha Hb.
  destruct (queries_spec files self a b s e Hreach Ha Hb)
    as (lo & hi & Qa & Qc & Qt).
  split; [| split]; intros r Hr.
  - destruct (returned_series _ _ _ _ _ _ _ _ r Qa Hr)
      as (pf & Hpf & Hi & Hri & Hrn & _).
    exists pf. split; [assumption |]. split; [assumption |].
    intros d. rewrite Hri, Hi, filter_In, in_window_spec. tauto.
  - destruct (returned_series _ _ _ _ _ _ _ _ r Qc Hr)
      as (pf & Hpf & Hi & Hri & Hrn & _).
    exists pf. split; [assumption |]. split; [assumption |].
    intros d. rewrite Hri, Hi, filter_In, in_window_spec. tauto.
  - destruct (returned_series _ _ _ _ _ _ _ _ r Qt Hr)
      as (pf & Hpf & Hi & Hri & Hrn & _).
    exists pf. split; [assumption |]. split; [assumption |].
    intros d. rewrite Hri, Hi, filter_In, in_window_spec. tauto.
Qed.

Lemma get_loc_In (d : Date) (l : list Date) :
  In d l -> exists k, get_loc Z.eqb d l = Some k /\ nth_error l k = Some d.
Proof.
  induction l as [|x l IH]; intros Hin; [destruct Hin |].
  cbn [get_loc]. destruct (Z.eqb d x) eqn:E.
  - apply Z.eqb_eq in E. subst. exists 0%nat. split; reflexivity.
  - destruct Hin as [-> | Hin]; [rewrite Z.eqb_refl in E; discriminate |].
    destruct (IH Hin) as [k [Hk Hn]]. exists (S k). rewrite Hk.
    split; [reflexivity | assumption].
Qed.

Lemma nth_error_firstn_Some {A} (n k : nat) (l : list A) (x : A) :
  nth_error (firstn n l) k = Some x -> nth_error l k = Some x.
Proof.
  revert k l. induction n as [|n IH]; intros k l H.
  - destruct k; discriminate.
  - destruct l as [|y l]; [destruct k; discriminate |].
    destruct k as [|k]; [assumption |]. cbn in *. apply IH. assumption.
Qed.

Lemma position_in_window (lo hi s e d : Date) (r : Series) :
  s_index r = filter (in_window s e) (date_range lo hi) ->
  In d (s_index r) ->
  exists k,
    get_loc Z.eqb d (s_index r) = Some k /\
    (searchsorted_left (date_range lo hi) s + k)%nat = Z.to_nat (d - lo).
Proof.
  intros Hi Hin. destruct (get_loc_In d _ Hin) as [k [Hk Hn]].
  exists k. split; [assumption |].
  rewrite Hi in Hn.
  rewrite <- (slice_is_window s e _ (date_range_monotonic lo hi)) in Hn.
  apply nth_error_firstn_Some in Hn. rewrite nth_error_skipn in Hn.
  apply nth_error_date_range in Hn. lia.
Qed.

Lemma answers_agree (lo hi s e s' e' d : Date) (name : string) (ready : bool)
    (engine : Result (option DataFrame)) (pf : option (option Series))
    (o o' : Outcome FormalData (option Series)) (r r' : Series) :
  query_answers (date_range lo hi) s e name ready engine pf o ->
  query_answers (date_range lo hi) s' e' name ready engine pf o' ->
  returned_value o = Some (Some r) -> returned_value o' = Some (Some r') ->
  In d (s_index r) -> In d (s_index r') ->
  exists v, at_date r d = Some v /\ at_date r' d = Some v.
Proof.
  intros Q Q' Hr Hr' Hd Hd'.
  destruct (returned_series _ _ _ _ _ _ _ _ r Q Hr)
    as (p & Hp & _ & Hri & _ & Hrv).
  destruct (returned_series _ _ _ _ _ _ _ _ r' Q' Hr')
    as (p' & Hp' & _ & Hri' & _ & Hrv').
  rewrite Hp in Hp'. inversion Hp'. subst p'.
  destruct (position_in_window lo hi s e d r Hri Hd) as [k [Hk Hpos]].
  destruct (position_in_window lo hi s' e' d r' Hri' Hd') as [k' [Hk' Hpos']].
  exists (running_performance (s_values p) (Z.to_nat (d - lo))).
  unfold at_date. rewrite Hk, Hk'. cbn [option_map].
  rewrite Hrv, Hrv', Hpos, Hpos'. split; reflexivity.
Qed.

(** The value of the performance at a date does not depend on the
    window of the query: two queries of the same kind on an instance
    whose results both hold a date give the same value at that date. *)
Theorem value_at_a_date_ignores_the_window (files : Files) (self : FormalData)
    (a b a' b' : DateArg) (s e s' e' d : Date) :
  reachable files self ->
  try_convert_date_time a = Some (Stamp s) ->
  try_convert_date_time b = Some (Stamp e) ->
  try_convert_date_time a' = Some (Stamp s') ->
  try_convert_date_time b' = Some (Stamp e') ->
  (forall r r',
      returned_value (calculate_asset_performance self (Positional a b))
      = Some (Some r) ->
      returned_value (calculate_asset_performance self (Positional a' b'))
      = Some (Some r') ->
      In d (s_index r) -> In d (s_index r') ->
      exists v, at_date r d = Some v /\ at_date r' d = Some v) /\
  (forall r r',
      returned_value (calculate_currency_performance self (Positional a b))
      = Some (Some r) ->
      returned_value (calculate_currency_performance self (Positional a' b'))
      = Some (Some r') ->
      In d (s_index r) -> In d (s_index r') ->
      exists v, at_date r d = Some v /\ at_date r' d = Some v) /\
  (forall r r',
      returned_value (calculate_total_performance self (Positional a b))
      = Some (Some r) ->
      returned_value (calculate_total_performance self (Positional a' b'))
      = Some (Some r') ->
      In d (s_index r) -> In d (s_index r') ->
      exists v, at_date r d = Some v /\ at_date r' d = Some v).
Proof.
  intros Hreach Ha Hb Ha' Hb'.
  destruct (reachable_spec _ _ Hreach)
    as (Hcons & Hcur & lo & hi & Le & Lp & Lw).
  destruct (loaded_as_on_index _ _ _ Le) as (Oe & Pe & _).
  destruct (loaded_as_on_index _ _ _ Lp) as (Op & Pp & _).
  destruct (loaded_as_on_index _ _ _ Lw) as (Ow & Pw & _).
  destruct (resolved_on_index _ _ Oe) as [Or Pr].
  destruct (total_on_index _ _ Op Oe) as [Ot Pt].
  rewrite (calculate_asset_spec self a b s e Hcons Ha Hb).
  rewrite (calculate_asset_spec self a' b' s' e' Hcons Ha' Hb').
  rewrite (calculate_currency_spec self a b s e Hcons Ha Hb).
  rewrite (calculate_currency_spec self a' b' s' e' Hcons Ha' Hb').
  rewrite (calculate_total_spec self a b s e Hcons Ha Hb).
  rewrite (calculate_total_spec self a' b' s' e' Hcons Ha' Hb').
  assert (Hany : forall engine tbl name st st' r r',
             on_index (date_range lo hi) tbl ->
             (forall t, engine = Ok t ->
                on_index (date_range lo hi) t /\
                is_present t && is_present (weights (df_raw self))
                = is_present tbl && is_present (weights (df_raw self))) ->
             returned_value
               (outcome (answer_from self engine (ArgTimestamp s)
                                     (ArgTimestamp e) name) st)
             = Some (Some r) ->
             returned_value
               (outcome (answer_from self engine (ArgTimestamp s')
                                     (ArgTimestamp e') name) st')
             = Some (Some r') ->
             In d (s_index r) -> In d (s_index r') ->
             exists v, at_date r d = Some v /\ at_date r' d = Some v).
  { intros engine tbl name st st' r r' _ Hengine Hr Hr' Hd Hd'.
    apply (answers_agree lo hi s e s' e' d name _ engine _ _ _ r r'
             (query_answers_intro lo hi self st engine s e name _ Hengine Ow)
             (query_answers_intro lo hi self st engine s' e' name _ Hengine Ow)
             Hr); try assumption.
    destruct (answer_from self engine (ArgTimestamp s') (ArgTimestamp e') name);
      cbn [outcome returned_value] in *; assumption. }
  split; [| split]; intros r r'.
  - apply (Hany _ (prices (df_raw self)) "Pt"%string _ _ r r' Op).
    intros t E. destruct (attitude_on_index _ _ _ Op E) as [Oa Pa].
    split; [assumption |]. rewrite Pa. reflexivity.
  - apply (Hany _ (resolved_currency (df_raw self)) "CPt"%string _ _ r r' Or).
    intros t E. destruct (attitude_on_index _ _ _ Or E) as [Oa Pa].
    split; [assumption |]. rewrite Pa. reflexivity.
  - apply (Hany _ (total_raw (df_raw self)) "TPt"%string _ _ r r' Ot).
    intros t E. destruct (attitude_on_index _ _ _ Ot E) as [Oa Pa].
    split; [assumption |]. rewrite Pa. reflexivity.
Qed.


(** ** The first date of a return series *)

(** The portfolio return of the first date is NaN: when the return
    engine returns the return table of a table with at least one column,
    and the weights are on the same dates, the aggregate of the returns
    has NaN at the first date, and so has the cumulative product the
    performance is cut from.  The engine returns for every numeric
    table. *)
Theorem first_return_is_undefined (self : FormalData) (X w Y : DataFrame) :
  weights (df_raw self) = Some w ->
  index w = index X ->
  columns X <> [] ->
  (dtype X = numeric -> exists R, get_an_attitude (Some X) = Ok (Some R)) /\
  (get_an_attitude (Some X) = Ok (Some Y) ->
   exists pf,
     get_a_portfolio self (Some Y) = Ok (Some pf) /\
     s_index pf = index X /\
     s_values pf 0 = NaN /\
     s_values (cumprod (add_scalar pf f1)) 0 = NaN).
Proof.
  intros Hw Hidx Hcols. split.
  { intros Hn. rewrite get_an_attitude_Some.
    destruct (attitude_numeric X Hn) as [R ->]. exists R. reflexivity. }
  intros HY. rewrite get_an_attitude_Some in HY.
  destruct (attitude X) as [Y' | x] eqn:EY; [| discriminate].
  inversion HY. subst Y'.
  destruct (attitude_returns X Y EY) as (Ai & Ac & _ & A0 & _).
  unfold get_a_portfolio, df_checker. rewrite Hw.
  eexists. split; [reflexivity |].
  assert (Hnan : strict_sum (row_list (df_mul Y w) 0) = NaN).
  { apply strict_sum_absorbs.
    set (cols := join_outer String.eqb String.leb (columns Y) (columns w)).
    destruct (columns X) as [|c cs] eqn:Ec; [contradiction Hcols; reflexivity |].
    assert (Hin : In c cols).
    { apply (In_join_outer _ _ Seqb_spec). left. rewrite Ac. left. reflexivity. }
    apply In_nth_error in Hin. destruct Hin as [j Hj].
    apply (row_has_nan _ 0 j).
    - unfold df_mul, df_binop. cbn [columns]. fold cols.
      apply nth_error_Some. rewrite Hj. discriminate.
    - unfold df_mul, df_binop. cbn [values]. fold cols.
      rewrite Ai, Hidx, (join_outer_same _ _ Zeqb_spec).
      unfold take2 at 1. rewrite Ai, (indexer_same _ _ Zeqb_spec).
      destruct (indexer String.eqb (columns Y) cols j);
        [rewrite A0 |]; reflexivity. }
  split; [| split].
  - cbn [sum_axis1 s_index]. apply df_mul_index; [assumption | congruence].
  - exact Hnan.
  - rewrite cumprod_running. unfold running_performance, growth.
    cbn [sum_axis1 s_values]. rewrite Hnan. reflexivity.
Qed.

(** ** The resolved currency table *)

Lemma positions_get_loc (x : Label) (l : list Label) (from q : nat) :
  is_unique String.eqb l = true ->
  get_loc String.eqb x l = Some q ->
  positions x l from = [(from + q)%nat].
Proof.
  revert from q. induction l as [|y l IH]; intros from q Hu Hq.
  - discriminate.
  - cbn [is_unique] in Hu. apply andb_true_iff in Hu. destruct Hu as [Hy Hu].
    cbn [get_loc positions] in *. destruct (String.eqb x y) eqn:E.
    + inversion Hq. subst q. rewrite Nat.add_0_r. f_equal.
      apply positions_notin. apply String.eqb_eq in E. subst. intros Hin.
      apply (existsb_eqb_In _ _ Seqb_spec) in Hin. rewrite Hin in Hy.
      discriminate.
    + destruct (get_loc String.eqb x l) as [q'|] eqn:Eq; [| discriminate].
      cbn [option_map] in Hq. inversion Hq. subst q.
      rewrite (IH (S from) q' Hu eq_refl). f_equal. lia.
Qed.

Lemma all_nan_columns_inv (df : DataFrame) (c : Label) :
  In c (all_nan_columns df) ->
  exists j, nth_error (columns df) j = Some c /\ isna_all df j = true.
Proof.
  unfold all_nan_columns. rewrite in_flat_map. intros [j [_ Hj]].
  destruct (isna_all df j) eqn:E; [| destruct Hj].
  destruct (nth_error (columns df) j) as [c'|] eqn:Ec; [| destruct Hj].
  destruct Hj as [<- | []]. exists j. auto.
Qed.

Lemma nth_error_unique (l : list Label) (j j' : nat) (c : Label) :
  is_unique String.eqb l = true ->
  nth_error l j = Some c -> nth_error l j' = Some c -> j = j'.
Proof.
  intros Hu Hj Hj'.
  pose proof (get_loc_unique _ _ Seqb_spec l j c Hu Hj) as E.
  pose proof (get_loc_unique _ _ Seqb_spec l j' c Hu Hj') as E'.
  congruence.
Qed.

(** The resolver projects the exchange rates: with distinct exchange
    columns and distinct asset identifiers, the column of an asset whose
    currency code names an exchange column that holds a number at some
    date is that exchange column, cell by cell. *)
Theorem resolved_column_is_exchange_column (self : FormalData)
    (cur : CurrencyTable) (ex : DataFrame) (j q i0 : nat)
    (asset code : Label) (x : F) :
  currencies (df_raw self) = Some cur ->
  exchanges (df_raw self) = Some ex ->
  is_unique String.eqb (columns ex) = true ->
  is_unique String.eqb (map fst cur) = true ->
  nth_error cur j = Some (asset, code) ->
  get_loc String.eqb code (columns ex) = Some q ->
  (i0 < List.length (index ex))%nat ->
  values ex i0 q = Some x ->
  exists t,
    get_currency_raw self = Some t /\
    nth_error (columns t) j = Some asset /\
    forall i, values t i j = values ex i q.
Proof.
  intros Hc He Hu Ha Hj Hq Hi0 Hx.
  unfold get_currency_raw. rewrite Hc, He.
  eexists. split; [reflexivity |].
  set (m := merged_frame ex cur).
  assert (Hcols : columns m = map fst cur).
  { unfold m. cbn [merged_frame columns]. rewrite (merge_right_unique ex cur Hu).
    rewrite map_map. reflexivity. }
  assert (Hcol : nth_error (columns m) j = Some asset).
  { rewrite Hcols, nth_error_map, Hj. reflexivity. }
  assert (Hval : forall i, values m i j = values ex i q).
  { intros i. unfold m. cbn [merged_frame values].
    rewrite (merge_right_unique ex cur Hu), nth_error_map, Hj.
    cbn [option_map fst snd].
    rewrite (positions_get_loc code (columns ex) 0 q Hu Hq). reflexivity. }
  assert (Hnot : existsb (String.eqb asset) (all_nan_columns m) = false).
  { destruct (existsb (String.eqb asset) (all_nan_columns m)) eqn:E;
      [| reflexivity].
    apply (existsb_eqb_In _ _ Seqb_spec) in E.
    apply all_nan_columns_inv in E. destruct E as [j' [Hj' Hall]].
    rewrite Hcols in Hcol, Hj'.
    rewrite (nth_error_unique _ _ _ _ Ha Hj' Hcol) in Hall.
    unfold isna_all in Hall. rewrite forallb_forall in Hall.
    assert (Hin : In i0 (seq 0 (List.length (index m)))).
    { apply in_seq. unfold m. cbn [merged_frame index]. lia. }
    specialize (Hall i0 Hin). rewrite Hval, Hx in Hall. discriminate. }
  split.
  - exact Hcol.
  - intros i. unfold resolve_currency. fold m.
    cbn [fillna_columns values]. rewrite Hcol, Hnot. cbn [andb]. apply Hval.
Qed.


(** ** More on the caches and the tables of an instance *)

(** A query fills the caches of its own pipeline only: the asset query
    leaves the three currency and total caches as they are, the currency
    query the asset and total caches, the total query the asset and
    currency return caches. *)
Theorem queries_fill_their_own_caches (self : FormalData) (call : Call) :
  (df_currency (state_of (calculate_asset_performance self call))
   = df_currency self /\
   df_currency_raw (state_of (calculate_asset_performance self call))
   = df_currency_raw self /\
   df_total (state_of (calculate_asset_performance self call))
   = df_total self) /\
  (df_asset (state_of (calculate_currency_performance self call))
   = df_asset self /\
   df_total (state_of (calculate_currency_performance self call))
   = df_total self) /\
  (df_asset (state_of (calculate_total_performance self call))
   = df_asset self /\
   df_currency (state_of (calculate_total_performance self call))
   = df_currency self).
Proof.
  split; [| split].
  - destruct (asset_state self call) as [-> | ->]; [repeat split |].
    destruct self as [raw x c r t].
    unfold generate_asset, bind, read, lift, assign, ret.
    destruct x; cbn; [repeat split |].
    destruct (get_an_attitude (prices raw)); repeat split.
  - destruct (currency_state self call) as [-> | ->]; [repeat split |].
    destruct self as [raw x c r t].
    unfold generate_currency, bind, read, lift, assign, ret.
    destruct r; destruct c; cbn;
      repeat match goal with
             | |- context [match get_an_attitude ?x with _ => _ end] =>
                 destruct (get_an_attitude x); cbn
             end;
      repeat split.
  - destruct (total_state self call) as [-> | ->]; [repeat split |].
    destruct self as [raw x c r t].
    unfold generate_total, get_total_raw, bind, read, lift, assign, ret.
    destruct t; cbn; [repeat split |].
    destruct (prices raw); cbn;
      [destruct r; cbn;
       [| destruct (get_currency_raw (mkFD raw x c None None)); cbn] |];
      repeat match goal with
             | |- context [match get_an_attitude ?x with _ => _ end] =>
                 destruct (get_an_attitude x); cbn
             end;
      repeat split.
Qed.

(** On every instance the stored date tables have one and the same
    index: a run of consecutive days, each day once, in increasing
    order. *)
Theorem stored_tables_share_one_range (files : Files) (self : FormalData) :
  reachable files self ->
  exists lo hi,
    on_index (date_range lo hi) (exchanges (df_raw self)) /\
    on_index (date_range lo hi) (prices (df_raw self)) /\
    on_index (date_range lo hi) (weights (df_raw self)) /\
    List.length (date_range lo hi) = Z.to_nat (hi - lo + 1) /\
    (forall i d, nth_error (date_range lo hi) i = Some d ->
                 d = lo + Z.of_nat i) /\
    is_monotonic_increasing (date_range lo hi) = true.
Proof.
  intros Hreach.
  destruct (reachable_spec _ _ Hreach) as (_ & _ & lo & hi & Le & Lp & Lw).
  exists lo, hi.
  split; [apply (loaded_as_on_index _ _ _ Le) |].
  split; [apply (loaded_as_on_index _ _ _ Lp) |].
  split; [apply (loaded_as_on_index _ _ _ Lw) |].
  split; [| split].
  - unfold date_range. rewrite length_map, length_seq. reflexivity.
  - apply nth_error_date_range.
  - apply date_range_monotonic.
Qed.

(** [__get_total_raw] multiplies by label: on a consistent object that
    has prices and a resolved currency table with distinct labels, the
    total table holds at each date and asset the price times the rate
    of that date and asset, NaN when one of the two tables lacks the
    date or the asset. *)
Theorem total_raw_is_the_product (self : FormalData) (p c : DataFrame) :
  consistent self ->
  prices (df_raw self) = Some p ->
  resolved_currency (df_raw self) = Some c ->
  is_unique Z.eqb (index p) = true ->
  is_unique String.eqb (columns p) = true ->
  is_unique Z.eqb (index c) = true ->
  is_unique String.eqb (columns c) = true ->
  exists T,
    returned_value (get_total_raw self) = Some (Some T) /\
    forall i j d asset,
      nth_error (index T) i = Some d ->
      nth_error (columns T) j = Some asset ->
      values T i j = cmul (loc p d asset) (loc c d asset).
Proof.
  intros Hcons Hp Hc Upi Upc Uci Ucc.
  destruct (get_total_raw_ok self Hcons) as (self1 & Hf & _).
  rewrite Hf. unfold total_raw. rewrite Hp, Hc.
  eexists. split; [reflexivity |].
  intros i j d asset Hi Hj.
  unfold df_mul, df_binop in *. cbn [index columns values] in *.
  rewrite (take2_loc p _ _ i j d asset Upi Upc Hi Hj).
  rewrite (take2_loc c _ _ i j d asset Uci Ucc Hi Hj). reflexivity.
Qed.

(** The performance at a date is made of the returns up to that date:
    two return series that agree up to a position have the same
    cumulative product at that position. *)
Theorem performance_looks_back_only (d1 d2 : Series) (t : nat) :
  (forall k, (k <= t)%nat -> s_values d1 k = s_values d2 k) ->
  s_values (cumprod (add_scalar d1 f1)) t
  = s_values (cumprod (add_scalar d2 f1)) t.
Proof.
  intros H. rewrite !cumprod_running. unfold running_performance, growth.
  rewrite <- (H t) by lia. destruct (plus (s_values d1 t) (Some f1)); [| reflexivity].
  f_equal. apply map_ext_in. intros k Hk. apply in_seq in Hk.
  unfold factor, growth. rewrite (H k) by lia. reflexivity.
Qed.


(** ** The checks of date_checker *)

(** A positional date that [try_convert_date_time] cannot normalise
    makes each of the three queries raise TypeError, and the object is
    left as it was: the raw tables and every cached table are the ones
    from before the call.  So does a start date given by position, when
    the end date is given by keyword. *)
Theorem positional_date_is_checked (self : FormalData) (a b : DateArg) :
  (try_convert_date_time a = None \/ try_convert_date_time b = None ->
   calculate_asset_performance self (Positional a b) = Raised TypeError self /\
   calculate_currency_performance self (Positional a b)
   = Raised TypeError self /\
   calculate_total_performance self (Positional a b) = Raised TypeError self) /\
  (try_convert_date_time a = None ->
   calculate_asset_performance self (EndKeyword a b) = Raised TypeError self /\
   calculate_currency_performance self (EndKeyword a b)
   = Raised TypeError self /\
   calculate_total_performance self (EndKeyword a b) = Raised TypeError self).
Proof.
  unfold calculate_asset_performance, calculate_currency_performance,
    calculate_total_performance, date_checker, convert, bind.
  split.
  - intros [Ha | Hb].
    + rewrite Ha. repeat split.
    + rewrite Hb. destruct (try_convert_date_time a); repeat split.
  - intros Ha. rewrite Ha. repeat split.
Qed.

Lemma portfolio_without_weights (self : FormalData) (t : option DataFrame) :
  weights (df_raw self) = None -> get_a_portfolio self t = Ok None.
Proof.
  intros Hw. unfold get_a_portfolio, df_checker. rewrite Hw.
  destruct t; reflexivity.
Qed.

Lemma answer_without_weights (self : FormalData)
    (engine : Result (option DataFrame)) (s e : DateArg) (name : string) :
  weights (df_raw self) = None ->
  answer_from self engine s e name = rmap (fun _ => None) engine.
Proof.
  intros Hw. unfold answer_from, portfolio_from.
  destruct engine as [t | x]; [| reflexivity].
  rewrite (portfolio_without_weights self t Hw). reflexivity.
Qed.

Lemma body_state (generate : Method unit)
    (cache : FormalData -> option DataFrame) (name : string)
    (s e : DateArg) (self : FormalData) :
  state_of
    (bind (bind generate
             (fun _ => bind (read (fun self => self))
                         (fun self => lift (get_a_portfolio self (cache self)))))
          (fun df => lift (portfolio_performance df s e name)) self)
  = state_of (generate self).
Proof.
  rewrite bind_state.
  - rewrite bind_state; [reflexivity |].
    intros [] st. rewrite bind_state; [reflexivity |].
    intros st' st''. apply state_of_outcome.
  - intros df st. apply state_of_outcome.
Qed.

(** The dates given by keyword reach the method as they are, whatever
    they are: the query fills its cache as for any other call, also when
    only the end date is given by keyword and the start date
    normalises, and on an instance without weights it returns None, or
    raises what the return engine raises, for every pair of keyword
    dates. *)
Theorem keyword_dates_reach_the_method (self : FormalData) (a b : DateArg) :
  (state_of (calculate_asset_performance self (Keywords a b))
   = state_of (generate_asset self) /\
   state_of (calculate_currency_performance self (Keywords a b))
   = state_of (generate_currency self) /\
   state_of (calculate_total_performance self (Keywords a b))
   = state_of (generate_total self)) /\
  (forall s,
      try_convert_date_time a = Some s ->
      state_of (calculate_asset_performance self (EndKeyword a b))
      = state_of (generate_asset self) /\
      state_of (calculate_currency_performance self (EndKeyword a b))
      = state_of (generate_currency self) /\
      state_of (calculate_total_performance self (EndKeyword a b))
      = state_of (generate_total self)) /\
  (forall files,
      reachable files self -> weights (df_raw self) = None ->
      result_of (calculate_asset_performance self (Keywords a b)) = Ok None /\
      result_of (calculate_currency_performance self (Keywords a b))
      = rmap (fun _ => None)
             (get_an_attitude (resolved_currency (df_raw self))) /\
      result_of (calculate_total_performance self (Keywords a b))
      = rmap (fun _ => None) (get_an_attitude (total_raw (df_raw self)))).
Proof.
  split; [| split].
  - split; [| split].
    + apply (body_state generate_asset df_asset "Pt").
    + apply (body_state generate_currency df_currency "CPt").
    + apply (body_state generate_total df_total "TPt").
  - intros s Hs.
    unfold calculate_asset_performance, calculate_currency_performance,
      calculate_total_performance, date_checker, convert.
    unfold bind at 1 3 5. rewrite Hs. cbn [ret].
    split; [| split].
    + apply (body_state generate_asset df_asset "Pt").
    + apply (body_state generate_currency df_currency "CPt").
    + apply (body_state generate_total df_total "TPt").
  - intros files Hreach Hw.
    destruct (reachable_consistent _ _ Hreach) as [Hcons _].
    destruct (asset_engine_returns _ _ Hreach) as [v Hv].
    unfold calculate_asset_performance, calculate_currency_performance,
      calculate_total_performance, date_checker.
    rewrite (asset_query_spec self a b Hcons).
    rewrite (currency_query_spec self a b Hcons).
    rewrite (total_query_spec self a b Hcons).
    rewrite !result_of_outcome, !(answer_without_weights self _ _ _ _ Hw).
    rewrite Hv. repeat split.
Qed.


(** ** The return engine *)


(** The return tables of an instance.  The prices are a numeric table,
    for which the engine returns, and the asset cache holds the result.
    For the resolved currency table and for the product of the prices
    and the resolved currency table, the cache holds the result when the
    engine returns; when it raises, the filler of the cache raises the
    same and the cache stays empty. *)
Theorem return_tables_of_an_instance (files : Files) (self : FormalData) :
  reachable files self ->
  (exists v,
      get_an_attitude (prices (df_raw self)) = Ok v /\
      result_of (generate_asset self) = Ok tt /\
      df_asset (state_of (generate_asset self)) = v) /\
  (forall v,
      get_an_attitude (resolved_currency (df_raw self)) = Ok v ->
      result_of (generate_currency self) = Ok tt /\
      df_currency (state_of (generate_currency self)) = v) /\
  (forall x,
      get_an_attitude (resolved_currency (df_raw self)) = Raise x ->
      x = ZeroDivisionError /\
      result_of (generate_currency self) = Raise x /\
      df_currency (state_of (generate_currency self)) = None) /\
  (forall v,
      get_an_attitude (total_raw (df_raw self)) = Ok v ->
      result_of (generate_total self) = Ok tt /\
      df_total (state_of (generate_total self)) = v) /\
  (forall x,
      get_an_attitude (total_raw (df_raw self)) = Raise x ->
      x = ZeroDivisionError /\
      result_of (generate_total self) = Raise x /\
      df_total (state_of (generate_total self)) = None).
Proof.
  intros Hreach. destruct (reachable_consistent _ _ Hreach) as [Hcons _].
  destruct (asset_engine_returns _ _ Hreach) as [v Hv].
  destruct (generate_asset_ok _ Hcons) as (_ & _ & Ra & Va).
  destruct (generate_currency_ok _ Hcons) as (Rc & (_ & _ & Cc & _) & Ec & Vc).
  destruct (generate_total_ok _ Hcons) as (Rt & (_ & _ & _ & Ct) & Et & Vt).
  assert (Hzero : forall t x, get_an_attitude t = Raise x -> x = ZeroDivisionError).
  { intros t x E. destruct t as [d|]; [| discriminate].
    rewrite get_an_attitude_Some in E.
    destruct (attitude d) as [Y | y] eqn:EY; [discriminate |].
    inversion E. subst y. apply (attitude_raises d x EY). }
  split; [| split; [| split; [| split]]].
  - exists v. rewrite Ra, Hv, result_of_outcome. repeat split. apply Va, Hv.
  - intros w Hw. rewrite Ec, Hw, result_of_outcome. split; [reflexivity |].
    apply Vc, Hw.
  - intros x Hx. split; [apply (Hzero _ x Hx) |].
    rewrite Ec, Hx, result_of_outcome. split; [reflexivity |].
    rewrite Rc, Hx in Cc. destruct Cc as [E | E]; [exact E | discriminate].
  - intros w Hw. rewrite Et, Hw, result_of_outcome. split; [reflexivity |].
    apply Vt, Hw.
  - intros x Hx. split; [apply (Hzero _ x Hx) |].
    rewrite Et, Hx, result_of_outcome. split; [reflexivity |].
    rewrite Rt, Hx in Ct. destruct Ct as [E | E]; [exact E | discriminate].
Qed.


(** ** Missing tables and reversed windows *)

(** The matrix of missing tables, on every instance and for every pair
    of positional dates that normalise.  A table is unusable when its
    file is absent or its index is corrupted.  A query whose return
    engine raises, raises the same; this the asset query never does.
    Otherwise: prices unusable and the other tables usable give asset
    None, currency a series, total None; the currency definition absent
    or the exchange rates unusable, with prices and weights usable, give
    asset a series, currency None, total None; weights unusable give
    None three times. *)
Theorem missing_tables_give_none_or_raise (files : Files) (self : FormalData)
    (a b : DateArg) (s e : Date) :
  reachable files self ->
  try_convert_date_time a = Some (Stamp s) ->
  try_convert_date_time b = Some (Stamp e) ->
  let asset := result_of (calculate_asset_performance self (Positional a b)) in
  let currency :=
    result_of (calculate_currency_performance self (Positional a b)) in
  let total := result_of (calculate_total_performance self (Positional a b)) in
  let currency_engine := get_an_attitude (resolved_currency (df_raw self)) in
  let total_engine := get_an_attitude (total_raw (df_raw self)) in
  (is_usable (file_prices files) = false -> currency_ready files = true ->
   asset = Ok None /\
   match currency_engine with
   | Ok _ => exists r, currency = Ok (Some r)
   | Raise x => currency = Raise x
   end /\
   total = Ok None) /\
  (file_currencies files = None \/ is_usable (file_exchanges files) = false ->
   asset_ready files = true ->
   (exists r, asset = Ok (Some r)) /\ currency = Ok None /\ total = Ok None) /\
  (is_usable (file_weights files) = false ->
   asset = Ok None /\
   match currency_engine with
   | Ok _ => currency = Ok None
   | Raise x => currency = Raise x
   end /\
   match total_engine with
   | Ok _ => total = Ok None
   | Raise x => total = Raise x
   end).
Proof.
  intros Hreach Ha Hb. cbn zeta.
  destruct (queries_spec files self a b s e Hreach Ha Hb)
    as (lo & hi & Qa & Qc & Qt).
  destruct (asset_engine_returns _ _ Hreach) as [v Hv].
  destruct (reachable_spec _ _ Hreach)
    as (_ & Hcur & lo' & hi' & Le & Lp & Lw).
  unfold query_answers, asset_ready, currency_ready, total_ready in *.
  rewrite Hv in Qa.
  split; [| split].
  - intros Hp Hc. rewrite Hp in *. rewrite Hc in *. cbn [andb] in *.
    unfold loaded_as in Lp. rewrite Hp in Lp.
    unfold total_raw in *. rewrite Lp in *. cbn [get_an_attitude df_checker] in Qt.
    split; [assumption |]. split; [| assumption].
    destruct (get_an_attitude (resolved_currency (df_raw self))) as [t | x];
      [| assumption].
    destruct Qc as (pf & r & _ & _ & Hr & _). exists r. assumption.
  - intros Hce Hpw. rewrite Hpw in *.
    assert (Hno : is_present (file_currencies files)
                  && is_usable (file_exchanges files) = false).
    { destruct Hce as [Hc | He].
      - rewrite Hc. reflexivity.
      - rewrite He. apply andb_false_r. }
    assert (Hres : resolved_currency (df_raw self) = None).
    { unfold resolved_currency. rewrite Hcur.
      destruct Hce as [Hc | He].
      - rewrite Hc. reflexivity.
      - unfold loaded_as in Le. rewrite He in Le. rewrite Le.
        destruct (file_currencies files); reflexivity. }
    rewrite Hno in *. rewrite andb_false_r in Qt. cbn [andb] in *.
    unfold total_raw in *. rewrite Hres in *.
    assert (Htot : match prices (df_raw self) with
                   | Some _ => @None DataFrame
                   | None => None
                   end = None) by (destruct (prices (df_raw self)); reflexivity).
    rewrite Htot in Qt. cbn [get_an_attitude df_checker] in Qc, Qt.
    destruct Qa as (pf & r & _ & _ & Hr & _).
    split; [exists r; assumption |]. split; assumption.
  - intros Hw. rewrite Hw in *. rewrite !andb_false_r in *.
    split; [assumption |]. split.
    + destruct (get_an_attitude (resolved_currency (df_raw self))); assumption.
    + destruct (get_an_attitude (total_raw (df_raw self))); assumption.
Qed.

(** On every instance, for two positional dates that normalise with the
    start strictly after the end, the asset query, when its tables are
    usable, returns a series (not None, nothing raised) that has no
    date.  So do the currency and the total query when their return
    engine returns; when it raises, they raise the same. *)
Theorem reversed_window_is_empty_or_raises (files : Files) (self : FormalData)
    (a b : DateArg) (s e : Date) :
  reachable files self ->
  try_convert_date_time a = Some (Stamp s) ->
  try_convert_date_time b = Some (Stamp e) ->
  e < s ->
  (asset_ready files = true ->
   exists r, calculate_asset_performance self (Positional a b)
             = Returned (Some r) (state_of (generate_asset self)) /\
             s_index r = []) /\
  (currency_ready files = true ->
   match get_an_attitude (resolved_currency (df_raw self)) with
   | Ok _ =>
       exists r, calculate_currency_performance self (Positional a b)
                 = Returned (Some r) (state_of (generate_currency self)) /\
                 s_index r = []
   | Raise x =>
       calculate_currency_performance self (Positional a b)
       = Raised x (state_of (generate_currency self))
   end) /\
  (total_ready files = true ->
   match get_an_attitude (total_raw (df_raw self)) with
   | Ok _ =>
       exists r, calculate_total_performance self (Positional a b)
                 = Returned (Some r) (state_of (generate_total self)) /\
                 s_index r = []
   | Raise x =>
       calculate_total_performance self (Positional a b)
       = Raised x (state_of (generate_total self))
   end).
Proof.
  intros Hreach Ha Hb Hlt.
  destruct (queries_spec files self a b s e Hreach Ha Hb)
    as (lo & hi & Qa & Qc & Qt).
  destruct (reachable_consistent _ _ Hreach) as [Hcons _].
  destruct (asset_engine_returns _ _ Hreach) as [v Hv].
  rewrite (calculate_asset_spec self a b s e Hcons Ha Hb) in *.
  rewrite (calculate_currency_spec self a b s e Hcons Ha Hb) in *.
  rewrite (calculate_total_spec self a b s e Hcons Ha Hb) in *.
  unfold query_answers in *. rewrite result_of_outcome in Qa, Qc, Qt.
  rewrite Hv in Qa |- *.
  split; [| split]; intros Hready; rewrite Hready in *.
  - destruct Qa as (pf & r & _ & _ & Hr & Hi & _).
    exists r. rewrite Hr. split; [reflexivity |].
    rewrite Hi. apply filter_empty_window. assumption.
  - destruct (get_an_attitude (resolved_currency (df_raw self))) as [t | x].
    + destruct Qc as (pf & r & _ & _ & Hr & Hi & _).
      exists r. rewrite Hr. split; [reflexivity |].
      rewrite Hi. apply filter_empty_window. assumption.
    + rewrite Qc. reflexivity.
  - destruct (get_an_attitude (total_raw (df_raw self))) as [t | x].
    + destruct Qt as (pf & r & _ & _ & Hr & Hi & _).
      exists r. rewrite Hr. split; [reflexivity |].
      rewrite Hi. apply filter_empty_window. assumption.
    + rewrite Qt. reflexivity.
Qed.

End Further.

(** * The further properties on the sample tables *)

Lemma only_the_digits_matter_witness :
  date_checker (fun _ _ => ret (@None Series))
    (Positional (ArgStr "2020/01/01") (ArgInt (-20200103)))
    (instance_of all_files)
  = date_checker (fun _ _ => ret (@None Series))
      (Positional (ArgInt 20200101) (ArgStr "2020-01-03"))
      (instance_of all_files).
Proof.
  apply (proj2 (proj2 (@only_the_digits_matter exact_arith sample_pandas)));
    reflexivity.
Defined.

Lemma second_query_changes_nothing_witness :
  state_of (calculate_asset_performance
              (state_of (calculate_asset_performance (instance_of all_files)
                           (Positional (ArgInt 20200101) (ArgInt 20200103))))
              (Positional (ArgInt 20200102) (ArgInt 20200103)))
  = state_of (calculate_asset_performance (instance_of all_files)
                (Positional (ArgInt 20200101) (ArgInt 20200103))) /\
  state_of (calculate_currency_performance
              (state_of (calculate_currency_performance (instance_of all_files)
                           (Positional (ArgInt 20200101) (ArgInt 20200103))))
              (Positional (ArgInt 20200102) (ArgInt 20200103)))
  = state_of (calculate_currency_performance (instance_of all_files)
                (Positional (ArgInt 20200101) (ArgInt 20200103))) /\
  state_of (calculate_total_performance
              (state_of (calculate_total_performance (instance_of all_files)
                           (Positional (ArgInt 20200101) (ArgInt 20200103))))
              (Positional (ArgInt 20200102) (ArgInt 20200103)))
  = state_of (calculate_total_performance (instance_of all_files)
                (Positional (ArgInt 20200101) (ArgInt 20200103))).
Proof.
  apply (@second_query_changes_nothing exact_arith sample_pandas
           (instance_of all_files) (ArgInt 20200101) (ArgInt 20200103)
           d1 d3
           (Positional (ArgInt 20200102) (ArgInt 20200103))); reflexivity.
Defined.

Lemma answers_do_not_depend_on_history_witness :
  result_of (calculate_asset_performance (instance_of all_files)
               (Positional (ArgInt 20200101) (ArgInt 20200103)))
  = result_of (calculate_asset_performance
                 (state_of (generate_total (instance_of all_files)))
                 (Positional (ArgInt 20200101) (ArgInt 20200103))) /\
  result_of (calculate_currency_performance (instance_of all_files)
               (Positional (ArgInt 20200101) (ArgInt 20200103)))
  = result_of (calculate_currency_performance
                 (state_of (generate_total (instance_of all_files)))
                 (Positional (ArgInt 20200101) (ArgInt 20200103))) /\
  result_of (calculate_total_performance (instance_of all_files)
               (Positional (ArgInt 20200101) (ArgInt 20200103)))
  = result_of (calculate_total_performance
                 (state_of (generate_total (instance_of all_files)))
                 (Positional (ArgInt 20200101) (ArgInt 20200103))).
Proof.
  apply (@answers_do_not_depend_on_history exact_arith sample_pandas all_files
           (instance_of all_files)
           (state_of (generate_total (instance_of all_files)))
           (ArgInt 20200101) (ArgInt 20200103) d1 d3).
  - apply (reach_init all_files). reflexivity.
  - apply reach_generate_total. apply (reach_init all_files). reflexivity.
  - reflexivity.
  - reflexivity.
Defined.

Lemma full_range_spans_usable_dates_witness :
  (forall k t idx d,
      In (k, t) (date_tables all_files) ->
      to_datetime_index (raw_index t) = Some idx -> In d idx ->
      In d [d1; d2; d3]) /\
  (exists lo hi,
      [d1; d2; d3] = date_range lo hi /\
      In lo (List.concat (good_frames all_files)) /\
      In hi (List.concat (good_frames all_files)) /\
      forall d, In d [d1; d2; d3] <-> lo <= d <= hi) /\
  (forall k, In k [] <->
             exists t, In (k, t) (date_tables all_files) /\
                       to_datetime_index (raw_index t) = None).
Proof.
  apply (@full_range_spans_usable_dates exact_arith all_files [d1; d2; d3] []).
  reflexivity.
Defined.

Lemma construction_keeps_observations_witness :
  keeps_observations (file_exchanges all_files)
    (exchanges (df_raw (instance_of all_files))) /\
  keeps_observations (file_prices all_files)
    (prices (df_raw (instance_of all_files))) /\
  keeps_observations (file_weights all_files)
    (weights (df_raw (instance_of all_files))).
Proof.
  apply (@construction_keeps_observations exact_arith all_files
           (instance_of all_files)).
  reflexivity.
Defined.

Lemma no_usable_table_gives_none_witness :
  init (mkFiles (Some currencies_A) (Some (corrupted exchanges_USD)) None
                (Some (corrupted weights_A)))
  = Some (mkFD (mkRaw (Some currencies_A) None None None) None None None None) /\
  calculate_asset_performance
    (mkFD (mkRaw (Some currencies_A) None None None) None None None None)
    (Positional (ArgInt 20130201) (ArgInt 20190120))
  = Returned None
      (state_of
         (generate_asset
            (mkFD (mkRaw (Some currencies_A) None None None)
                  None None None None))) /\
  calculate_currency_performance
    (mkFD (mkRaw (Some currencies_A) None None None) None None None None)
    (Positional (ArgInt 20130201) (ArgInt 20190120))
  = Returned None
      (state_of
         (generate_currency
            (mkFD (mkRaw (Some currencies_A) None None None)
                  None None None None))) /\
  calculate_total_performance
    (mkFD (mkRaw (Some currencies_A) None None None) None None None None)
    (Positional (ArgInt 20130201) (ArgInt 20190120))
  = Returned None
      (state_of
         (generate_total
            (mkFD (mkRaw (Some currencies_A) None None None)
                  None None None None))).
Proof.
  destruct (@no_usable_table_gives_none exact_arith sample_pandas
              (mkFiles (Some currencies_A) (Some (corrupted exchanges_USD)) None
                       (Some (corrupted weights_A)))
              (mkFD (mkRaw (Some currencies_A) None None None)
                    None None None None)
              (ArgInt 20130201) (ArgInt 20190120) 15737 17916
              eq_refl eq_refl eq_refl) as [Hinit Hq].
  split; [exact Hinit |].
  apply Hq; [apply reach_init; exact Hinit | reflexivity | reflexivity].
Defined.

Lemma corrupted_table_is_absent_witness :
  init (mkFiles (Some currencies_A) (Some (corrupted exchanges_USD))
                (Some prices_A) (Some weights_A))
  = init (mkFiles (Some currencies_A) None (Some prices_A) (Some weights_A)) /\
  init (mkFiles (Some currencies_A) (Some exchanges_USD)
                (Some (corrupted exchanges_USD)) (Some weights_A))
  = init (mkFiles (Some currencies_A) (Some exchanges_USD) None
                  (Some weights_A)) /\
  init (mkFiles (Some currencies_A) (Some exchanges_USD) (Some prices_A)
                (Some (corrupted exchanges_USD)))
  = init (mkFiles (Some currencies_A) (Some exchanges_USD) (Some prices_A) None).
Proof.
  apply (@corrupted_table_is_absent exact_arith (Some currencies_A)
           (Some exchanges_USD) (Some prices_A) (Some weights_A)
           (corrupted exchanges_USD)).
  reflexivity.
Defined.

Lemma window_is_closed_interval_witness :
  exists pf,
    returned_value (get_asset_portfolio (instance_of asset_files))
    = Some (Some pf) /\
    s_name (answer (calculate_asset_performance (instance_of asset_files)
                      (Positional (ArgInt 20200101) (ArgInt 20200102))))
    = Some "Pt"%string /\
    forall d,
      In d (s_index (answer (calculate_asset_performance
                               (instance_of asset_files)
                               (Positional (ArgInt 20200101)
                                           (ArgInt 20200102)))))
      <-> In d (s_index pf) /\ d1 <= d <= d2.
Proof.
  apply (proj1 (@window_is_closed_interval exact_arith sample_pandas asset_files
                  (instance_of asset_files)
                  (ArgInt 20200101) (ArgInt 20200102) d1 d2
                  (reach_init asset_files eq_refl) eq_refl eq_refl)).
  vm_compute. reflexivity.
Defined.

Lemma value_at_a_date_ignores_the_window_witness :
  exists v,
    at_date (answer (calculate_asset_performance (instance_of asset_files)
                       (Positional (ArgInt 20200101) (ArgInt 20200103))))
            d2 = Some v /\
    at_date (answer (calculate_asset_performance (instance_of asset_files)
                       (Positional (ArgInt 20200102) (ArgInt 20200102))))
            d2 = Some v.
Proof.
  apply (proj1 (@value_at_a_date_ignores_the_window exact_arith sample_pandas
                  asset_files (instance_of asset_files)
                  (ArgInt 20200101) (ArgInt 20200103)
                  (ArgInt 20200102) (ArgInt 20200102) d1 d3 d2 d2 d2
                  (reach_init asset_files eq_refl)
                  eq_refl eq_refl eq_refl eq_refl)).
  - vm_compute. reflexivity.
  - vm_compute. reflexivity.
  - vm_compute. right. left. reflexivity.
  - vm_compute. left. reflexivity.
Defined.

Lemma first_return_is_undefined_witness :
  (exists R, get_an_attitude (Some prices_frame_AB) = Ok (Some R)) /\
  (exists pf,
      get_a_portfolio (weighted weights_full_AB)
        (Some (returned_table (get_an_attitude (Some prices_frame_AB))))
      = Ok (Some pf) /\
      s_index pf = index prices_frame_AB /\
      s_values pf 0 = NaN /\
      s_values (cumprod (add_scalar pf f1)) 0 = NaN) /\
  to_list (the (get_a_portfolio (weighted weights_full_AB)
                  (Some (returned_table
                           (get_an_attitude (Some prices_frame_AB))))))
  = [NaN; num 2; num 3].
Proof.
  destruct (@first_return_is_undefined exact_arith (weighted weights_full_AB)
              prices_frame_AB weights_full_AB
              (returned_table (get_an_attitude (Some prices_frame_AB)))
              eq_refl eq_refl) as [Hn Hy].
  { discriminate. }
  split; [exact (Hn eq_refl) |]. split; [exact (Hy eq_refl) | reflexivity].
Defined.

Lemma resolved_column_is_exchange_column_witness :
  exists t,
    get_currency_raw resolver_state = Some t /\
    nth_error (columns t) 0 = Some "A"%string /\
    forall i, values t i 0 = values usd_frame i 0.
Proof.
  apply (@resolved_column_is_exchange_column exact_arith resolver_state
           currencies_AB usd_frame 0 0 0 "A"%string "USD"%string
           (Fin (inject_Z 1)));
    try reflexivity.
  simpl. lia.
Defined.

Lemma stored_tables_share_one_range_witness :
  exists lo hi,
    on_index (date_range lo hi) (exchanges (df_raw (instance_of all_files))) /\
    on_index (date_range lo hi) (prices (df_raw (instance_of all_files))) /\
    on_index (date_range lo hi) (weights (df_raw (instance_of all_files))) /\
    List.length (date_range lo hi) = Z.to_nat (hi - lo + 1) /\
    (forall i d, nth_error (date_range lo hi) i = Some d ->
                 d = lo + Z.of_nat i) /\
    is_monotonic_increasing (date_range lo hi) = true.
Proof.
  apply (@stored_tables_share_one_range exact_arith sample_pandas all_files
           (instance_of all_files)).
  apply (reach_init all_files). reflexivity.
Defined.

Lemma total_raw_is_the_product_witness :
  exists T,
    returned_value (get_total_raw (instance_of all_files)) = Some (Some T) /\
    forall i j d asset,
      nth_error (index T) i = Some d ->
      nth_error (columns T) j = Some asset ->
      values T i j
      = cmul (loc (table_of (prices (df_raw (instance_of all_files)))) d asset)
             (loc (table_of (resolved_currency
                               (df_raw (instance_of all_files)))) d asset).
Proof.
  apply (@total_raw_is_the_product exact_arith (instance_of all_files)
           (table_of (prices (df_raw (instance_of all_files))))
           (table_of (resolved_currency (df_raw (instance_of all_files)))));
    try reflexivity.
  repeat split; left; reflexivity.
Defined.

Lemma performance_looks_back_only_witness :
  s_values (cumprod (add_scalar returns_A f1)) 1
  = s_values (cumprod (add_scalar returns_B f1)) 1.
Proof.
  apply (@performance_looks_back_only exact_arith returns_A returns_B 1).
  intros k Hk. destruct k as [|[|k]]; [reflexivity | reflexivity | lia].
Defined.

Lemma positional_date_is_checked_witness :
  (calculate_asset_performance (instance_of all_files)
     (Positional (ArgInt 20130201) (ArgInt 201901200))
   = Raised TypeError (instance_of all_files) /\
   calculate_currency_performance (instance_of all_files)
     (Positional (ArgInt 20130201) (ArgInt 201901200))
   = Raised TypeError (instance_of all_files) /\
   calculate_total_performance (instance_of all_files)
     (Positional (ArgInt 20130201) (ArgInt 201901200))
   = Raised TypeError (instance_of all_files)) /\
  (calculate_asset_performance (instance_of all_files)
     (EndKeyword (ArgStr "201901200") (ArgInt 20130201))
   = Raised TypeError (instance_of all_files) /\
   calculate_currency_performance (instance_of all_files)
     (EndKeyword (ArgStr "201901200") (ArgInt 20130201))
   = Raised TypeError (instance_of all_files) /\
   calculate_total_performance (instance_of all_files)
     (EndKeyword (ArgStr "201901200") (ArgInt 20130201))
   = Raised TypeError (instance_of all_files)).
Proof.
  split.
  - apply (proj1 (@positional_date_is_checked exact_arith sample_pandas
                    (instance_of all_files)
                    (ArgInt 20130201) (ArgInt 201901200))).
    right. reflexivity.
  - apply (proj2 (@positional_date_is_checked exact_arith sample_pandas
                    (instance_of all_files)
                    (ArgStr "201901200") (ArgInt 20130201))).
    reflexivity.
Defined.

Lemma keyword_dates_reach_the_method_witness :
  result_of (calculate_asset_performance (instance_of without_weights)
               (Keywords (ArgStr "201901200") (ArgInt 7)))
  = Ok None /\
  result_of (calculate_currency_performance (instance_of without_weights)
               (Keywords (ArgStr "201901200") (ArgInt 7)))
  = rmap (fun _ => None)
         (get_an_attitude
            (resolved_currency (df_raw (instance_of without_weights)))) /\
  result_of (calculate_total_performance (instance_of without_weights)
               (Keywords (ArgStr "201901200") (ArgInt 7)))
  = rmap (fun _ => None)
         (get_an_attitude (total_raw (df_raw (instance_of without_weights)))).
Proof.
  apply (proj2 (proj2 (@keyword_dates_reach_the_method exact_arith
                         sample_pandas (instance_of without_weights)
                         (ArgStr "201901200") (ArgInt 7)))
               without_weights).
  - apply (reach_init without_weights). reflexivity.
  - reflexivity.
Defined.


Lemma return_tables_of_an_instance_witness :
  (exists v,
      get_an_attitude (prices (df_raw (instance_of zero_rate_files))) = Ok v /\
      result_of (generate_asset (instance_of zero_rate_files)) = Ok tt /\
      df_asset (state_of (generate_asset (instance_of zero_rate_files))) = v) /\
  (result_of (generate_currency (instance_of zero_rate_files))
   = Raise ZeroDivisionError /\
   df_currency (state_of (generate_currency (instance_of zero_rate_files)))
   = None) /\
  (result_of (generate_total (instance_of all_files)) = Ok tt /\
   option_map to_rows
     (df_total (state_of (generate_total (instance_of all_files))))
   = Some [[NaN]; [num 3]; [num 2]]).
Proof.
  destruct (@return_tables_of_an_instance exact_arith sample_pandas
              zero_rate_files (instance_of zero_rate_files)
              (reach_init zero_rate_files eq_refl)) as (Ha & _ & Hc & _).
  destruct (@return_tables_of_an_instance exact_arith sample_pandas
              all_files (instance_of all_files)
              (reach_init all_files eq_refl)) as (_ & _ & _ & Ht & _).
  split; [exact Ha |]. split.
  - apply (Hc ZeroDivisionError). reflexivity.
  - destruct (Ht (df_total (state_of (generate_total (instance_of all_files))))
                 eq_refl) as [Hr _].
    split; [exact Hr | reflexivity].
Defined.

Lemma missing_tables_give_none_or_raise_witness :
  (result_of (calculate_asset_performance (instance_of corrupted_prices)
                (Positional (ArgInt 20200101) (ArgInt 20200103))) = Ok None /\
   (exists r,
       result_of (calculate_currency_performance (instance_of corrupted_prices)
                    (Positional (ArgInt 20200101) (ArgInt 20200103)))
       = Ok (Some r)) /\
   result_of (calculate_total_performance (instance_of corrupted_prices)
                (Positional (ArgInt 20200101) (ArgInt 20200103))) = Ok None) /\
  ((exists r,
       result_of (calculate_asset_performance (instance_of without_currencies)
                    (Positional (ArgInt 20200101) (ArgInt 20200103)))
       = Ok (Some r)) /\
   result_of (calculate_currency_performance (instance_of without_currencies)
                (Positional (ArgInt 20200101) (ArgInt 20200103))) = Ok None /\
   result_of (calculate_total_performance (instance_of without_currencies)
                (Positional (ArgInt 20200101) (ArgInt 20200103))) = Ok None) /\
  (result_of (calculate_asset_performance (instance_of corrupted_weights)
                (Positional (ArgInt 20200101) (ArgInt 20200103))) = Ok None /\
   result_of (calculate_currency_performance (instance_of corrupted_weights)
                (Positional (ArgInt 20200101) (ArgInt 20200103))) = Ok None /\
   result_of (calculate_total_performance (instance_of corrupted_weights)
                (Positional (ArgInt 20200101) (ArgInt 20200103))) = Ok None).
Proof.
  split; [| split].
  - apply (proj1 (@missing_tables_give_none_or_raise exact_arith sample_pandas
                    corrupted_prices (instance_of corrupted_prices)
                    (ArgInt 20200101) (ArgInt 20200103) d1 d3
                    (reach_init corrupted_prices eq_refl) eq_refl eq_refl));
      reflexivity.
  - apply (proj1 (proj2 (@missing_tables_give_none_or_raise exact_arith
                           sample_pandas
                           without_currencies (instance_of without_currencies)
                           (ArgInt 20200101) (ArgInt 20200103) d1 d3
                           (reach_init without_currencies eq_refl)
                           eq_refl eq_refl))).
    + left. reflexivity.
    + reflexivity.
  - apply (proj2 (proj2 (@missing_tables_give_none_or_raise exact_arith
                           sample_pandas
                           corrupted_weights (instance_of corrupted_weights)
                           (ArgInt 20200101) (ArgInt 20200103) d1 d3
                           (reach_init corrupted_weights eq_refl)
                           eq_refl eq_refl))).
    reflexivity.
Defined.

Lemma reversed_window_is_empty_or_raises_witness :
  (exists r,
      calculate_asset_performance (instance_of all_files)
        (Positional (ArgInt 20200103) (ArgStr "2020-01-01"))
      = Returned (Some r) (state_of (generate_asset (instance_of all_files))) /\
      s_index r = []) /\
  (exists r,
      calculate_currency_performance (instance_of all_files)
        (Positional (ArgInt 20200103) (ArgStr "2020-01-01"))
      = Returned (Some r)
                 (state_of (generate_currency (instance_of all_files))) /\
      s_index r = []) /\
  (exists r,
      calculate_total_performance (instance_of all_files)
        (Positional (ArgInt 20200103) (ArgStr "2020-01-01"))
      = Returned (Some r) (state_of (generate_total (instance_of all_files))) /\
      s_index r = []).
Proof.
  destruct (@reversed_window_is_empty_or_raises exact_arith sample_pandas
              all_files (instance_of all_files)
              (ArgInt 20200103) (ArgStr "2020-01-01")
              d3 d1 (reach_init all_files eq_refl) eq_refl eq_refl eq_refl)
    as (Ha & Hc & Ht).
  split; [exact (Ha eq_refl) | split; [exact (Hc eq_refl) | exact (Ht eq_refl)]].
Defined.
